(** * workout-api: the store adapters and the request handlers

    The repository holds two programs over the same two tables:

    - [db.js] lines 1-174 with [server.js]: the adapter over the hosted
      store (a REST client) and the single action-dispatched endpoint
      [/api/workout]; modelled in [Module Supabase].
    - [db.js] lines 175-385: the per-resource routes over the embedded
      store (an SQL engine in the process); modelled in [Module Sqlite].

    The tables are lists of rows.  A store call is a function on the
    store state; an exception is a [Throw] result that keeps the state
    reached so far.  The stores themselves are not code of the
    repository: what is written here for them is the behaviour of the
    statements the code issues (filters, ordering, the key and
    [NOT NULL] constraints of the schema text in the source), with
    integer and text columns over [Z] and [string] (the widths of the
    column types are not modelled) and with the store always reachable. *)

From Stdlib Require Import ZArith List String Ascii Bool Lia.
From Stdlib Require Import Sorted Permutation OrderedTypeEx.
Import ListNotations.

Local Open Scope string_scope.
Local Open Scope list_scope.
Local Open Scope Z_scope.

(** ** Ordering of query results *)

Section OrderBy.
Context {A : Type}.
Variable leb : A -> A -> bool.

(** Stable insertion: [x] goes before the first row it does not exceed. *)
Fixpoint insert_row (x : A) (l : list A) : list A :=
  match l with
  | [] => [x]
  | y :: l' => if leb x y then x :: l else y :: insert_row x l'
  end.

(** [ORDER BY] / [.order(...)]: the rows, sorted by [leb]. *)
Definition order_by (l : list A) : list A :=
  fold_right insert_row [] l.
End OrderBy.

(** ** JavaScript values the handlers look at *)

Module Js.

(** [!s] for a string-or-missing value: [None] is [undefined] or
    [null], the empty string is falsy as well. *)
Definition truthy_str (v : option string) : bool :=
  match v with
  | None => false
  | Some s => negb (s =? "")%string
  end.

(** White space [parseInt] skips (the ASCII part of it). *)
Definition is_space (c : ascii) : bool :=
  let n := N_of_ascii c in
  ((9 <=? n) && (n <=? 13) || (n =? 32))%N.

Fixpoint trim_start (s : string) : string :=
  match s with
  | String c s' => if is_space c then trim_start s' else s
  | EmptyString => s
  end.

(** Value of a digit in the given radix, if it is one. *)
Definition digit (radix : Z) (c : ascii) : option Z :=
  let n := Z.of_N (N_of_ascii c) in
  let v :=
    if (48 <=? n) && (n <=? 57) then Some (n - 48)
    else if (97 <=? n) && (n <=? 122) then Some (n - 87)
    else if (65 <=? n) && (n <=? 90) then Some (n - 55)
    else None in
  match v with
  | Some d => if d <? radix then Some d else None
  | None => None
  end.

(** Longest prefix of digits; [None] when there is not even one. *)
Fixpoint digits (radix : Z) (acc : option Z) (s : string) : option Z :=
  match s with
  | String c s' =>
      match digit radix c with
      | Some d =>
          digits radix
            (Some (match acc with Some a => a * radix + d | None => d end)) s'
      | None => acc
      end
  | EmptyString => acc
  end.

Definition strip_sign (s : string) : bool * string :=
  match s with
  | String "-" s' => (true, s')
  | String "+" s' => (false, s')
  | _ => (false, s)
  end.

Definition strip_hex (s : string) : Z * string :=
  match s with
  | String "0" (String "x" s') => (16, s')
  | String "0" (String "X" s') => (16, s')
  | _ => (10, s)
  end.

(** [parseInt(s)] with no radix argument; [None] is [NaN].  The
    result is exact (the source's numbers lose precision beyond
    2^53). *)
Definition parseInt (s : string) : option Z :=
  let (neg, s1) := strip_sign (trim_start s) in
  let (radix, s2) := strip_hex s1 in
  match digits radix None s2 with
  | Some n => Some (if neg then - n else n)
  | None => None
  end.

(** [[...new Set(xs)]]: the elements in order of first insertion. *)
Fixpoint set_add_all (acc : list string) (xs : list string) : list string :=
  match xs with
  | [] => acc
  | x :: xs' =>
      set_add_all (if existsb (String.eqb x) acc then acc else acc ++ [x]) xs'
  end.

Definition spread_set (xs : list string) : list string := set_add_all [] xs.

End Js.

(** ** The tables *)

(** A row of [exercise (id, name, gif)]. *)
Record exercise_row := mkExercise {
  ex_id : Z;
  ex_name : string;
  ex_gif : option string
}.

(** A row of [workout (id, date, exercise_id, duration)]. *)
Record workout_row := mkWorkout {
  w_id : Z;
  w_date : string;
  w_exercise_id : Z;
  w_duration : option Z
}.

(** The store: both tables and the last value handed out by each id
    sequence. *)
Record db := mkDb {
  exercise : list exercise_row;
  workout : list workout_row;
  exercise_seq : Z;
  workout_seq : Z
}.

(** A workout row as the two readers return it: the row's columns with
    the exercise's [name] and [gif] as fields of the same record.
    [v_exercise] is the nested record the REST reader leaves in place
    ([None] where the reader has no such field). *)
Record workout_view := mkView {
  v_id : Z;
  v_date : string;
  v_exercise_id : Z;
  v_duration : option Z;
  v_exercise : option (string * option string);
  v_name : string;
  v_gif : option string
}.

(** An element of the [exercises] array of a save request: [null], or
    a value read through its [id] and [duration], both integers when
    present (an element that is a number, a string or a boolean has
    neither: [ElObj None None]). *)
Inductive element :=
| ElNull                                         (* [null] *)
| ElObj (id : option Z) (duration : option Z).   (* a field is [None] when absent or [null] *)

(** The [exercises] field of a request body: missing, a value that
    is not an array, or an array. *)
Inductive non_array := NANull | NABool (b : bool) | NANum (n : Z) | NAStr (s : string) | NAObject.

Inductive exercises_field :=
| ExUndefined
| ExValue (v : non_array)
| ExArray (l : list element).

Definition truthy_exercises (e : exercises_field) : bool :=
  match e with
  | ExUndefined => false
  | ExValue NANull => false
  | ExValue (NABool b) => b
  | ExValue (NANum n) => negb (n =? 0)
  | ExValue (NAStr s) => negb (s =? "")%string
  | ExValue NAObject => true
  | ExArray _ => true
  end.

Definition isArray (e : exercises_field) : bool :=
  match e with ExArray _ => true | _ => false end.

Definition elements (e : exercises_field) : list element :=
  match e with ExArray l => l | _ => [] end.

(** A parsed JSON body: the fields the handlers read.  [date], [name]
    and [gif] are strings when present; such a field is [None] when it
    is absent or [null]. *)
Record body := mkBody {
  b_date : option string;
  b_exercises : exercises_field;
  b_name : option string;
  b_gif : option string
}.

(** ** Results, exceptions and responses *)

Inductive result (A : Type) :=
| Ok (a : A)
| Throw (message : string).
Arguments Ok {A} a.
Arguments Throw {A} message.

(** A computation over the store; a [Throw] keeps the state it reached. *)
Definition M (A : Type) : Type := db -> result A * db.

Definition ret {A} (a : A) : M A := fun s => (Ok a, s).
Definition throw {A} (m : string) : M A := fun s => (Throw m, s).
Definition bind {A B} (c : M A) (k : A -> M B) : M B :=
  fun s => match c s with
           | (Ok a, s') => k a s'
           | (Throw m, s') => (Throw m, s')
           end.

Notation "x <- c ;; k" := (bind c (fun x => k))
  (at level 61, c at next level, right associativity).
Notation "c ;;; k" := (bind c (fun _ => k))
  (at level 61, right associativity).

(** What a handler sends back. *)
Inductive reply :=
| RError (msg : string)                              (* [{ error }] *)
| RExercises (l : list exercise_row)
| RExercise (e : exercise_row)
| RCreated (id : Z) (name gif : option string)       (* [{ id, name, gif }] *)
| RWorkouts (l : list workout_view)
| RDates (l : list string)
| RSuccess                                           (* [{ success: true }] *)
| RDeletedRows (count : Z)                           (* [{ success: true, deletedRows }] *)
| RUpdated (updated : bool)                          (* [{ success: true, updated }] *)
| RDeleted (deleted : bool)                          (* [{ success: true, deleted }] *)
| REmpty.                                            (* no body *)

Record response := mkResponse {
  status : Z;
  sent : reply
}.

(** The rows of a date, the rows of an exercise, and id lookups. *)
Definition has_date (d : string) (w : workout_row) : bool := (w_date w =? d)%string.
Definition uses_exercise (i : Z) (w : workout_row) : bool := w_exercise_id w =? i.
Definition has_id (i : Z) (e : exercise_row) : bool := ex_id e =? i.
Definition by_id (a b : workout_row) : bool := w_id a <=? w_id b.
Definition by_ex_id (a b : exercise_row) : bool := ex_id a <=? ex_id b.
Definition date_desc (a b : string) : bool := String.leb b a.

(** What the schema's keys keep true of a store: primary keys are
    unique, they come from the sequences, and every workout row
    references an exercise row. *)
Definition references_exercise (s : db) (w : workout_row) : Prop :=
  exists e, In e (exercise s) /\ ex_id e = w_exercise_id w.

Definition primary_keys (s : db) : Prop :=
  NoDup (map ex_id (exercise s)) /\ NoDup (map w_id (workout s)).

Definition sequences_ahead (s : db) : Prop :=
  Forall (fun e => ex_id e <= exercise_seq s) (exercise s) /\
  Forall (fun w => w_id w <= workout_seq s) (workout s).

Definition foreign_keys (s : db) : Prop :=
  Forall (references_exercise s) (workout s).

Definition db_ok (s : db) : Prop :=
  primary_keys s /\ sequences_ahead s /\ foreign_keys s.

(** The embedded store hands out keys from the rows themselves: its
    states are told by unique keys and valid references alone. *)
Definition embedded_ok (s : db) : Prop :=
  primary_keys s /\ foreign_keys s.

(** ** db.js (lines 1-174) and server.js: the hosted store *)

Module Supabase.

(** The client's [error] object. *)
Record pg_error := mkError {
  code : string;
  message : string
}.

(** What a client call resolves to: [error], or [data] (with the
    exact [count] where the code asks for one).  A call never throws. *)
Definition answer (A : Type) : Type := (pg_error + A)%type.

(** The store's errors, told apart by their code.  The store's own
    texts also name, in quotation marks, the value, column or
    constraint involved. *)
Definition invalid_integer : pg_error :=
  mkError "22P02" "invalid input syntax for type integer: NaN".
Definition no_single_row : pg_error :=
  mkError "PGRST116" "JSON object requested, multiple (or no) rows returned".
Definition not_null_violation (col : string) : pg_error :=
  mkError "23502"
          ("null value in column " ++ col ++ " violates not-null constraint")%string.
Definition foreign_key_violation : pg_error :=
  mkError "23503" "insert or update on table workout violates foreign key constraint".
Definition still_referenced : pg_error :=
  mkError "23503" "update or delete on table exercise violates foreign key constraint".
Definition unique_violation : pg_error :=
  mkError "23505" "duplicate key value violates unique constraint".

Definition out_of_range : pg_error :=
  mkError "22003" "value is out of range for type integer".
Definition too_long (width : string) : pg_error :=
  mkError "22001"
          ("value too long for type character varying(" ++ width ++ ")")%string.
Definition sequence_exhausted : pg_error :=
  mkError "2200H" "nextval: reached maximum value of sequence".

(** *** The column types of the schema text

    [id SERIAL], [exercise_id INTEGER] and [duration INTEGER] hold
    32-bit signed integers; [date VARCHAR(10)], [name VARCHAR(255)]
    and [gif VARCHAR(255)] hold at most that many characters. *)
Definition int4 (z : Z) : bool := (-2147483648 <=? z) && (z <=? 2147483647).

Fixpoint spaces_only (t : string) : bool :=
  match t with
  | EmptyString => true
  | String c t' => (c =? " ")%char && spaces_only t'
  end.

(** What a [VARCHAR(n)] column stores for [t]: [t] when it fits; its
    first [n] characters when all that is cut off is spaces; nothing,
    the statement being refused, otherwise. *)
Definition varchar (n : nat) (t : string) : option string :=
  if (String.length t <=? n)%nat then Some t
  else if spaces_only (substring n (String.length t - n) t)
       then Some (substring 0 n t)
       else None.

(** A value sent for an [INTEGER] column, [null] included. *)
Definition integer_value (v : option Z) : answer (option Z) :=
  match v with
  | None => inr None
  | Some z => if int4 z then inr (Some z) else inl out_of_range
  end.

(** A value sent for a [VARCHAR(255)] column, [null] included. *)
Definition varchar255_value (v : option string) : answer (option string) :=
  match v with
  | None => inr None
  | Some t =>
      match varchar 255 t with
      | Some t' => inr (Some t')
      | None => inl (too_long "255")
      end
  end.

(** The number of [.eq(column, id)] on an [INTEGER] column: [NaN] is
    not an integer, and a number outside the type is refused. *)
Definition integer_filter (id : option Z) : answer Z :=
  match id with
  | None => inl invalid_integer
  | Some i => if int4 i then inr i else inl out_of_range
  end.

(** *** The store's side of each call

    The tables are those of the schema text in [initializeTables],
    with their primary keys, [NOT NULL] columns and foreign key.  In
    the store calls a [name] or [gif] that is [None] is [null], an
    [id] that is [None] is [NaN]. *)

(** [from("exercise").select("*").order("id")] *)
Definition select_exercises : M (answer (list exercise_row)) :=
  fun s => (Ok (inr (order_by by_ex_id (exercise s))), s).

(** [from("exercise").select("*").eq("id", id).single()]; the number
    [id] is [None] when it is [NaN]. *)
Definition select_exercise_single (id : option Z) : M (answer exercise_row) :=
  fun s =>
    match integer_filter id with
    | inl err => (Ok (inl err), s)
    | inr i =>
        match filter (has_id i) (exercise s) with
        | [e] => (Ok (inr e), s)
        | _ => (Ok (inl no_single_row), s)
        end
    end.

(** The embedded resource [exercise:exercise_id (name, gif)] of a
    workout row: the referenced exercise's two columns, or [null]. *)
Definition embed_exercise (s : db) (w : workout_row)
  : workout_row * option (string * option string) :=
  (w, match find (has_id (w_exercise_id w)) (exercise s) with
      | Some e => Some (ex_name e, ex_gif e)
      | None => None
      end).

(** [from("workout").select("*, exercise:exercise_id (name, gif)")
     .eq("date", date).order("id")] *)
Definition select_workout_with_exercise (date : string)
  : M (answer (list (workout_row * option (string * option string)))) :=
  fun s =>
    (Ok (inr (map (embed_exercise s)
                  (order_by by_id (filter (has_date date) (workout s))))), s).

(** [from("workout").delete().eq("date", date)], with the count of
    the rows removed. *)
Definition delete_workout_by_date (date : string) : M (answer Z) :=
  fun s =>
    (Ok (inr (Z.of_nat (List.length (filter (has_date date) (workout s))))),
     mkDb (exercise s)
          (filter (fun w => negb (has_date date w)) (workout s))
          (exercise_seq s) (workout_seq s)).

(** A row as [saveWorkout] builds it for the insert. *)
Record workout_data := mkData {
  date : string;
  exercise_id : option Z;
  duration : option Z
}.

(** The payload as the statement reads it, every value converted to
    the type of its column; a value that does not convert refuses the
    statement before any row is written. *)
Fixpoint read_rows (rows : list workout_data) : answer (list workout_data) :=
  match rows with
  | [] => inr []
  | r :: rest =>
      match varchar 10 (date r), integer_value (exercise_id r),
            integer_value (duration r) with
      | None, _, _ => inl (too_long "10")
      | Some _, inl err, _ => inl err
      | Some _, inr _, inl err => inl err
      | Some d, inr e, inr n =>
          match read_rows rest with
          | inl err => inl err
          | inr rs => inr (mkData d e n :: rs)
          end
      end
  end.

(** The rows written one after the other: each takes the next value
    of the sequence for its [id], then meets [NOT NULL] and the
    primary key.  A refusal comes with the last value the sequence
    handed out, which the sequence keeps. *)
Fixpoint write_rows (table : list workout_row) (last : Z) (rows : list workout_data)
  : (pg_error * Z) + list workout_row :=
  match rows with
  | [] => inr []
  | r :: rest =>
      let key := last + 1 in
      if negb (int4 key) then inl (sequence_exhausted, last)
      else
        match exercise_id r with
        | None => inl (not_null_violation "exercise_id", key)
        | Some e =>
            if existsb (fun w => w_id w =? key) table then inl (unique_violation, key)
            else match write_rows table key rest with
                 | inl refusal => inl refusal
                 | inr ws => inr (mkWorkout key (date r) e (duration r) :: ws)
                 end
        end
  end.

(** The foreign key, checked when all rows are written. *)
Definition exercise_exists (s : db) (w : workout_row) : bool :=
  existsb (has_id (w_exercise_id w)) (exercise s).

(** [from("workout").insert(rows)]: one statement, all rows or none.
    A refused statement writes no row; the values it took from the
    sequence stay taken. *)
Definition insert_workout (rows : list workout_data) : M (answer unit) :=
  fun s =>
    match read_rows rows with
    | inl err => (Ok (inl err), s)
    | inr rs =>
        match write_rows (workout s) (workout_seq s) rs with
        | inl (err, last) =>
            (Ok (inl err), mkDb (exercise s) (workout s) (exercise_seq s) last)
        | inr ws =>
            let last := workout_seq s + Z.of_nat (List.length ws) in
            if forallb (exercise_exists s) ws
            then (Ok (inr tt),
                  mkDb (exercise s) (workout s ++ ws) (exercise_seq s) last)
            else (Ok (inl foreign_key_violation),
                  mkDb (exercise s) (workout s) (exercise_seq s) last)
        end
    end.

(** [from("workout").select("date").order("date", { ascending: false })] *)
Definition select_dates_desc : M (answer (list string)) :=
  fun s => (Ok (inr (order_by date_desc (map w_date (workout s)))), s).

(** [from("exercise").insert({ name, gif }).select().single()]: the
    two values are converted, the row takes the next value of the
    sequence, then meets [NOT NULL] and the primary key. *)
Definition insert_exercise (name gif : option string) : M (answer exercise_row) :=
  fun s =>
    match varchar255_value name, varchar255_value gif with
    | inl err, _ => (Ok (inl err), s)
    | inr _, inl err => (Ok (inl err), s)
    | inr name', inr gif' =>
        let i := exercise_seq s + 1 in
        if negb (int4 i) then (Ok (inl sequence_exhausted), s)
        else
          match name' with
          | None =>
              (Ok (inl (not_null_violation "name")),
               mkDb (exercise s) (workout s) i (workout_seq s))
          | Some n =>
              if existsb (has_id i) (exercise s)
              then (Ok (inl unique_violation),
                    mkDb (exercise s) (workout s) i (workout_seq s))
              else
                let e := mkExercise i n gif' in
                (Ok (inr e), mkDb (exercise s ++ [e]) (workout s) i (workout_seq s))
          end
    end.

Definition set_name_gif (i : Z) (n : string) (g : option string) (e : exercise_row)
  : exercise_row :=
  if has_id i e then mkExercise (ex_id e) n g else e.

(** [from("exercise").update({ name, gif }).eq("id", id).select()]:
    the rows as updated.  The filter and the two values are converted
    first; [NOT NULL] is met by the rows that match. *)
Definition update_exercise (id : option Z) (name gif : option string)
  : M (answer (list exercise_row)) :=
  fun s =>
    match integer_filter id, varchar255_value name, varchar255_value gif with
    | inl err, _, _ => (Ok (inl err), s)
    | inr _, inl err, _ => (Ok (inl err), s)
    | inr _, inr _, inl err => (Ok (inl err), s)
    | inr i, inr name', inr gif' =>
        match filter (has_id i) (exercise s), name' with
        | [], _ => (Ok (inr []), s)
        | _ :: _, None => (Ok (inl (not_null_violation "name")), s)
        | _ :: _, Some n =>
            let t := map (set_name_gif i n gif') (exercise s) in
            (Ok (inr (filter (has_id i) t)),
             mkDb t (workout s) (exercise_seq s) (workout_seq s))
        end
    end.

(** [from("workout").select("id").eq("exercise_id", id)] *)
Definition select_workout_ids_of_exercise (id : option Z) : M (answer (list Z)) :=
  fun s =>
    match integer_filter id with
    | inl err => (Ok (inl err), s)
    | inr i => (Ok (inr (map w_id (filter (uses_exercise i) (workout s)))), s)
    end.

(** [from("exercise").delete({ count: "exact" }).eq("id", id)]; the
    foreign key of [workout] refuses a row still referenced. *)
Definition delete_exercise_by_id (id : option Z) : M (answer Z) :=
  fun s =>
    match integer_filter id with
    | inl err => (Ok (inl err), s)
    | inr i =>
        if existsb (has_id i) (exercise s) && existsb (uses_exercise i) (workout s)
        then (Ok (inl still_referenced), s)
        else
          (Ok (inr (Z.of_nat (List.length (filter (has_id i) (exercise s))))),
           mkDb (filter (fun e => negb (has_id i e)) (exercise s)) (workout s)
                (exercise_seq s) (workout_seq s))
    end.

(** *** db.js *)

Definition getAllExercises : M (list exercise_row) :=
  r <- select_exercises ;;
  match r with
  | inl error => throw (message error)
  | inr data => ret data
  end.

Definition getExerciseById (id : option Z) : M (option exercise_row) :=
  r <- select_exercise_single id ;;
  match r with
  | inl error =>
      if negb (code error =? "PGRST116")%string then throw (message error)
      else ret None
  | inr data => ret (Some data)
  end.

(** [{ ...workout, name: workout.exercise.name, gif: workout.exercise.gif }];
    reading [.name] of a [null] exercise throws. *)
Definition flatten (x : workout_row * option (string * option string))
  : result workout_view :=
  let (w, ex) := x in
  match ex with
  | Some (name, gif) =>
      Ok (mkView (w_id w) (w_date w) (w_exercise_id w) (w_duration w)
                 (Some (name, gif)) name gif)
  | None => Throw "Cannot read properties of null (reading 'name')"
  end.

(** [xs.map(f)] for an [f] that may throw. *)
Fixpoint map_result {A B} (f : A -> result B) (xs : list A) : result (list B) :=
  match xs with
  | [] => Ok []
  | x :: xs' =>
      match f x with
      | Throw m => Throw m
      | Ok y =>
          match map_result f xs' with
          | Throw m => Throw m
          | Ok ys => Ok (y :: ys)
          end
      end
  end.

Definition lift {A} (r : result A) : M A := fun s => (r, s).

Definition getWorkoutByDate (date : string) : M (list workout_view) :=
  r <- select_workout_with_exercise date ;;
  match r with
  | inl error => throw (message error)
  | inr data => lift (map_result flatten data)
  end.

(** [{ date, exercise_id: exercise.id, duration: exercise.duration }] *)
Definition to_workout_data (d : string) (exercise : element) : result workout_data :=
  match exercise with
  | ElNull => Throw "Cannot read properties of null (reading 'id')"
  | ElObj id duration => Ok (mkData d id duration)
  end.

Definition saveWorkout (date : string) (exercises : list element) : M reply :=
  r <- delete_workout_by_date date ;;
  match r with
  | inl deleteError => throw (message deleteError)
  | inr _ =>
      workoutData <- lift (map_result (to_workout_data date) exercises) ;;
      r' <- insert_workout workoutData ;;
      match r' with
      | inl insertError => throw (message insertError)
      | inr _ => ret RSuccess
      end
  end.

Definition getAllWorkoutDates : M (list string) :=
  r <- select_dates_desc ;;
  match r with
  | inl error => throw (message error)
  | inr data => ret (Js.spread_set data)
  end.

Definition deleteWorkout (date : string) : M reply :=
  r <- delete_workout_by_date date ;;
  match r with
  | inl error => throw (message error)
  | inr count => ret (RDeletedRows count)
  end.

Definition addExercise (name gif : option string) : M exercise_row :=
  r <- insert_exercise name gif ;;
  match r with
  | inl error => throw (message error)
  | inr data => ret data
  end.

Definition updateExercise (id : option Z) (name gif : option string) : M reply :=
  r <- update_exercise id name gif ;;
  match r with
  | inl error => throw (message error)
  | inr data => ret (RUpdated (0 <? Z.of_nat (List.length data)))
  end.

Definition deleteExercise (id : option Z) : M reply :=
  r <- select_workout_ids_of_exercise id ;;
  match r with
  | inl checkError => throw (message checkError)
  | inr workouts =>
      if 0 <? Z.of_nat (List.length workouts)
      then throw "Cannot delete exercise that is used in workouts"
      else
        r' <- delete_exercise_by_id id ;;
        match r' with
        | inl error => throw (message error)
        | inr count => ret (RDeleted (0 <? count))
        end
  end.

(** *** server.js *)

(** The methods the code tells apart; [OtherMethod] is any method
    that is none of the five named. *)
Inductive http_method := GET | POST | PUT | DELETE | OPTIONS | OtherMethod.

(** A request to [/api/workout]: the method, the three query
    parameters and the parsed body. *)
Record request := mkRequest {
  method : http_method;
  action : option string;
  q_date : option string;
  q_id : option string;
  req_body : body
}.

Definition is_action (a : string) (req : request) : bool :=
  match action req with
  | Some x => (x =? a)%string
  | None => false
  end.

Definition json (r : reply) : M response := ret (mkResponse 200 r).
Definition status_json (c : Z) (r : reply) : M response := ret (mkResponse c r).

Definition invalid_action : M response :=
  status_json 400 (RError "Invalid action or missing parameters").

Definition parse_id (req : request) : option Z :=
  match q_id req with
  | Some i => Js.parseInt i
  | None => None
  end.

Definition was_updated (r : reply) : bool :=
  match r with RUpdated b => b | _ => false end.
Definition was_deleted (r : reply) : bool :=
  match r with RDeleted b => b | _ => false end.

(** The [switch (method)] inside the [try]. *)
Definition dispatch (req : request) : M response :=
  match method req with
  | GET =>
      if is_action "exercises" req then
        exercises <- getAllExercises ;; json (RExercises exercises)
      else if is_action "exercise" req && Js.truthy_str (q_id req) then
        exercise <- getExerciseById (parse_id req) ;;
        match exercise with
        | None => status_json 404 (RError "Exercise not found")
        | Some e => json (RExercise e)
        end
      else if is_action "workout" req && Js.truthy_str (q_date req) then
        workouts <- getWorkoutByDate (match q_date req with Some d => d | None => "" end) ;;
        json (RWorkouts workouts)
      else if is_action "dates" req then
        dates <- getAllWorkoutDates ;; json (RDates dates)
      else invalid_action
  | POST =>
      if is_action "workout" req && Js.truthy_str (q_date req) then
        let exercises := b_exercises (req_body req) in
        if negb (truthy_exercises exercises) || negb (isArray exercises) then
          status_json 400 (RError "Exercises array is required")
        else
          result <- saveWorkout (match q_date req with Some d => d | None => "" end)
                                (elements exercises) ;;
          json result
      else if is_action "exercise" req then
        let name := b_name (req_body req) in
        let gif := b_gif (req_body req) in
        if negb (Js.truthy_str name) || negb (Js.truthy_str gif) then
          status_json 400 (RError "Name and gif URL are required")
        else
          newExercise <- addExercise name gif ;; json (RExercise newExercise)
      else invalid_action
  | PUT =>
      if is_action "exercise" req && Js.truthy_str (q_id req) then
        let name := b_name (req_body req) in
        let gif := b_gif (req_body req) in
        if negb (Js.truthy_str name) || negb (Js.truthy_str gif) then
          status_json 400 (RError "Name and gif URL are required")
        else
          result <- updateExercise (parse_id req) name gif ;;
          if negb (was_updated result) then
            status_json 404 (RError "Exercise not found")
          else json result
      else invalid_action
  | DELETE =>
      if is_action "workout" req && Js.truthy_str (q_date req) then
        result <- deleteWorkout (match q_date req with Some d => d | None => "" end) ;;
        json result
      else if is_action "exercise" req && Js.truthy_str (q_id req) then
        result <- deleteExercise (parse_id req) ;;
        if negb (was_deleted result) then
          status_json 404 (RError "Exercise not found")
        else json result
      else invalid_action
  | OPTIONS | OtherMethod => status_json 405 (RError "Method not allowed")
  end.

(** [app.all("/api/workout", ...)]: the [try] and its [catch]. *)
Definition handler (req : request) (s : db) : response * db :=
  match dispatch req s with
  | (Ok res, s') => (res, s')
  | (Throw m, s') =>
      (mkResponse 500
         (RError (if (m =? "")%string then "Internal server error" else m)), s')
  end.

(** [app.use(cors())], with the package's defaults: a request with the
    method [OPTIONS] is answered here, status 204 and no body, and goes
    no further; every other request is passed on. *)
Definition cors (next : request -> db -> response * db) (req : request) (s : db)
  : response * db :=
  match method req with
  | OPTIONS => (mkResponse 204 REmpty, s)
  | _ => next req s
  end.

(** A request to [/api/workout] whose body [express.json()] has
    parsed: the middleware, then the handler. *)
Definition endpoint : request -> db -> response * db := cors handler.

End Supabase.

(** ** db.js (lines 175-385): the embedded store and its routes *)

Module Sqlite.

(** *** The engine's side of each prepared statement

    The tables are those of the [CREATE TABLE] text the program runs
    at start; the foreign key is enforced, as the driver sets the
    engine up.  A statement that breaks a constraint throws and changes
    nothing.  A bound [undefined] or [null] is SQL [NULL]. *)

(** What [.run] returns. *)
Record run_result := mkRun {
  changes : Z;
  lastInsertRowid : Z
}.

(** The key the engine gives a new [exercise] row: one more than the
    largest in use, 1 in an empty table. *)
Definition next_rowid (ids : list Z) : Z :=
  match ids with
  | [] => 1
  | i :: rest => fold_right Z.max i rest + 1
  end.

(** The key of a new [workout] row ([AUTOINCREMENT]): above every key
    in use and every key ever handed out. *)
Definition next_autoincrement (s : db) : Z :=
  fold_right Z.max (workout_seq s) (map w_id (workout s)) + 1.

(** [SELECT * FROM exercise ORDER BY id], [.all()] *)
Definition all_exercises : M (list exercise_row) :=
  fun s => (Ok (order_by by_ex_id (exercise s)), s).

(** [SELECT * FROM exercise WHERE id = ?], [.get(id)]: the first row,
    if any.  The route's text [id] is given as the integer the engine
    compares with the column, [None] when the text is no integer (it
    then equals no key). *)
Definition get_exercise_where_id (id : option Z) : M (option exercise_row) :=
  fun s =>
    (Ok (match id with
         | Some i => find (has_id i) (exercise s)
         | None => None
         end), s).

(** [INSERT INTO exercise (name, gif) VALUES (?, ?)] *)
Definition run_insert_exercise (name gif : option string) : M run_result :=
  fun s =>
    match name with
    | None => (Throw "NOT NULL constraint failed: exercise.name", s)
    | Some n =>
        let i := next_rowid (map ex_id (exercise s)) in
        (Ok (mkRun 1 i),
         mkDb (exercise s ++ [mkExercise i n gif]) (workout s)
              (exercise_seq s) (workout_seq s))
    end.

Definition matches_id (id : option Z) (e : exercise_row) : bool :=
  match id with
  | Some i => has_id i e
  | None => false
  end.

(** [UPDATE exercise SET name = ?, gif = ? WHERE id = ?] *)
Definition run_update_exercise (name gif : option string) (id : option Z)
  : M run_result :=
  fun s =>
    match filter (matches_id id) (exercise s), name with
    | [], _ => (Ok (mkRun 0 0), s)
    | _ :: _, None => (Throw "NOT NULL constraint failed: exercise.name", s)
    | hit, Some n =>
        (Ok (mkRun (Z.of_nat (List.length hit)) 0),
         mkDb (map (fun e => if matches_id id e
                             then mkExercise (ex_id e) n gif else e) (exercise s))
              (workout s) (exercise_seq s) (workout_seq s))
    end.

Definition references (id : option Z) (w : workout_row) : bool :=
  match id with
  | Some i => uses_exercise i w
  | None => false
  end.

(** The count of the [workout] rows [WHERE exercise_id = ?], [.get(id)] *)
Definition get_workout_count (id : option Z) : M Z :=
  fun s => (Ok (Z.of_nat (List.length (filter (references id) (workout s)))), s).

(** [DELETE FROM exercise WHERE id = ?]; the foreign key of [workout]
    refuses a row still referenced. *)
Definition run_delete_exercise (id : option Z) : M run_result :=
  fun s =>
    if existsb (matches_id id) (exercise s) && existsb (references id) (workout s)
    then (Throw "FOREIGN KEY constraint failed", s)
    else
      (Ok (mkRun (Z.of_nat (List.length (filter (matches_id id) (exercise s)))) 0),
       mkDb (filter (fun e => negb (matches_id id e)) (exercise s)) (workout s)
            (exercise_seq s) (workout_seq s)).

Definition joined (w : workout_row) (e : exercise_row) : workout_view :=
  mkView (w_id w) (w_date w) (w_exercise_id w) (w_duration w)
         None (ex_name e) (ex_gif e).

Definition by_view_id (a b : workout_view) : bool := v_id a <=? v_id b.

(** [SELECT w.*, e.name, e.gif FROM workout w
     JOIN exercise e ON w.exercise_id = e.id
     WHERE w.date = ? ORDER BY w.id], [.all(date)] *)
Definition all_workouts_joined (date : string) : M (list workout_view) :=
  fun s =>
    (Ok (order_by by_view_id
           (flat_map (fun w => map (joined w)
                                   (filter (has_id (w_exercise_id w)) (exercise s)))
                     (filter (has_date date) (workout s)))), s).

Definition is_date (date : option string) (w : workout_row) : bool :=
  match date with
  | Some d => has_date d w
  | None => false
  end.

(** [DELETE FROM workout WHERE date = ?] *)
Definition run_delete_workout (date : option string) : M run_result :=
  fun s =>
    (Ok (mkRun (Z.of_nat (List.length (filter (is_date date) (workout s)))) 0),
     mkDb (exercise s) (filter (fun w => negb (is_date date w)) (workout s))
          (exercise_seq s) (workout_seq s)).

(** [INSERT INTO workout (date, exercise_id, duration) VALUES (?, ?, ?)] *)
Definition run_insert_workout (date : option string) (exercise_id duration : option Z)
  : M run_result :=
  fun s =>
    match date, exercise_id with
    | None, _ => (Throw "NOT NULL constraint failed: workout.date", s)
    | Some _, None => (Throw "NOT NULL constraint failed: workout.exercise_id", s)
    | Some d, Some e =>
        if negb (existsb (has_id e) (exercise s))
        then (Throw "FOREIGN KEY constraint failed", s)
        else
          let i := next_autoincrement s in
          (Ok (mkRun 1 i),
           mkDb (exercise s) (workout s ++ [mkWorkout i d e duration])
                (exercise_seq s) i)
    end.

(** [SELECT DISTINCT date FROM workout ORDER BY date DESC], [.all()] *)
Definition all_distinct_dates : M (list string) :=
  fun s =>
    (Ok (order_by date_desc (nodup string_dec (map w_date (workout s)))), s).

(** [db.transaction(fn)()]: [fn] runs between [BEGIN] and [COMMIT];
    when it throws, the engine rolls back and the exception goes on. *)
Definition transaction {A} (fn : M A) : M A :=
  fun s =>
    match fn s with
    | (Ok a, s') => (Ok a, s')
    | (Throw m, _) => (Throw m, s)
    end.

(** [xs.forEach(f)] *)
Fixpoint forEach {A} (f : A -> M unit) (xs : list A) : M unit :=
  match xs with
  | [] => ret tt
  | x :: xs' => f x ;;; forEach f xs'
  end.

(** *** The routes *)

Definition json (r : reply) : M response := ret (mkResponse 200 r).
Definition status_json (c : Z) (r : reply) : M response := ret (mkResponse c r).

(** [try { ... } catch (error) { res.status(500).json({ error: error.message }) }] *)
Definition try_catch (route : M response) (s : db) : response * db :=
  match route s with
  | (Ok res, s') => (res, s')
  | (Throw m, s') => (mkResponse 500 (RError m), s')
  end.

(** [GET /api/exercises] *)
Definition get_exercises : db -> response * db :=
  try_catch (exercises <- all_exercises ;; json (RExercises exercises)).

(** [GET /api/exercises/:id] *)
Definition get_exercise (id : option Z) : db -> response * db :=
  try_catch (
    exercise <- get_exercise_where_id id ;;
    match exercise with
    | None => status_json 404 (RError "Exercise not found")
    | Some e => json (RExercise e)
    end).

(** [POST /api/exercises] *)
Definition post_exercises (b : body) : db -> response * db :=
  try_catch (
    let name := b_name b in
    let gif := b_gif b in
    result <- run_insert_exercise name gif ;;
    json (RCreated (lastInsertRowid result) name gif)).

(** [PUT /api/exercises/:id] *)
Definition put_exercise (id : option Z) (b : body) : db -> response * db :=
  try_catch (
    let name := b_name b in
    let gif := b_gif b in
    result <- run_update_exercise name gif id ;;
    if changes result =? 0 then status_json 404 (RError "Exercise not found")
    else json RSuccess).

(** [DELETE /api/exercises/:id] *)
Definition delete_exercise (id : option Z) : db -> response * db :=
  try_catch (
    workoutCount <- get_workout_count id ;;
    if 0 <? workoutCount then
      status_json 400 (RError "Cannot delete exercise that is used in workouts")
    else
      result <- run_delete_exercise id ;;
      if changes result =? 0 then status_json 404 (RError "Exercise not found")
      else json RSuccess).

(** [GET /api/workouts/:date] *)
Definition get_workouts (date : string) : db -> response * db :=
  try_catch (workouts <- all_workouts_joined date ;; json (RWorkouts workouts)).

(** [(exercise) => { insertStmt.run(date, exercise.id, exercise.duration); }] *)
Definition insert_entry (date : option string) (exercise : element) : M unit :=
  match exercise with
  | ElNull => throw "Cannot read properties of null (reading 'id')"
  | ElObj id duration => run_insert_workout date id duration ;;; ret tt
  end.

(** The callback of the transaction in [POST /api/workouts]. *)
Definition replace_workout (date : option string) (exercises : exercises_field)
  : M unit :=
  run_delete_workout date ;;;
  match exercises with
  | ExUndefined => throw "Cannot read properties of undefined (reading 'forEach')"
  | ExValue NANull => throw "Cannot read properties of null (reading 'forEach')"
  | ExValue _ => throw "exercises.forEach is not a function"
  | ExArray l => forEach (insert_entry date) l
  end.

(** [POST /api/workouts] *)
Definition post_workouts (b : body) : db -> response * db :=
  try_catch (
    let date := b_date b in
    let exercises := b_exercises b in
    transaction (replace_workout date exercises) ;;;
    json RSuccess).

(** [GET /api/workout-dates] *)
Definition get_workout_dates : db -> response * db :=
  try_catch (dates <- all_distinct_dates ;; json (RDates dates)).

(** [DELETE /api/workouts/:date] *)
Definition delete_workouts (date : string) : db -> response * db :=
  try_catch (
    result <- run_delete_workout (Some date) ;;
    json (RDeletedRows (changes result))).

End Sqlite.

(** ** A store to run the programs on *)

Definition pushups : exercise_row := mkExercise 1 "Pushups" (Some "http://x/push.gif").
Definition squats : exercise_row := mkExercise 2 "Squats" (Some "http://x/squat.gif").

Definition sample : db :=
  mkDb [pushups; squats]
       [mkWorkout 1 "2024-01-01" 1 (Some 60);
        mkWorkout 2 "2024-01-02" 1 (Some 45);
        mkWorkout 3 "2024-01-01" 2 (Some 30)]
       2 3.

(** ** What the readers' results are measured against *)

(** The workout row inside a returned record. *)
Definition row_of (v : workout_view) : workout_row :=
  mkWorkout (v_id v) (v_date v) (v_exercise_id v) (v_duration v).

(** The [{ id, duration }] entry a returned record stands for. *)
Definition entry_of (v : workout_view) : element :=
  ElObj (Some (v_exercise_id v)) (v_duration v).

Definition entry_of_row (w : workout_row) : element :=
  ElObj (Some (w_exercise_id w)) (w_duration w).

(** [name] and [gif] of the record are those of the exercise its
    [exercise_id] names. *)
Definition enriched (s : db) (v : workout_view) : Prop :=
  exists e, In e (exercise s) /\ ex_id e = v_exercise_id v /\
            v_name v = ex_name e /\ v_gif v = ex_gif e.

(** [views] is the workout of date [d] in [s]: the rows of that date,
    by ascending id, each with its exercise's name and gif. *)
Definition workout_of (s : db) (d : string) (views : list workout_view) : Prop :=
  Permutation (map row_of views) (filter (has_date d) (workout s)) /\
  StronglySorted (fun a b => v_id a < v_id b) views /\
  Forall (enriched s) views.

(** An entry of a save request that names an exercise of the store. *)
Definition names_exercise (s : db) (e : element) : Prop :=
  match e with
  | ElObj (Some i) _ => exists x, In x (exercise s) /\ ex_id x = i
  | _ => False
  end.

(** [dates] lists the dates of the store: every date some workout row
    has, none twice, each before the dates that are smaller. *)
Definition dates_listing (s : db) (dates : list string) : Prop :=
  (forall d, In d dates <-> exists w, In w (workout s) /\ w_date w = d) /\
  NoDup dates /\
  StronglySorted (fun a b => String.ltb b a = true) dates.

(** Going from [s] to [s'] removed the workout of date [d], and that
    was [n] rows: [n] counts the rows of that date in [s], the table is
    shorter by [n], what is left is every row of another date, and the
    exercises are as they were. *)
Definition removed_date (s : db) (d : string) (n : Z) (s' : db) : Prop :=
  n = Z.of_nat (List.length (filter (has_date d) (workout s))) /\
  Z.of_nat (List.length (workout s)) = Z.of_nat (List.length (workout s')) + n /\
  (forall w, In w (workout s') <-> In w (workout s) /\ w_date w <> d) /\
  exercise s' = exercise s.

(** The exercise a workout row refers to (a placeholder when there is
    none), and the record each reader builds from the two. *)
Definition referenced (s : db) (w : workout_row) : exercise_row :=
  match find (has_id (w_exercise_id w)) (exercise s) with
  | Some e => e
  | None => mkExercise 0 "" None
  end.

Definition nested_view (s : db) (w : workout_row) : workout_view :=
  let e := referenced s w in
  mkView (w_id w) (w_date w) (w_exercise_id w) (w_duration w)
         (Some (ex_name e, ex_gif e)) (ex_name e) (ex_gif e).

Definition joined_view (s : db) (w : workout_row) : workout_view :=
  Sqlite.joined w (referenced s w).

(** The payload row a stored workout row was written from. *)
Definition row_data (w : workout_row) : Supabase.workout_data :=
  Supabase.mkData (w_date w) (Some (w_exercise_id w)) (w_duration w).

(** [r'] is the payload row [r] as the hosted store reads it: the
    date as its column stores it, the id and the duration as sent. *)
Definition read_as (r r' : Supabase.workout_data) : Prop :=
  Supabase.varchar 10 (Supabase.date r) = Some (Supabase.date r') /\
  Supabase.exercise_id r' = Supabase.exercise_id r /\
  Supabase.duration r' = Supabase.duration r.

(** The row [saveWorkout] builds from an entry. *)
Definition data_of (d : string) (e : element) : Supabase.workout_data :=
  match e with
  | ElObj id duration => Supabase.mkData d id duration
  | ElNull => Supabase.mkData d None None
  end.

(** The largest workout key in use or ever handed out. *)
Definition high_water (wk : list workout_row) (wseq : Z) : Z :=
  fold_right Z.max wseq (map w_id wk).

(** Going from [s] to [s'] replaced the workout of [date] by the
    entries [E]: the rows of that date are gone, one row per entry was
    appended in order, and nothing else changed in the two tables. *)
Definition replaced (s : db) (date : option string) (E : list element) (s' : db)
  : Prop :=
  exercise s' = exercise s /\
  exists ws,
    workout s' = filter (fun w => negb (Sqlite.is_date date w)) (workout s) ++ ws /\
    map entry_of_row ws = E /\
    Forall (fun w => Sqlite.is_date date w = true) ws.

(** ** The programs as servers *)

(** The store before the first request. *)
Definition empty_db : db := mkDb [] [] 0 0.

(** The action-dispatched endpoint serving requests one after the
    other: the responses, and the store at the end. *)
Fixpoint serve (reqs : list Supabase.request) (s : db) : list response * db :=
  match reqs with
  | [] => ([], s)
  | req :: rest =>
      let (res, s1) := Supabase.endpoint req s in
      let (more, s2) := serve rest s1 in
      (res :: more, s2)
  end.

(** The routes the embedded-store program registers, each with its
    parameters ([:id] as the engine compares it, [:date], the body). *)
Inductive route :=
| GetExercises
| GetExercise (id : option Z)
| PostExercises (b : body)
| PutExercise (id : option Z) (b : body)
| DeleteExercise (id : option Z)
| GetWorkouts (date : string)
| PostWorkouts (b : body)
| GetWorkoutDates
| DeleteWorkouts (date : string).

(** [app.get(...)], [app.post(...)], [app.put(...)], [app.delete(...)]:
    the callback registered for the route. *)
Definition app (r : route) : db -> response * db :=
  match r with
  | GetExercises => Sqlite.get_exercises
  | GetExercise id => Sqlite.get_exercise id
  | PostExercises b => Sqlite.post_exercises b
  | PutExercise id b => Sqlite.put_exercise id b
  | DeleteExercise id => Sqlite.delete_exercise id
  | GetWorkouts date => Sqlite.get_workouts date
  | PostWorkouts b => Sqlite.post_workouts b
  | GetWorkoutDates => Sqlite.get_workout_dates
  | DeleteWorkouts date => Sqlite.delete_workouts date
  end.

(** The embedded-store program serving requests one after the other. *)
Fixpoint serve_routes (rs : list route) (s : db) : list response * db :=
  match rs with
  | [] => ([], s)
  | r :: rest =>
      let (res, s1) := app r s in
      let (more, s2) := serve_routes rest s1 in
      (res :: more, s2)
  end.

Definition is_get (r : route) : bool :=
  match r with
  | GetExercises | GetExercise _ | GetWorkouts _ | GetWorkoutDates => true
  | _ => false
  end.

(** A response is either a 200 with a result, or an error status with
    an [{ error }] body. *)
Definition well_formed_response (codes : list Z) (r : response) : Prop :=
  (status r = 200 /\ sent r <> REmpty /\ forall msg, sent r <> RError msg) \/
  (In (status r) codes /\ exists msg, sent r = RError msg).

(** The store without the workout of a date. *)
Definition without_date (d : string) (s : db) : db :=
  mkDb (exercise s) (filter (fun w => negb (has_date d w)) (workout s))
       (exercise_seq s) (workout_seq s).

(** The exercise table with the name and gif of row [i] replaced. *)
Definition renamed (i : Z) (n : string) (g : option string) (s : db) : db :=
  mkDb (map (Supabase.set_name_gif i n g) (exercise s)) (workout s)
       (exercise_seq s) (workout_seq s).

(** Values the columns of the hosted store take as they are sent: a
    string within the column's width, an integer (or [null]) within
    the 32 bits of [INTEGER]. *)
Definition fits (n : nat) (t : string) : Prop := (String.length t <= n)%nat.

Definition fits_or_null (n : nat) (v : option string) : Prop :=
  match v with
  | Some t => fits n t
  | None => True
  end.

Definition int4_or_null (v : option Z) : Prop :=
  match v with
  | Some z => Supabase.int4 z = true
  | None => True
  end.

(** An entry that carries an id. *)
Definition gives_id (e : element) : Prop :=
  match e with
  | ElObj (Some _) _ => True
  | _ => False
  end.

Definition typed_entry (e : element) : Prop :=
  match e with
  | ElNull => True
  | ElObj id duration => int4_or_null id /\ int4_or_null duration
  end.

(** The rows as the column types of the hosted store have them. *)
Definition typed_exercise (e : exercise_row) : Prop :=
  Supabase.int4 (ex_id e) = true /\ fits 255 (ex_name e) /\ fits_or_null 255 (ex_gif e).

Definition typed_workout (w : workout_row) : Prop :=
  Supabase.int4 (w_id w) = true /\ fits 10 (w_date w) /\
  Supabase.int4 (w_exercise_id w) = true /\ int4_or_null (w_duration w).

Definition typed_store (s : db) : Prop :=
  Forall typed_exercise (exercise s) /\ Forall typed_workout (workout s).

(** The workout sequence of the hosted store can hand out [n] more
    keys. *)
Definition keys_left (s : db) (n : nat) : Prop :=
  -2147483648 <= workout_seq s + 1 /\ workout_seq s + Z.of_nat n <= 2147483647.

(** ** Ordering lemmas *)

Section OrderByFacts.
Context {A : Type}.
Variable leb : A -> A -> bool.

Lemma insert_row_perm (x : A) (l : list A) :
  Permutation (insert_row leb x l) (x :: l).
Proof.
  induction l as [|y l IH]; simpl.
  - apply Permutation_refl.
  - destruct (leb x y).
    + apply Permutation_refl.
    + eapply Permutation_trans.
      * apply perm_skip, IH.
      * apply perm_swap.
Qed.

Lemma order_by_perm (l : list A) : Permutation (order_by leb l) l.
Proof.
  induction l as [|x l IH]; simpl.
  - apply Permutation_refl.
  - eapply Permutation_trans.
    + apply insert_row_perm.
    + apply perm_skip, IH.
Qed.

Lemma order_by_In (x : A) (l : list A) : In x (order_by leb l) <-> In x l.
Proof.
  split; apply Permutation_in;
    [apply order_by_perm | apply Permutation_sym, order_by_perm].
Qed.

(** A list already in order is returned as it is. *)
Lemma order_by_sorted_id (l : list A) :
  StronglySorted (fun a b => leb a b = true) l -> order_by leb l = l.
Proof.
  induction 1 as [|x l Hs IH Hx]; simpl; [reflexivity|].
  rewrite IH. destruct l as [|y l']; simpl; [reflexivity|].
  inversion Hx as [|? ? Hxy _]; subst. now rewrite Hxy.
Qed.

Hypothesis leb_total : forall a b, leb a b = true \/ leb b a = true.
Hypothesis leb_trans : forall a b c, leb a b = true -> leb b c = true -> leb a c = true.

Lemma insert_row_sorted (x : A) (l : list A) :
  StronglySorted (fun a b => leb a b = true) l ->
  StronglySorted (fun a b => leb a b = true) (insert_row leb x l).
Proof.
  induction 1 as [|y l Hs IH Hy]; simpl.
  - constructor; constructor.
  - destruct (leb x y) eqn:Hxy.
    + constructor.
      * now constructor.
      * constructor; [assumption|].
        eapply Forall_impl; [|exact Hy]. intros z Hz. eapply leb_trans; eassumption.
    + constructor; [assumption|].
      assert (Hyx : leb y x = true)
        by (destruct (leb_total x y) as [E|E]; [congruence | exact E]).
      rewrite Forall_forall in *. intros z Hz.
      apply (Permutation_in _ (insert_row_perm x l)) in Hz.
      destruct Hz as [<-|Hz]; auto.
Qed.

Lemma order_by_sorted (l : list A) :
  StronglySorted (fun a b => leb a b = true) (order_by leb l).
Proof.
  induction l as [|x l IH]; simpl; [constructor | now apply insert_row_sorted].
Qed.
End OrderByFacts.

(** Ordering through a key commutes with a map that keeps the key. *)
Lemma order_by_map {A B : Type} (la : A -> A -> bool) (lb : B -> B -> bool)
      (f : A -> B) (l : list A) :
  (forall a a', lb (f a) (f a') = la a a') ->
  order_by lb (map f l) = map f (order_by la l).
Proof.
  intros Hf. induction l as [|x l IH]; simpl; [reflexivity|].
  rewrite IH. generalize (order_by la l) as m. clear IH.
  induction m as [|y m IHm]; simpl; [reflexivity|].
  rewrite Hf. destruct (la x y); simpl; [reflexivity | now rewrite IHm].
Qed.

(** *** The order on dates *)

Lemma string_leb_trans (a b c : string) :
  String.leb a b = true -> String.leb b c = true -> String.leb a c = true.
Proof.
  unfold String.leb. intros Hab Hbc.
  destruct (String.compare a b) eqn:Eab; try discriminate.
  - apply String.compare_eq_iff in Eab. subst. exact Hbc.
  - destruct (String.compare b c) eqn:Ebc; try discriminate.
    + apply String.compare_eq_iff in Ebc. subst. now rewrite Eab.
    + apply String_as_OT.cmp_lt in Eab, Ebc.
      pose proof (String_as_OT.lt_trans _ _ _ Eab Ebc) as Hac.
      apply String_as_OT.cmp_lt in Hac. unfold String_as_OT.cmp in Hac.
      now rewrite Hac.
Qed.

Lemma date_desc_total (a b : string) : date_desc a b = true \/ date_desc b a = true.
Proof. unfold date_desc. destruct (String.leb_total a b); auto. Qed.

Lemma date_desc_trans (a b c : string) :
  date_desc a b = true -> date_desc b c = true -> date_desc a c = true.
Proof. unfold date_desc. intros. eapply string_leb_trans; eassumption. Qed.

Lemma string_ltb_of_leb (a b : string) :
  String.leb a b = true -> a <> b -> String.ltb a b = true.
Proof.
  unfold String.leb, String.ltb. intros H Hne.
  destruct (String.compare a b) eqn:E; try discriminate; [|reflexivity].
  apply String.compare_eq_iff in E. contradiction.
Qed.

Lemma string_leb_of_ltb (a b : string) : String.ltb a b = true -> String.leb a b = true.
Proof.
  unfold String.leb, String.ltb. now destruct (String.compare a b).
Qed.

Lemma by_id_total (a b : workout_row) : by_id a b = true \/ by_id b a = true.
Proof. unfold by_id. rewrite !Z.leb_le. lia. Qed.

Lemma by_id_trans (a b c : workout_row) :
  by_id a b = true -> by_id b c = true -> by_id a c = true.
Proof. unfold by_id. rewrite !Z.leb_le. lia. Qed.

(** ** Lists in order, cut and joined *)

Section SortedApp.
Context {A : Type}.
Variable R : A -> A -> Prop.

Lemma sorted_app_inv (l1 l2 : list A) :
  StronglySorted R (l1 ++ l2) ->
  StronglySorted R l1 /\ StronglySorted R l2 /\
  (forall a b, In a l1 -> In b l2 -> R a b).
Proof.
  induction l1 as [|x l1 IH]; simpl; intros H.
  - repeat split; [constructor | assumption | intros ? ? []].
  - apply StronglySorted_inv in H as [Hs Hx].
    destruct (IH Hs) as (H1 & H2 & H12).
    apply Forall_app in Hx as [Hx1 Hx2].
    repeat split; [now constructor | assumption |].
    intros a b [<-|Ha] Hb; [|now apply H12].
    rewrite Forall_forall in Hx2. now apply Hx2.
Qed.

Lemma sorted_app (l1 l2 : list A) :
  StronglySorted R l1 -> StronglySorted R l2 ->
  (forall a b, In a l1 -> In b l2 -> R a b) ->
  StronglySorted R (l1 ++ l2).
Proof.
  induction 1 as [|x l1 Hs IH Hx]; simpl; intros H2 H12; [assumption|].
  constructor.
  - apply IH; [assumption|]. intros a b Ha Hb. apply H12; [now right | assumption].
  - apply Forall_app. split; [assumption|].
    rewrite Forall_forall. intros b Hb. apply H12; [now left | assumption].
Qed.

Lemma sorted_drop_middle (l1 l2 : list A) (x : A) :
  StronglySorted R (l1 ++ x :: l2) -> StronglySorted R (l1 ++ l2).
Proof.
  intros H. apply sorted_app_inv in H as (H1 & H2 & H12).
  apply StronglySorted_inv in H2 as [H2 _].
  apply sorted_app; [assumption | assumption |].
  intros a b Ha Hb. apply H12; [assumption | now right].
Qed.
End SortedApp.

(** In a list in descending order with no repetition, every date is
    strictly above the ones after it. *)
Lemma desc_nodup_strict (l : list string) :
  StronglySorted (fun a b => date_desc a b = true) l -> NoDup l ->
  StronglySorted (fun a b => String.ltb b a = true) l.
Proof.
  induction 1 as [|x l Hs IH Hx]; intros Hnd; [constructor|].
  inversion Hnd as [|? ? Hnotin Hnd']; subst.
  constructor; [now apply IH|].
  rewrite Forall_forall in *. intros y Hy.
  apply string_ltb_of_leb; [exact (Hx y Hy) | intros ->; contradiction].
Qed.

Lemma strict_desc_nodup (l : list string) :
  StronglySorted (fun a b => String.ltb b a = true) l -> NoDup l.
Proof.
  induction 1 as [|x l Hs IH Hx]; constructor; [|assumption].
  intros Hin. rewrite Forall_forall in Hx. specialize (Hx x Hin).
  unfold String.ltb in Hx.
  assert (E : String.compare x x = Eq).
  { pose proof (String.compare_antisym x x) as Ha.
    destruct (String.compare x x); simpl in Ha; congruence. }
  rewrite E in Hx. discriminate.
Qed.

(** *** [[...new Set(xs)]] *)

Lemma existsb_eqb_In (x : string) (l : list string) :
  existsb (String.eqb x) l = true <-> In x l.
Proof.
  rewrite existsb_exists. split.
  - intros (y & Hy & E). apply String.eqb_eq in E. now subst.
  - intros H. exists x. split; [assumption | apply String.eqb_refl].
Qed.

Lemma set_add_all_In (xs acc : list string) (d : string) :
  In d (Js.set_add_all acc xs) <-> In d acc \/ In d xs.
Proof.
  revert acc. induction xs as [|x xs IH]; intros acc; simpl.
  - tauto.
  - rewrite IH. destruct (existsb (String.eqb x) acc) eqn:E.
    + apply existsb_eqb_In in E. split; [tauto|].
      intros [H|[<-|H]]; auto.
    + rewrite in_app_iff. simpl. tauto.
Qed.

Lemma set_add_all_strict (xs acc : list string) :
  StronglySorted (fun a b => String.ltb b a = true) acc ->
  StronglySorted (fun a b => date_desc a b = true) (acc ++ xs) ->
  StronglySorted (fun a b => String.ltb b a = true) (Js.set_add_all acc xs).
Proof.
  revert acc. induction xs as [|x xs IH]; intros acc Hacc Hall; simpl; [assumption|].
  destruct (existsb (String.eqb x) acc) eqn:E.
  - apply IH; [assumption|]. eapply sorted_drop_middle; eassumption.
  - assert (Hnot : ~ In x acc).
    { intros Hin. apply existsb_eqb_In in Hin. congruence. }
    apply IH.
    + apply sorted_app; [assumption | repeat constructor |].
      intros a b Ha [<-|[]].
      apply sorted_app_inv in Hall as (_ & _ & H12).
      apply string_ltb_of_leb.
      * apply (H12 a x Ha). now left.
      * intros ->. contradiction.
    + now rewrite <- app_assoc.
Qed.

(** ** C6: the list of dates *)

Lemma dates_of_rows (s : db) (d : string) :
  In d (map w_date (workout s)) <-> exists w, In w (workout s) /\ w_date w = d.
Proof.
  rewrite in_map_iff. split; intros (w & H1 & H2); exists w; auto.
Qed.

Lemma getAllWorkoutDates_listing (s : db) :
  exists dates, Supabase.getAllWorkoutDates s = (Ok dates, s) /\ dates_listing s dates.
Proof.
  eexists. split; [reflexivity|].
  assert (Hs : StronglySorted (fun a b => String.ltb b a = true)
                 (Js.spread_set (order_by date_desc (map w_date (workout s))))).
  { apply set_add_all_strict; [constructor|]. simpl.
    apply order_by_sorted; [apply date_desc_total | apply date_desc_trans]. }
  repeat split.
  - intros H. apply set_add_all_In in H as [[]|H].
    apply order_by_In in H. now apply dates_of_rows.
  - intros H. apply set_add_all_In. right.
    apply order_by_In. now apply dates_of_rows.
  - now apply strict_desc_nodup.
  - exact Hs.
Qed.

Lemma get_workout_dates_listing (s : db) :
  exists dates,
    Sqlite.get_workout_dates s = (mkResponse 200 (RDates dates), s) /\
    dates_listing s dates.
Proof.
  eexists. split; [reflexivity|].
  assert (Hnd : NoDup (order_by date_desc (nodup string_dec (map w_date (workout s))))).
  { eapply Permutation_NoDup.
    - apply Permutation_sym, order_by_perm.
    - apply NoDup_nodup. }
  repeat split.
  - intros H. apply order_by_In, nodup_In in H. now apply dates_of_rows.
  - intros H. apply order_by_In, nodup_In. now apply dates_of_rows.
  - exact Hnd.
  - apply desc_nodup_strict; [|exact Hnd].
    apply order_by_sorted; [apply date_desc_total | apply date_desc_trans].
Qed.

(** C6. In every store state both readers of the dates
    ([getAllWorkoutDates] over the hosted store, [GET /api/workout-dates]
    over the embedded one) succeed, change nothing, and return every
    stored workout date exactly once, in strictly descending order, also
    when several rows share a date. *)
Theorem workout_dates_unique_descending (s : db) :
  (exists dates,
      Supabase.getAllWorkoutDates s = (Ok dates, s) /\ dates_listing s dates) /\
  (exists dates,
      Sqlite.get_workout_dates s = (mkResponse 200 (RDates dates), s) /\
      dates_listing s dates).
Proof.
  split; [apply getAllWorkoutDates_listing | apply get_workout_dates_listing].
Qed.

(** ** C9: deleting the workout of a date *)

Lemma filter_split_length {A : Type} (p : A -> bool) (l : list A) :
  Z.of_nat (List.length l) =
  Z.of_nat (List.length (filter (fun x => negb (p x)) l)) +
  Z.of_nat (List.length (filter p l)).
Proof.
  induction l as [|x l IH]; [reflexivity|].
  cbn [filter]. destruct (p x); cbn [negb List.length];
    rewrite ?Nat2Z.inj_succ; lia.
Qed.

Lemma has_date_true (d : string) (w : workout_row) : has_date d w = true <-> w_date w = d.
Proof. unfold has_date. apply String.eqb_eq. Qed.

Lemma has_date_false (d : string) (w : workout_row) : has_date d w = false <-> w_date w <> d.
Proof. unfold has_date. apply String.eqb_neq. Qed.

Lemma other_dates_In (d : string) (l : list workout_row) (w : workout_row) :
  In w (filter (fun w => negb (has_date d w)) l) <-> In w l /\ w_date w <> d.
Proof.
  rewrite filter_In, negb_true_iff, has_date_false. tauto.
Qed.

Lemma delete_removes_date (s : db) (d : string) :
  removed_date s d
    (Z.of_nat (List.length (filter (has_date d) (workout s))))
    (mkDb (exercise s) (filter (fun w => negb (has_date d w)) (workout s))
          (exercise_seq s) (workout_seq s)).
Proof.
  unfold removed_date; simpl.
  split; [reflexivity|]. split; [apply filter_split_length|].
  split; [intros w; apply other_dates_In | reflexivity].
Qed.

(** C9. For every date and store state, [deleteWorkout] (hosted store)
    and [DELETE /api/workouts/:date] (embedded store) succeed with
    [{ success: true, deletedRows: n }] where [n] is the exact number of
    workout rows of that date (so 0 when there is none), and afterwards
    no workout row of that date is left; rows of other dates and the
    exercises stay. *)
Theorem deleteWorkout_count_and_clear (s : db) (d : string) :
  exists n s',
    Supabase.deleteWorkout d s = (Ok (RDeletedRows n), s') /\
    Sqlite.delete_workouts d s = (mkResponse 200 (RDeletedRows n), s') /\
    removed_date s d n s' /\
    filter (has_date d) (workout s') = [].
Proof.
  eexists. eexists. split; [reflexivity|]. split; [reflexivity|].
  split; [apply delete_removes_date|]. simpl.
  induction (workout s) as [|w l IH]; simpl; [reflexivity|].
  destruct (has_date d w) eqn:E; simpl; [assumption | now rewrite E].
Qed.

(** ** C8: reading the workout of a date *)

Lemma has_id_true (i : Z) (e : exercise_row) : has_id i e = true <-> ex_id e = i.
Proof. unfold has_id. apply Z.eqb_eq. Qed.

Lemma referenced_spec (s : db) (w : workout_row) :
  references_exercise s w ->
  find (has_id (w_exercise_id w)) (exercise s) = Some (referenced s w) /\
  In (referenced s w) (exercise s) /\
  ex_id (referenced s w) = w_exercise_id w.
Proof.
  intros (e & Hin & Hid). unfold referenced.
  destruct (find (has_id (w_exercise_id w)) (exercise s)) as [e'|] eqn:F.
  - apply find_some in F as [H1 H2]. apply has_id_true in H2. auto.
  - exfalso. apply (find_none _ _ F) in Hin.
    apply has_id_true in Hid. congruence.
Qed.

Lemma filter_none {A : Type} (p : A -> bool) (l : list A) :
  (forall x, In x l -> p x = false) -> filter p l = [].
Proof.
  induction l as [|x l IH]; simpl; intros H; [reflexivity|].
  rewrite (H x) by now left. apply IH. intros y Hy. apply H. now right.
Qed.

(** With unique keys the join condition selects exactly the referenced
    exercise. *)
Lemma filter_unique_id (l : list exercise_row) (e : exercise_row) :
  NoDup (map ex_id l) -> In e l -> filter (has_id (ex_id e)) l = [e].
Proof.
  induction l as [|x l IH]; simpl; intros Hnd Hin; [contradiction|].
  inversion Hnd as [|? ? Hx Hnd']; subst.
  destruct Hin as [->|Hin].
  - unfold has_id at 1. rewrite Z.eqb_refl. f_equal.
    apply filter_none. intros y Hy.
    destruct (has_id (ex_id e) y) eqn:E; [|reflexivity].
    apply has_id_true in E. exfalso. apply Hx. rewrite <- E. now apply in_map.
  - destruct (has_id (ex_id e) x) eqn:E.
    + apply has_id_true in E. exfalso. apply Hx. rewrite E. now apply in_map.
    + now apply IH.
Qed.

Lemma getWorkoutByDate_eq (s : db) (d : string) :
  Forall (references_exercise s) (filter (has_date d) (workout s)) ->
  Supabase.getWorkoutByDate d s =
  (Ok (map (nested_view s) (order_by by_id (filter (has_date d) (workout s)))), s).
Proof.
  intros Hfk.
  unfold Supabase.getWorkoutByDate, bind, Supabase.select_workout_with_exercise,
    Supabase.lift.
  assert (Hs : Forall (references_exercise s)
                      (order_by by_id (filter (has_date d) (workout s)))).
  { rewrite Forall_forall in *. intros w Hw. apply Hfk. now apply order_by_In in Hw. }
  f_equal. induction Hs as [|w l Hw _ IH]; simpl; [reflexivity|].
  destruct (referenced_spec s w Hw) as (F & _ & _).
  rewrite F, IH. reflexivity.
Qed.

Lemma get_workouts_eq (s : db) (d : string) :
  NoDup (map ex_id (exercise s)) ->
  Forall (references_exercise s) (filter (has_date d) (workout s)) ->
  Sqlite.get_workouts d s =
  (mkResponse 200
     (RWorkouts (map (joined_view s) (order_by by_id (filter (has_date d) (workout s))))),
   s).
Proof.
  intros Hnd Hfk.
  unfold Sqlite.get_workouts, Sqlite.try_catch, bind, Sqlite.all_workouts_joined,
    Sqlite.json, ret.
  do 3 f_equal.
  rewrite <- (order_by_map by_id Sqlite.by_view_id (joined_view s)) by reflexivity.
  f_equal. induction Hfk as [|w l Hw _ IH]; simpl; [reflexivity|].
  destruct (referenced_spec s w Hw) as (_ & Hin & Hid).
  rewrite <- Hid, (filter_unique_id _ _ Hnd Hin), IH. reflexivity.
Qed.

Lemma sorted_map {A B : Type} (R : B -> B -> Prop) (f : A -> B) (l : list A) :
  StronglySorted R (map f l) -> StronglySorted (fun a b => R (f a) (f b)) l.
Proof.
  induction l as [|x l IH]; simpl; intros H; [constructor|].
  apply StronglySorted_inv in H as [Hs Hx].
  constructor; [now apply IH|]. now rewrite Forall_map in Hx.
Qed.

Lemma rows_by_id_strict (l : list workout_row) :
  StronglySorted (fun a b => by_id a b = true) l -> NoDup (map w_id l) ->
  StronglySorted (fun a b => w_id a < w_id b) l.
Proof.
  induction 1 as [|x l Hs IH Hx]; simpl; intros Hnd; [constructor|].
  inversion Hnd as [|? ? Hnotin Hnd']; subst.
  constructor; [now apply IH|].
  rewrite Forall_forall in *. intros y Hy.
  specialize (Hx y Hy). unfold by_id in Hx. apply Z.leb_le in Hx.
  assert (w_id x <> w_id y) by (intros E; apply Hnotin; rewrite E; now apply in_map).
  lia.
Qed.

(** A selection of rows with distinct keys has distinct keys. *)
Lemma selected_keys_distinct (keep : workout_row -> bool) (rows : list workout_row) :
  NoDup (map w_id rows) -> NoDup (map w_id (filter keep rows)).
Proof.
  intros Hrows. induction rows as [|w rows IH]; simpl; [constructor|].
  simpl in Hrows. apply NoDup_cons_iff in Hrows as [Hw Hrest].
  destruct (keep w); simpl; [|now apply IH].
  apply NoDup_cons; [|now apply IH].
  intros Hin. apply Hw. apply in_map_iff in Hin as (w' & Hid & Hw').
  apply in_map_iff. exists w'. split; [exact Hid|].
  apply filter_In in Hw'. tauto.
Qed.

(** Whatever a reader makes of each row, if it keeps the row's columns
    and takes name and gif from the referenced exercise, the rows of the
    date taken by ascending id are the workout of that date. *)
Lemma workout_of_map (s : db) (d : string) (F : workout_row -> workout_view) :
  (forall w, row_of (F w) = w) ->
  (forall w, references_exercise s w -> enriched s (F w)) ->
  NoDup (map w_id (workout s)) ->
  Forall (references_exercise s) (filter (has_date d) (workout s)) ->
  workout_of s d (map F (order_by by_id (filter (has_date d) (workout s)))).
Proof.
  intros Hrow Hen Hnd Hfk.
  assert (Hmap : map row_of (map F (order_by by_id (filter (has_date d) (workout s))))
                 = order_by by_id (filter (has_date d) (workout s))).
  { rewrite map_map. erewrite map_ext; [apply map_id | exact Hrow]. }
  split; [|split].
  - rewrite Hmap. apply order_by_perm.
  - apply (sorted_map (fun a b => w_id a < w_id b) row_of). rewrite Hmap.
    apply rows_by_id_strict.
    + apply order_by_sorted; [apply by_id_total | apply by_id_trans].
    + eapply Permutation_NoDup.
      * apply Permutation_map, Permutation_sym, order_by_perm.
      * now apply selected_keys_distinct.
  - rewrite Forall_map. rewrite Forall_forall in *. intros w Hw.
    apply Hen, Hfk. now apply order_by_In in Hw.
Qed.

Lemma nested_view_enriched (s : db) (w : workout_row) :
  references_exercise s w -> enriched s (nested_view s w).
Proof.
  intros Hw. destruct (referenced_spec s w Hw) as (_ & Hin & Hid).
  exists (referenced s w). simpl. auto.
Qed.

Lemma joined_view_enriched (s : db) (w : workout_row) :
  references_exercise s w -> enriched s (joined_view s w).
Proof.
  intros Hw. destruct (referenced_spec s w Hw) as (_ & Hin & Hid).
  exists (referenced s w). simpl. auto.
Qed.

Lemma row_of_nested (s : db) (w : workout_row) : row_of (nested_view s w) = w.
Proof. now destruct w. Qed.

Lemma row_of_joined (s : db) (w : workout_row) : row_of (joined_view s w) = w.
Proof. now destruct w. Qed.

Lemma Forall_filter {A : Type} (P : A -> Prop) (p : A -> bool) (l : list A) :
  Forall P l -> Forall P (filter p l).
Proof.
  rewrite !Forall_forall. intros H x Hx. apply H. now apply filter_In in Hx.
Qed.

(** C8. In every store state whose keys are unique and whose workout
    rows all reference an existing exercise, and for every date, both
    readers ([getWorkoutByDate] over the hosted store and
    [GET /api/workouts/:date] over the embedded one) succeed, change
    nothing and return the workout rows of that date by ascending entry
    id, each with the referenced exercise's name and gif as fields of
    the returned record. *)
Theorem getWorkoutByDate_ordered_enriched (s : db) (d : string) :
  primary_keys s -> foreign_keys s ->
  (exists views,
      Supabase.getWorkoutByDate d s = (Ok views, s) /\ workout_of s d views) /\
  (exists views,
      Sqlite.get_workouts d s = (mkResponse 200 (RWorkouts views), s) /\
      workout_of s d views).
Proof.
  intros [Hex Hw] Hfk.
  pose proof (Forall_filter _ (has_date d) _ Hfk) as Hfk'.
  split; eexists; split.
  - now apply getWorkoutByDate_eq.
  - apply workout_of_map; auto using row_of_nested, nested_view_enriched.
  - now apply get_workouts_eq.
  - apply workout_of_map; auto using row_of_joined, joined_view_enriched.
Qed.

Lemma sample_ok : db_ok sample.
Proof.
  unfold db_ok, primary_keys, sequences_ahead, foreign_keys, sample; simpl.
  repeat split.
  - repeat constructor; simpl; intuition discriminate.
  - repeat constructor; simpl; intuition discriminate.
  - repeat constructor; simpl; lia.
  - repeat constructor; simpl; lia.
  - repeat constructor; unfold references_exercise; simpl;
      [exists pushups | exists pushups | exists squats]; auto.
Qed.

Lemma getWorkoutByDate_ordered_enriched_witness :
  primary_keys sample /\ foreign_keys sample /\
  (exists views,
      Supabase.getWorkoutByDate "2024-01-01" sample = (Ok views, sample) /\
      workout_of sample "2024-01-01" views) /\
  (exists views,
      Sqlite.get_workouts "2024-01-01" sample
      = (mkResponse 200 (RWorkouts views), sample) /\
      workout_of sample "2024-01-01" views).
Proof.
  destruct sample_ok as (Hpk & _ & Hfk).
  split; [exact Hpk|]. split; [exact Hfk|].
  exact (getWorkoutByDate_ordered_enriched sample "2024-01-01" Hpk Hfk).
Defined.

(** ** C1: saving a workout, then reading it *)

Lemma names_exercise_inv (s : db) (e : element) :
  names_exercise s e ->
  exists i dur, e = ElObj (Some i) dur /\
                existsb (has_id i) (exercise s) = true /\
                (exists x, In x (exercise s) /\ ex_id x = i).
Proof.
  destruct e as [|[i|] dur]; simpl; try contradiction.
  intros (x & Hin & Hid). exists i, dur. repeat split.
  - apply existsb_exists. exists x. split; [assumption | now apply has_id_true].
  - now exists x.
Qed.

Lemma to_workout_data_ok (s : db) (d : string) (E : list element) :
  Forall (names_exercise s) E ->
  Supabase.map_result (Supabase.to_workout_data d) E = Ok (map (data_of d) E).
Proof.
  induction 1 as [|e E He _ IH]; simpl; [reflexivity|].
  apply names_exercise_inv in He as (i & dur & -> & _). simpl. now rewrite IH.
Qed.

Lemma strict_is_by_id (l : list workout_row) :
  StronglySorted (fun a b => w_id a < w_id b) l ->
  StronglySorted (fun a b => by_id a b = true) l.
Proof.
  induction 1 as [|x l Hs IH Hx]; constructor; [assumption|].
  eapply Forall_impl; [|exact Hx]. intros y Hy. cbv beta in Hy.
  unfold by_id. apply Z.leb_le. lia.
Qed.

Lemma filter_all {A : Type} (p : A -> bool) (l : list A) :
  Forall (fun x => p x = true) l -> filter p l = l.
Proof.
  induction 1 as [|x l Hx _ IH]; simpl; [reflexivity|]. now rewrite Hx, IH.
Qed.

Lemma no_date_left (d : string) (l : list workout_row) :
  filter (has_date d) (filter (fun w => negb (has_date d w)) l) = [].
Proof.
  apply filter_none. intros w Hw. apply filter_In in Hw as [_ Hw].
  now apply negb_true_iff in Hw.
Qed.

(** Reading a date whose rows are exactly the rows [ws] appended last. *)
Lemma read_back (d : string) (others ws : list workout_row) :
  filter (has_date d) others = [] ->
  Forall (fun w => w_date w = d) ws ->
  StronglySorted (fun a b => w_id a < w_id b) ws ->
  order_by by_id (filter (has_date d) (others ++ ws)) = ws.
Proof.
  intros Ho Hd Hs.
  rewrite filter_app, Ho. simpl. rewrite filter_all.
  - now apply order_by_sorted_id, strict_is_by_id.
  - eapply Forall_impl; [|exact Hd]. intros w. apply has_date_true.
Qed.

Lemma entry_of_nested (s : db) (ws : list workout_row) :
  map entry_of (map (nested_view s) ws) = map entry_of_row ws.
Proof. rewrite map_map. reflexivity. Qed.

Lemma entry_of_joined (s : db) (ws : list workout_row) :
  map entry_of (map (joined_view s) ws) = map entry_of_row ws.
Proof. rewrite map_map. reflexivity. Qed.

(** *** The hosted store's insert *)

Lemma exercise_exists_spec (s : db) (w : workout_row) :
  Supabase.exercise_exists s w = true <-> references_exercise s w.
Proof.
  unfold Supabase.exercise_exists, references_exercise. rewrite existsb_exists.
  split; intros (e & Hin & He); exists e; (split; [assumption|]);
    now apply has_id_true.
Qed.

Lemma all_exercises_exist (s : db) (ws : list workout_row) :
  forallb (Supabase.exercise_exists s) ws = true <-> Forall (references_exercise s) ws.
Proof.
  rewrite forallb_forall, Forall_forall.
  split; intros H w Hw; apply exercise_exists_spec; auto.
Qed.

(** A string within the width of its column is stored as it is. *)
Lemma varchar_fits (n : nat) (t : string) : fits n t -> Supabase.varchar n t = Some t.
Proof.
  unfold fits, Supabase.varchar. intros H.
  apply Nat.leb_le in H. now rewrite H.
Qed.

Lemma integer_value_typed (v : option Z) :
  int4_or_null v -> Supabase.integer_value v = inr v.
Proof. destruct v as [z|]; simpl; [intros ->|]; reflexivity. Qed.

(** A payload of typed entries under a date that fits is read as sent. *)
Lemma read_rows_typed (d : string) (E : list element) :
  fits 10 d -> Forall typed_entry E ->
  Supabase.read_rows (map (data_of d) E) = inr (map (data_of d) E).
Proof.
  intros Hd. induction 1 as [|e E He _ IH]; [reflexivity|].
  cbn [map Supabase.read_rows]. rewrite IH.
  destruct e as [|i n]; cbn [data_of Supabase.date Supabase.exercise_id Supabase.duration].
  - now rewrite (varchar_fits 10 d Hd).
  - destruct He as [Hi Hn].
    now rewrite (varchar_fits 10 d Hd), (integer_value_typed i Hi),
      (integer_value_typed n Hn).
Qed.

(** What the statement read keeps the length of the payload, and the
    date of each row when that date fits. *)
Lemma read_rows_dates (d : string) (rows : list Supabase.workout_data) :
  fits 10 d -> Forall (fun r => Supabase.date r = d) rows ->
  forall rs, Supabase.read_rows rows = inr rs ->
             Forall (fun r => Supabase.date r = d) rs.
Proof.
  intros Hd. induction 1 as [|r rows Hr _ IH]; intros rs; cbn [Supabase.read_rows].
  - intros [= <-]. constructor.
  - rewrite Hr, (varchar_fits 10 d Hd).
    destruct (Supabase.integer_value (Supabase.exercise_id r)) as [?|e]; [discriminate|].
    destruct (Supabase.integer_value (Supabase.duration r)) as [?|n]; [discriminate|].
    destruct (Supabase.read_rows rows) as [?|rs']; [discriminate|].
    intros [= <-]. constructor; [reflexivity | now apply IH].
Qed.

Lemma read_rows_length (rows : list Supabase.workout_data) :
  forall rs, Supabase.read_rows rows = inr rs -> List.length rs = List.length rows.
Proof.
  induction rows as [|r rows IH]; intros rs; cbn [Supabase.read_rows].
  - now intros [= <-].
  - destruct (Supabase.varchar 10 (Supabase.date r)); [|discriminate].
    destruct (Supabase.integer_value (Supabase.exercise_id r)); [discriminate|].
    destruct (Supabase.integer_value (Supabase.duration r)); [discriminate|].
    destruct (Supabase.read_rows rows) as [?|rs']; [discriminate|].
    intros [= <-]. cbn [List.length]. now rewrite (IH rs' eq_refl).
Qed.

(** The rows written carry the payload, with keys handed out upwards
    from the sequence. *)
Lemma write_rows_shape (table : list workout_row) (rows : list Supabase.workout_data) :
  forall last ws,
    Supabase.write_rows table last rows = inr ws ->
    map row_data ws = rows /\
    Forall (fun w => last < w_id w <= last + Z.of_nat (List.length ws)) ws /\
    StronglySorted (fun a b => w_id a < w_id b) ws.
Proof.
  induction rows as [|r rows IH]; intros last ws; cbn [Supabase.write_rows]; cbv zeta.
  - intros [= <-]. repeat split; constructor.
  - destruct (negb (Supabase.int4 (last + 1))); [discriminate|].
    destruct r as [d [e|] n]; cbn [Supabase.exercise_id Supabase.date Supabase.duration];
      [|discriminate].
    destruct (existsb _ table); [discriminate|].
    destruct (Supabase.write_rows table (last + 1) rows) as [?|ws'] eqn:Hrest;
      [discriminate|].
    intros [= <-]. destruct (IH _ _ Hrest) as (Hmap & Hkeys & Hs).
    cbn [List.length]. rewrite Nat2Z.inj_succ. repeat split.
    + cbn [map]. now rewrite Hmap.
    + constructor; [cbn [w_id]; lia|].
      eapply Forall_impl; [|exact Hkeys]. intros w Hw. cbv beta in Hw. lia.
    + constructor; [assumption|].
      eapply Forall_impl; [|exact Hkeys]. intros w Hw. cbv beta in Hw.
      cbn [w_id]. lia.
Qed.

(** A refused write leaves the sequence where it got to. *)
Lemma write_rows_refused (table : list workout_row) (rows : list Supabase.workout_data) :
  forall last err last',
    Supabase.write_rows table last rows = inl (err, last') -> last <= last'.
Proof.
  induction rows as [|r rows IH]; intros last err last';
    cbn [Supabase.write_rows]; cbv zeta; [discriminate|].
  destruct (negb (Supabase.int4 (last + 1))); [intros [= _ <-]; lia|].
  destruct (Supabase.exercise_id r); [|intros [= _ <-]; lia].
  destruct (existsb _ table); [intros [= _ <-]; lia|].
  destruct (Supabase.write_rows table (last + 1) rows) as [[err' l']|ws'] eqn:Hrest;
    [|discriminate].
  intros [= _ <-]. specialize (IH _ _ _ Hrest). lia.
Qed.

(** Rows that name an exercise are written while the sequence has keys
    left above the keys in use. *)
Lemma write_rows_ok (table : list workout_row) (rows : list Supabase.workout_data) :
  forall last,
    Forall (fun r => Supabase.exercise_id r <> None) rows ->
    Forall (fun w => w_id w <= last) table ->
    -2147483648 <= last + 1 ->
    last + Z.of_nat (List.length rows) <= 2147483647 ->
    exists ws, Supabase.write_rows table last rows = inr ws.
Proof.
  induction rows as [|r rows IH]; intros last Hrows Htable Hlow Hhigh;
    cbn [Supabase.write_rows]; cbv zeta.
  - now exists [].
  - cbn [List.length] in Hhigh. rewrite Nat2Z.inj_succ in Hhigh.
    inversion Hrows as [|? ? Hr Hrows']; subst.
    assert (Hkey : Supabase.int4 (last + 1) = true).
    { unfold Supabase.int4. apply andb_true_iff. split; apply Z.leb_le; lia. }
    rewrite Hkey. cbn [negb].
    destruct (Supabase.exercise_id r) as [e|]; [|contradiction].
    assert (Hfree : existsb (fun w => w_id w =? last + 1) table = false).
    { apply not_true_is_false. intros H. apply existsb_exists in H as (w & Hw & E0).
      apply Z.eqb_eq in E0. rewrite Forall_forall in Htable.
      specialize (Htable w Hw). lia. }
    rewrite Hfree.
    destruct (IH (last + 1) Hrows') as (ws & ->); [| lia | lia |].
    + eapply Forall_impl; [|exact Htable]. intros w Hw. cbv beta in Hw. lia.
    + eexists. reflexivity.
Qed.

(** The rows written for entries that name exercises are those
    entries, under the date, each referencing its exercise. *)
Lemma rows_of_entries (s : db) (d : string) (E : list element) :
  Forall (names_exercise s) E ->
  forall ws, map row_data ws = map (data_of d) E ->
             map entry_of_row ws = E /\
             Forall (fun w => w_date w = d) ws /\
             Forall (references_exercise s) ws.
Proof.
  induction 1 as [|e E He _ IH]; intros [|w ws]; cbn [map]; try discriminate.
  - intros _. repeat split; constructor.
  - apply names_exercise_inv in He as (i & dur & -> & _ & Hx).
    destruct w as [k dw ew nw]. unfold row_data at 1. cbn [data_of w_date w_exercise_id w_duration].
    intros [= -> -> -> Hrest]. destruct (IH ws Hrest) as (Hmap & Hd & Hfk).
    repeat split.
    + unfold entry_of_row at 1. cbn [w_exercise_id w_duration]. now rewrite Hmap.
    + now constructor.
    + constructor; [exact Hx | exact Hfk].
Qed.

Lemma entries_name_exercises (s : db) (d : string) (E : list element) :
  Forall (names_exercise s) E ->
  Forall (fun r => Supabase.exercise_id r <> None) (map (data_of d) E).
Proof.
  induction 1 as [|e E He _ IH]; cbn [map]; constructor; [|exact IH].
  apply names_exercise_inv in He as (i & dur & -> & _). simpl. discriminate.
Qed.

Lemma saveWorkout_then_read (s : db) (d : string) (E : list element) :
  sequences_ahead s -> Forall (names_exercise s) E ->
  fits 10 d -> Forall typed_entry E -> keys_left s (List.length E) ->
  exists s1 views,
    Supabase.saveWorkout d E s = (Ok RSuccess, s1) /\
    Supabase.getWorkoutByDate d s1 = (Ok views, s1) /\
    map entry_of views = E.
Proof.
  intros [_ Hseq] HE Hd Htyped [Hlow Hhigh]. destruct s as [ex wk eseq wseq].
  cbn [workout workout_seq] in *.
  set (s0 := mkDb ex (filter (fun w => negb (has_date d w)) wk) eseq wseq).
  destruct (write_rows_ok (workout s0) (map (data_of d) E) wseq) as (ws & Hwrite).
  { now apply (entries_name_exercises s0). }
  { cbn [workout s0]. now apply Forall_filter. }
  { exact Hlow. }
  { now rewrite length_map. }
  destruct (write_rows_shape _ _ _ _ Hwrite) as (Hrows & _ & Hs).
  destruct (rows_of_entries s0 d E HE ws Hrows) as (Hmap & Hdate & Hfk).
  unfold Supabase.saveWorkout, bind, Supabase.delete_workout_by_date, Supabase.lift.
  cbn [exercise workout exercise_seq workout_seq].
  rewrite (to_workout_data_ok s0 d E HE).
  unfold Supabase.insert_workout. cbn [exercise workout exercise_seq workout_seq].
  rewrite (read_rows_typed d E Hd Htyped).
  fold s0. change (filter (fun w => negb (has_date d w)) wk) with (workout s0).
  rewrite Hwrite. cbv zeta.
  rewrite (proj2 (all_exercises_exist s0 ws) Hfk). unfold ret.
  eexists. eexists. split; [reflexivity|].
  rewrite getWorkoutByDate_eq.
  - cbn [workout s0]. rewrite (read_back d _ ws (no_date_left d wk) Hdate Hs).
    split; [reflexivity|]. now rewrite entry_of_nested.
  - cbn [workout s0]. rewrite filter_app, no_date_left. simpl app.
    apply Forall_filter. exact Hfk.
Qed.

(** *** The embedded store's keys *)

Lemma high_water_bounds (wk : list workout_row) (wseq : Z) :
  wseq <= high_water wk wseq /\
  Forall (fun w => w_id w <= high_water wk wseq) wk.
Proof.
  unfold high_water. induction wk as [|w wk [IH1 IH2]]; simpl.
  - split; [lia | constructor].
  - split; [lia|]. constructor; [lia|].
    eapply Forall_impl; [|exact IH2]. intros; simpl in *; lia.
Qed.

Lemma high_water_le (wk : list workout_row) (wseq b : Z) :
  wseq <= b -> Forall (fun w => w_id w <= b) wk -> high_water wk wseq <= b.
Proof.
  unfold high_water. intros Hb. induction 1 as [|w wk Hw _ IH]; simpl; lia.
Qed.

(** A key handed out becomes the new mark. *)
Lemma high_water_next (wk : list workout_row) (wseq : Z) (w : workout_row) :
  w_id w = high_water wk wseq + 1 ->
  high_water (wk ++ [w]) (high_water wk wseq + 1) = high_water wk wseq + 1.
Proof.
  intros Hw. destruct (high_water_bounds wk wseq) as [_ Hall].
  apply Z.le_antisymm.
  - apply high_water_le; [lia|]. apply Forall_app. split.
    + eapply Forall_impl; [|exact Hall]. intros; simpl in *; lia.
    + constructor; [lia | constructor].
  - apply high_water_bounds.
Qed.

(** The loop of [POST /api/workouts] over entries that name exercises:
    one row per entry, appended in order, with keys above the mark. *)
Lemma forEach_insert_ok (ex : list exercise_row) (eseq : Z) (d : string)
      (E : list element) :
  forall wk wseq,
    Forall (names_exercise (mkDb ex wk eseq wseq)) E ->
    exists ws wseq',
      Sqlite.forEach (Sqlite.insert_entry (Some d)) E (mkDb ex wk eseq wseq)
      = (Ok tt, mkDb ex (wk ++ ws) eseq wseq') /\
      map entry_of_row ws = E /\
      Forall (fun w => w_date w = d) ws /\
      Forall (fun w => high_water wk wseq < w_id w) ws /\
      StronglySorted (fun a b => w_id a < w_id b) ws /\
      Forall (references_exercise (mkDb ex wk eseq wseq)) ws.
Proof.
  induction E as [|e E IH]; intros wk wseq HE.
  - exists [], wseq. rewrite app_nil_r. repeat split; constructor.
  - inversion HE as [|? ? He HE']; subst.
    apply names_exercise_inv in He as (i & dur & -> & Hex & Hx).
    cbn [exercise] in Hex.
    set (w := mkWorkout (high_water wk wseq + 1) d i dur).
    destruct (IH (wk ++ [w]) (high_water wk wseq + 1) HE')
      as (ws & wseq' & Hrun & Hmap & Hd & Hhigh & Hs & Hfk).
    rewrite (high_water_next wk wseq w eq_refl) in Hhigh.
    exists (w :: ws), wseq'. split; [|repeat split].
    + cbn [Sqlite.forEach Sqlite.insert_entry]. unfold bind at 1 2.
      unfold Sqlite.run_insert_workout, Sqlite.next_autoincrement.
      cbn [exercise workout exercise_seq workout_seq].
      rewrite Hex. cbn [negb]. unfold ret at 1.
      fold (high_water wk wseq). fold w. rewrite Hrun.
      now rewrite <- app_assoc.
    + simpl. now rewrite Hmap.
    + now constructor.
    + constructor; [simpl; lia|].
      eapply Forall_impl; [|exact Hhigh]. intros; simpl in *; lia.
    + constructor; [assumption|].
      eapply Forall_impl; [|exact Hhigh]. intros; simpl in *; lia.
    + constructor; [exact Hx | exact Hfk].
Qed.

Lemma post_workouts_then_read (s : db) (d : string) (E : list element)
      (name gif : option string) :
  NoDup (map ex_id (exercise s)) -> Forall (names_exercise s) E ->
  exists s1 views,
    Sqlite.post_workouts (mkBody (Some d) (ExArray E) name gif) s
    = (mkResponse 200 RSuccess, s1) /\
    Sqlite.get_workouts d s1 = (mkResponse 200 (RWorkouts views), s1) /\
    map entry_of views = E.
Proof.
  intros Hnd HE. destruct s as [ex wk eseq wseq]. cbn [exercise] in Hnd.
  destruct (forEach_insert_ok ex eseq d E
              (filter (fun w => negb (has_date d w)) wk) wseq HE)
    as (ws & wseq' & Hrun & Hmap & Hd & _ & Hs & Hfk).
  unfold Sqlite.post_workouts, Sqlite.try_catch, bind, Sqlite.transaction,
    Sqlite.replace_workout, bind, Sqlite.run_delete_workout.
  cbn [b_date b_exercises exercise workout exercise_seq workout_seq Sqlite.is_date].
  rewrite Hrun. unfold Sqlite.json, ret.
  eexists. eexists. split; [reflexivity|].
  rewrite get_workouts_eq.
  - cbn [workout]. rewrite (read_back d _ ws (no_date_left d wk) Hd Hs).
    split; [reflexivity|]. now rewrite entry_of_joined.
  - exact Hnd.
  - cbn [workout]. rewrite filter_app, no_date_left. simpl app.
    apply Forall_filter. exact Hfk.
Qed.

(** Saving a duration that is no 32-bit integer in the hosted store:
    the date is valid and the entry names an existing exercise, yet
    the insert is refused after the delete, [saveWorkout] throws, the
    handler answers 500, and the read that follows returns no entry. *)
Lemma saveWorkout_duration_out_of_range :
  db_ok sample /\
  Forall (names_exercise sample) [ElObj (Some 1) (Some 2147483648)] /\
  (exists m s1,
      Supabase.saveWorkout "2024-01-01" [ElObj (Some 1) (Some 2147483648)] sample
      = (Throw m, s1) /\
      exercise s1 = exercise sample /\
      workout s1 = [mkWorkout 2 "2024-01-02" 1 (Some 45)] /\
      Supabase.getWorkoutByDate "2024-01-01" s1 = (Ok [], s1)) /\
  status (fst (Supabase.endpoint
                 (Supabase.mkRequest Supabase.POST (Some "workout") (Some "2024-01-01")
                    None
                    (mkBody None (ExArray [ElObj (Some 1) (Some 2147483648)]) None None))
                 sample))
  = 500 /\
  ~ (exists s1 views,
        Supabase.saveWorkout "2024-01-01" [ElObj (Some 1) (Some 2147483648)] sample
        = (Ok RSuccess, s1) /\
        Supabase.getWorkoutByDate "2024-01-01" s1 = (Ok views, s1) /\
        map entry_of views = [ElObj (Some 1) (Some 2147483648)]).
Proof.
  split; [exact sample_ok|].
  split; [repeat constructor; simpl; exists pushups; simpl; auto|].
  split; [eexists; eexists; repeat split; reflexivity|].
  split; [reflexivity|].
  intros (s1 & views & Hsave & _). discriminate Hsave.
Qed.

(** C1, as the code has it. In a store state as the schema keeps it,
    for every date and every list [E] of [{ id, duration }] entries
    that name existing exercises, saving [E] for the date succeeds and
    the read of that date that follows returns exactly the entries of
    [E], in order, with the same exercise ids and durations, whatever
    was saved for the date before: for [POST /api/workouts] then
    [GET /api/workouts/:date] (embedded store) as it stands, and for
    [saveWorkout] then [getWorkoutByDate] (hosted store) when the date
    has at most 10 characters, the ids and durations are 32-bit
    integers (a duration may be [null]) and the key sequence of the
    workout table has a key left for every entry. *)
Theorem saveWorkout_replaces (s : db) (d : string) (E : list element)
        (name gif : option string) :
  db_ok s -> Forall (names_exercise s) E ->
  (fits 10 d -> Forall typed_entry E -> keys_left s (List.length E) ->
   exists s1 views,
     Supabase.saveWorkout d E s = (Ok RSuccess, s1) /\
     Supabase.getWorkoutByDate d s1 = (Ok views, s1) /\
     map entry_of views = E) /\
  (exists s1 views,
      Sqlite.post_workouts (mkBody (Some d) (ExArray E) name gif) s
      = (mkResponse 200 RSuccess, s1) /\
      Sqlite.get_workouts d s1 = (mkResponse 200 (RWorkouts views), s1) /\
      map entry_of views = E).
Proof.
  intros ([Hex _] & Hseq & _) HE. split.
  - intros Hd Htyped Hkeys. now apply saveWorkout_then_read.
  - now apply post_workouts_then_read.
Qed.

Lemma sample_entries :
  Forall (names_exercise sample) [ElObj (Some 2) (Some 10); ElObj (Some 1) None].
Proof.
  repeat constructor; simpl; [exists squats | exists pushups]; simpl; auto.
Qed.

Lemma sample_entries_typed :
  Forall typed_entry [ElObj (Some 2) (Some 10); ElObj (Some 1) None].
Proof. repeat constructor. Qed.

Lemma saveWorkout_replaces_witness :
  db_ok sample /\
  Forall (names_exercise sample) [ElObj (Some 2) (Some 10); ElObj (Some 1) None] /\
  fits 10 "2024-01-01" /\
  Forall typed_entry [ElObj (Some 2) (Some 10); ElObj (Some 1) None] /\
  keys_left sample 2 /\
  (exists s1 views,
      Supabase.saveWorkout "2024-01-01" [ElObj (Some 2) (Some 10); ElObj (Some 1) None]
                           sample = (Ok RSuccess, s1) /\
      Supabase.getWorkoutByDate "2024-01-01" s1 = (Ok views, s1) /\
      map entry_of views = [ElObj (Some 2) (Some 10); ElObj (Some 1) None]) /\
  (exists s1 views,
      Sqlite.post_workouts
        (mkBody (Some "2024-01-01")
                (ExArray [ElObj (Some 2) (Some 10); ElObj (Some 1) None]) None None)
        sample = (mkResponse 200 RSuccess, s1) /\
      Sqlite.get_workouts "2024-01-01" s1 = (mkResponse 200 (RWorkouts views), s1) /\
      map entry_of views = [ElObj (Some 2) (Some 10); ElObj (Some 1) None]).
Proof.
  assert (Hd : fits 10 "2024-01-01") by (unfold fits; simpl; lia).
  assert (Hk : keys_left sample 2) by (unfold keys_left; simpl; lia).
  split; [exact sample_ok|]. split; [exact sample_entries|].
  split; [exact Hd|]. split; [exact sample_entries_typed|]. split; [exact Hk|].
  destruct (saveWorkout_replaces sample "2024-01-01" _ None None
              sample_ok sample_entries) as [Hhosted Hembedded].
  split; [exact (Hhosted Hd sample_entries_typed Hk) | exact Hembedded].
Defined.

(** ** C10: saving an empty list *)

(** C10. For every date and store state, saving the empty array for
    the date is accepted and succeeds: [saveWorkout(date, [])] (hosted
    store), the [POST] of the action-dispatched handler with
    [exercises: []], and [POST /api/workouts] (embedded store) all
    answer [{ success: true }], remove every workout row of the date,
    add none, and the read of the date that follows returns the empty
    sequence. *)
Theorem saveWorkout_empty_clears (s : db) (d : string) (name gif : option string) :
  (exists n s1,
      Supabase.saveWorkout d [] s = (Ok RSuccess, s1) /\
      removed_date s d n s1 /\
      Supabase.getWorkoutByDate d s1 = (Ok [], s1)) /\
  (forall c r id bd,
      Supabase.handler
        (Supabase.mkRequest Supabase.POST (Some "workout") (Some (String c r)) id
                            (mkBody bd (ExArray []) name gif)) s
      = (mkResponse 200 RSuccess, snd (Supabase.saveWorkout (String c r) [] s))) /\
  (exists n s1,
      Sqlite.post_workouts (mkBody (Some d) (ExArray []) name gif) s
      = (mkResponse 200 RSuccess, s1) /\
      removed_date s d n s1 /\
      Sqlite.get_workouts d s1 = (mkResponse 200 (RWorkouts []), s1)).
Proof.
  split; [|split].
  - eexists. eexists. split; [reflexivity|]. split.
    + cbn [exercise workout exercise_seq workout_seq List.length app].
      rewrite app_nil_r, Z.add_0_r.
      replace (mkDb (exercise s) _ (exercise_seq s) (workout_seq s))
        with (mkDb (exercise s) (filter (fun w => negb (has_date d w)) (workout s))
                   (exercise_seq s) (workout_seq s)) by reflexivity.
      apply delete_removes_date.
    + rewrite getWorkoutByDate_eq; cbn [workout];
        rewrite app_nil_r, no_date_left; [reflexivity | constructor].
  - intros c r id bd. reflexivity.
  - eexists. eexists. split; [reflexivity|]. split.
    + apply delete_removes_date.
    + unfold Sqlite.get_workouts, Sqlite.try_catch, bind, Sqlite.all_workouts_joined.
      cbn [workout]. now rewrite no_date_left.
Qed.

(** ** C3: the save of the embedded store is all or nothing *)

(** What the loop has done when it ends without an exception. *)
Lemma forEach_insert_shape (date : option string) (E : list element) :
  forall s0 s',
    Sqlite.forEach (Sqlite.insert_entry date) E s0 = (Ok tt, s') ->
    exercise s' = exercise s0 /\
    exists ws,
      workout s' = workout s0 ++ ws /\
      map entry_of_row ws = E /\
      Forall (fun w => Sqlite.is_date date w = true) ws.
Proof.
  induction E as [|e E IH]; intros s0 s' Hrun.
  - inversion Hrun; subst. split; [reflexivity|].
    exists []. rewrite app_nil_r. repeat split; constructor.
  - cbn [Sqlite.forEach] in Hrun. unfold bind at 1 in Hrun.
    destruct (Sqlite.insert_entry date e s0) as [[[]|m] s1] eqn:Hins;
      [|discriminate].
    destruct e as [|id dur]; [discriminate|].
    unfold Sqlite.insert_entry, bind, Sqlite.run_insert_workout in Hins.
    destruct date as [d|]; [|discriminate].
    destruct id as [i|]; [|discriminate].
    destruct (negb (existsb (has_id i) (exercise s0))); [discriminate|].
    inversion Hins; subst; clear Hins.
    destruct (IH _ _ Hrun) as (Hex & ws & Hwk & Hmap & Hd).
    cbn [exercise workout] in Hex, Hwk. split; [exact Hex|].
    eexists (_ :: ws). split; [|split].
    + rewrite Hwk, <- app_assoc. reflexivity.
    + simpl. now rewrite Hmap.
    + constructor; [|exact Hd]. simpl. unfold has_date. simpl. apply String.eqb_refl.
Qed.

(** C3. In the embedded-store variant the delete of the date's rows
    and the insertion of the new entries are one transaction: whatever
    the request and the store, [POST /api/workouts] either answers 500
    and leaves the store exactly as it was (also when an insertion fails
    after the delete and after earlier insertions), or answers 200 and
    the rows of the date are the complete new set, one per entry of the
    array; a mixture is never left behind. *)
Theorem post_workouts_atomic (s : db) (b : body) :
  exists res s',
    Sqlite.post_workouts b s = (res, s') /\
    ((status res = 500 /\ s' = s) \/
     (res = mkResponse 200 RSuccess /\
      exists E, b_exercises b = ExArray E /\ replaced s (b_date b) E s')).
Proof.
  unfold Sqlite.post_workouts, Sqlite.try_catch, bind, Sqlite.transaction,
    Sqlite.replace_workout, bind.
  unfold Sqlite.run_delete_workout at 1.
  destruct (b_exercises b) as [|v|E] eqn:HE.
  - eexists. eexists. split; [reflexivity|]. left. split; reflexivity.
  - destruct v; eexists; eexists; (split; [reflexivity|]); left; split; reflexivity.
  - match goal with
    | |- context [Sqlite.forEach ?f E ?s0] =>
        destruct (Sqlite.forEach f E s0) as [[[]|m] s1] eqn:Hrun
    end.
    + eexists. eexists. split; [reflexivity|]. right. split; [reflexivity|].
      exists E. split; [reflexivity|].
      apply forEach_insert_shape in Hrun as (Hex & ws & Hwk & Hmap & Hd).
      split; [exact Hex|]. exists ws. auto.
    + eexists. eexists. split; [reflexivity|]. left. split; reflexivity.
Qed.

(** The transaction at work: the second entry names no exercise, the
    insert throws after the delete and the first insert, and the store
    is as before. *)
Lemma post_workouts_rolls_back :
  Sqlite.post_workouts
    (mkBody (Some "2024-01-01")
            (ExArray [ElObj (Some 2) (Some 10); ElObj (Some 9) None]) None None)
    sample
  = (mkResponse 500 (RError "FOREIGN KEY constraint failed"), sample).
Proof. reflexivity. Qed.

(** The hosted store has no such bracket: on the same input
    [saveWorkout] throws after its delete went through, and the rows of
    the date are lost. *)
Lemma saveWorkout_keeps_the_delete :
  exists m s1,
    Supabase.saveWorkout "2024-01-01"
      [ElObj (Some 2) (Some 10); ElObj (Some 9) None] sample = (Throw m, s1) /\
    filter (has_date "2024-01-01") (workout sample) <> [] /\
    filter (has_date "2024-01-01") (workout s1) = [].
Proof.
  eexists. eexists. split; [reflexivity|]. split; [discriminate | reflexivity].
Qed.

(** ** C7: updating an exercise that is not there *)

Lemma no_row_with_id (s : db) (i : Z) :
  (forall e, In e (exercise s) -> ex_id e <> i) ->
  filter (has_id i) (exercise s) = [].
Proof.
  intros H. apply filter_none. intros e He.
  destruct (has_id i e) eqn:E; [|reflexivity].
  apply has_id_true in E. now apply H in He.
Qed.

Lemma parseInt_nonempty (t : string) (i : Z) :
  Js.parseInt t = Some i -> Js.truthy_str (Some t) = true.
Proof. destruct t; [discriminate | reflexivity]. Qed.

Lemma varchar255_fits (v : option string) :
  fits_or_null 255 v -> Supabase.varchar255_value v = inr v.
Proof.
  destruct v as [t|]; [|reflexivity]. cbn [fits_or_null Supabase.varchar255_value].
  intros H. now rewrite (varchar_fits 255 t H).
Qed.




(** ** C2: deleting an exercise that workouts use *)

Lemma used_by_some_row (s : db) (i : Z) :
  (exists w, In w (workout s) /\ w_exercise_id w = i) ->
  exists w ws, filter (uses_exercise i) (workout s) = w :: ws.
Proof.
  intros (w & Hin & Hid).
  destruct (filter (uses_exercise i) (workout s)) as [|w' ws] eqn:F.
  - exfalso. assert (H : In w (filter (uses_exercise i) (workout s))).
    { apply filter_In. split; [assumption|]. unfold uses_exercise. now apply Z.eqb_eq. }
    rewrite F in H. contradiction.
  - now exists w', ws.
Qed.

(** An id outside the 32 bits of the column stops [deleteExercise] at
    its first query. *)
Lemma deleteExercise_out_of_range (s : db) (i : Z) :
  Supabase.int4 i = false ->
  Supabase.deleteExercise (Some i) s
  = (Throw (Supabase.message Supabase.out_of_range), s).
Proof.
  intros Hi.
  unfold Supabase.deleteExercise, bind, Supabase.select_workout_ids_of_exercise.
  cbn [Supabase.integer_filter]. now rewrite Hi.
Qed.

(** The [DELETE] of the handler with [action=exercise], by what
    [deleteExercise] does. *)
Lemma delete_exercise_request (s s' : db) (i : Z) (t : string) (date : option string)
      (b : body) (r : result reply) :
  Js.parseInt t = Some i ->
  Supabase.deleteExercise (Some i) s = (r, s') ->
  Supabase.handler
    (Supabase.mkRequest Supabase.DELETE (Some "exercise") date (Some t) b) s
  = (match r with
     | Ok result =>
         if negb (Supabase.was_deleted result)
         then mkResponse 404 (RError "Exercise not found")
         else mkResponse 200 result
     | Throw m =>
         mkResponse 500 (RError (if (m =? "")%string then "Internal server error" else m))
     end, s').
Proof.
  intros Ht Hdel. unfold Supabase.handler, Supabase.dispatch.
  cbn [Supabase.method]. unfold Supabase.is_action, Supabase.parse_id.
  cbn [Supabase.action Supabase.q_id Supabase.q_date].
  rewrite (parseInt_nonempty t i Ht), Ht.
  destruct date as [[|c d]|]; cbn -[Supabase.deleteExercise];
    unfold bind; rewrite Hdel; destruct r as [result|m]; try reflexivity;
    unfold Supabase.status_json, Supabase.json, ret;
    destruct (negb (Supabase.was_deleted result)); reflexivity.
Qed.

(** The guard of [deleteExercise] and of [DELETE /api/exercises/:id]:
    an exercise some workout row references is not deleted.  The
    embedded-store route answers 400; [deleteExercise] throws, and in
    the action-dispatched handler the exception reaches the [catch]
    that answers 500. *)
Lemma deleteExercise_guard (s : db) (i : Z) (t : string) :
  (exists w, In w (workout s) /\ w_exercise_id w = i) ->
  Js.parseInt t = Some i ->
  (Supabase.int4 i = true ->
   Supabase.deleteExercise (Some i) s
   = (Throw "Cannot delete exercise that is used in workouts", s) /\
   (forall date b,
       Supabase.handler
         (Supabase.mkRequest Supabase.DELETE (Some "exercise") date (Some t) b) s
       = (mkResponse 500 (RError "Cannot delete exercise that is used in workouts"), s))) /\
  Sqlite.delete_exercise (Some i) s
  = (mkResponse 400 (RError "Cannot delete exercise that is used in workouts"), s).
Proof.
  intros Hused Ht. destruct (used_by_some_row s i Hused) as (w & ws & F). split.
  - intros Hi.
    assert (Hdel : Supabase.deleteExercise (Some i) s
                   = (Throw "Cannot delete exercise that is used in workouts", s)).
    { unfold Supabase.deleteExercise, bind, Supabase.select_workout_ids_of_exercise.
      cbn [Supabase.integer_filter]. rewrite Hi, F. reflexivity. }
    split; [exact Hdel|].
    intros date b. now rewrite (delete_exercise_request s s i t date b _ Ht Hdel).
  - unfold Sqlite.delete_exercise, Sqlite.try_catch, bind, Sqlite.get_workout_count.
    change (filter (Sqlite.references (Some i)) (workout s))
      with (filter (uses_exercise i) (workout s)).
    rewrite F. reflexivity.
Qed.

(** An exercise no workout row references, and that exists, is deleted
    by both programs, with a 200. *)
Lemma deleteExercise_unreferenced (s : db) (i : Z) :
  (forall w, In w (workout s) -> w_exercise_id w <> i) ->
  (exists e, In e (exercise s) /\ ex_id e = i) ->
  exists s',
    (Supabase.int4 i = true ->
     Supabase.deleteExercise (Some i) s = (Ok (RDeleted true), s')) /\
    Sqlite.delete_exercise (Some i) s = (mkResponse 200 RSuccess, s') /\
    workout s' = workout s /\
    (forall e, In e (exercise s') <-> In e (exercise s) /\ ex_id e <> i).
Proof.
  intros Hfree (e & Hin & Hid).
  assert (F : filter (uses_exercise i) (workout s) = []).
  { apply filter_none. intros w Hw. apply Hfree in Hw.
    unfold uses_exercise. now apply Z.eqb_neq. }
  assert (X : existsb (uses_exercise i) (workout s) = false).
  { apply not_true_is_false. intros H. apply existsb_exists in H as (w & Hw & E).
    apply Hfree in Hw. unfold uses_exercise in E. apply Z.eqb_eq in E. contradiction. }
  assert (N : exists x xs, filter (has_id i) (exercise s) = x :: xs).
  { destruct (filter (has_id i) (exercise s)) as [|x xs] eqn:G; [|now exists x, xs].
    exfalso. assert (H : In e (filter (has_id i) (exercise s))).
    { apply filter_In. split; [assumption | now apply has_id_true]. }
    rewrite G in H. contradiction. }
  destruct N as (x & xs & G).
  exists (mkDb (filter (fun e => negb (has_id i e)) (exercise s)) (workout s)
               (exercise_seq s) (workout_seq s)).
  split; [|split; [|split]].
  - intros Hi.
    unfold Supabase.deleteExercise, bind, Supabase.select_workout_ids_of_exercise,
      Supabase.delete_exercise_by_id.
    cbn [Supabase.integer_filter]. rewrite Hi, F.
    cbn [map List.length Z.of_nat Z.ltb Z.compare].
    rewrite X, andb_false_r, G. reflexivity.
  - pose proof (F : filter (Sqlite.references (Some i)) (workout s) = []) as F'.
    pose proof (X : existsb (Sqlite.references (Some i)) (workout s) = false) as X'.
    pose proof (G : filter (Sqlite.matches_id (Some i)) (exercise s) = x :: xs) as G'.
    unfold Sqlite.delete_exercise, Sqlite.try_catch, bind, Sqlite.get_workout_count,
      Sqlite.run_delete_exercise.
    rewrite F'. cbn [List.length Z.of_nat Z.ltb Z.compare].
    rewrite X', andb_false_r, G'. reflexivity.
  - reflexivity.
  - intros e'. cbn [exercise]. rewrite filter_In, negb_true_iff.
    unfold has_id. rewrite Z.eqb_neq. tauto.
Qed.

(** C2, at the failing input.  Exercise 1 of [sample] is used by two
    workout rows.  [DELETE /api/workout?action=exercise&id=1] on the
    action-dispatched handler answers 500, where the embedded-store
    route answers 400 for the same exercise; neither deletes it. *)
Theorem delete_used_exercise_answers_500 :
  Supabase.handler
    (Supabase.mkRequest Supabase.DELETE (Some "exercise") None (Some "1")
                        (mkBody None ExUndefined None None)) sample
  = (mkResponse 500 (RError "Cannot delete exercise that is used in workouts"), sample) /\
  Sqlite.delete_exercise (Some 1) sample
  = (mkResponse 400 (RError "Cannot delete exercise that is used in workouts"), sample).
Proof. split; reflexivity. Qed.

(** ** C4: name and gif of an exercise *)

(** C4, at the failing inputs.  The embedded-store routes
    [POST /api/exercises] and [PUT /api/exercises/:id] read [name] and
    [gif] and hand them to the statement unchecked.  A body without a
    gif is answered 200 and changes the store: the create adds the
    exercise, the update erases the gif of exercise 1.  A body without
    a name is answered 500 with the store's refusal, not 400.  The
    action-dispatched handler answers 400 "Name and gif URL are
    required" to the same bodies and leaves the store as it was. *)
Theorem post_exercises_unvalidated :
  (Sqlite.post_exercises (mkBody None ExUndefined (Some "Plank") None) sample
   = (mkResponse 200 (RCreated 3 (Some "Plank") None),
      mkDb [pushups; squats; mkExercise 3 "Plank" None] (workout sample) 2 3) /\
   Sqlite.put_exercise (Some 1) (mkBody None ExUndefined (Some "Plank") None) sample
   = (mkResponse 200 RSuccess,
      mkDb [mkExercise 1 "Plank" None; squats] (workout sample) 2 3) /\
   Sqlite.post_exercises (mkBody None ExUndefined None (Some "http://x/plank.gif")) sample
   = (mkResponse 500 (RError "NOT NULL constraint failed: exercise.name"), sample) /\
   Sqlite.put_exercise (Some 1)
     (mkBody None ExUndefined None (Some "http://x/plank.gif")) sample
   = (mkResponse 500 (RError "NOT NULL constraint failed: exercise.name"), sample)) /\
  (Supabase.handler
     (Supabase.mkRequest Supabase.POST (Some "exercise") None None
        (mkBody None ExUndefined (Some "Plank") None)) sample
   = (mkResponse 400 (RError "Name and gif URL are required"), sample) /\
   Supabase.handler
     (Supabase.mkRequest Supabase.PUT (Some "exercise") None (Some "1")
        (mkBody None ExUndefined (Some "Plank") None)) sample
   = (mkResponse 400 (RError "Name and gif URL are required"), sample) /\
   Supabase.handler
     (Supabase.mkRequest Supabase.POST (Some "exercise") None None
        (mkBody None ExUndefined None (Some "http://x/plank.gif"))) sample
   = (mkResponse 400 (RError "Name and gif URL are required"), sample) /\
   Supabase.handler
     (Supabase.mkRequest Supabase.PUT (Some "exercise") None (Some "1")
        (mkBody None ExUndefined None (Some "http://x/plank.gif"))) sample
   = (mkResponse 400 (RError "Name and gif URL are required"), sample)).
Proof.
  split; repeat split.
Qed.

(** The validation of the action-dispatched handler.  Every [POST] or
    [PUT] with [action=exercise] whose body has no name or no gif
    (absent, [null] or empty) is answered 400 with an error message,
    and the store is not touched. *)
Lemma exercise_fields_required (s : db) (req : Supabase.request) :
  Supabase.method req = Supabase.POST \/ Supabase.method req = Supabase.PUT ->
  Supabase.action req = Some "exercise" ->
  Js.truthy_str (b_name (Supabase.req_body req)) = false \/
  Js.truthy_str (b_gif (Supabase.req_body req)) = false ->
  exists msg,
    Supabase.handler req s = (mkResponse 400 (RError msg), s) /\
    (msg = "Name and gif URL are required" \/
     msg = "Invalid action or missing parameters").
Proof.
  intros Hm Ha Hmissing.
  assert (Hbad : negb (Js.truthy_str (b_name (Supabase.req_body req)))
                 || negb (Js.truthy_str (b_gif (Supabase.req_body req))) = true).
  { destruct Hmissing as [-> | ->]; [reflexivity | apply orb_true_r]. }
  unfold Supabase.handler, Supabase.dispatch, Supabase.is_action.
  rewrite Ha. destruct Hm as [-> | ->].
  - cbn [String.eqb Ascii.eqb Bool.eqb andb]. rewrite Hbad.
    eexists. split; [reflexivity | now left].
  - cbn [String.eqb Ascii.eqb Bool.eqb andb].
    destruct (Js.truthy_str (Supabase.q_id req)).
    + rewrite Hbad. eexists. split; [reflexivity | now left].
    + eexists. split; [reflexivity | now right].
Qed.

Lemma exercise_fields_required_witness :
  exists msg,
    Supabase.handler
      (Supabase.mkRequest Supabase.POST (Some "exercise") None None
                          (mkBody None ExUndefined (Some "Plank") None)) sample
    = (mkResponse 400 (RError msg), sample) /\
    (msg = "Name and gif URL are required" \/
     msg = "Invalid action or missing parameters").
Proof.
  apply (exercise_fields_required sample
           (Supabase.mkRequest Supabase.POST (Some "exercise") None None
                               (mkBody None ExUndefined (Some "Plank") None))).
  - left. reflexivity.
  - reflexivity.
  - right. reflexivity.
Defined.

(** ** C5: the exercises array of a save *)

(** C5, at the failing inputs.  [POST /api/workouts] of the embedded
    store does not look at [exercises] before it uses it: when the
    field is missing or is a string, the call of [forEach] throws
    inside the transaction and the route answers 500 with the text of
    the exception, not 400.  The store is as before.  The
    action-dispatched handler answers 400 "Exercises array is required"
    to the same bodies. *)
Theorem post_workouts_unvalidated :
  (Sqlite.post_workouts (mkBody (Some "2024-01-01") ExUndefined None None) sample
   = (mkResponse 500 (RError "Cannot read properties of undefined (reading 'forEach')"),
      sample) /\
   Sqlite.post_workouts
     (mkBody (Some "2024-01-01") (ExValue (NAStr "pushups")) None None) sample
   = (mkResponse 500 (RError "exercises.forEach is not a function"), sample)) /\
  (Supabase.handler
     (Supabase.mkRequest Supabase.POST (Some "workout") (Some "2024-01-01") None
        (mkBody (Some "2024-01-01") ExUndefined None None)) sample
   = (mkResponse 400 (RError "Exercises array is required"), sample) /\
   Supabase.handler
     (Supabase.mkRequest Supabase.POST (Some "workout") (Some "2024-01-01") None
        (mkBody (Some "2024-01-01") (ExValue (NAStr "pushups")) None None)) sample
   = (mkResponse 400 (RError "Exercises array is required"), sample)).
Proof.
  split; split; reflexivity.
Qed.

(** The validation of the action-dispatched handler, and what the
    embedded-store route does instead.  A save request whose
    [exercises] is missing or is not an array changes nothing in the
    store and is answered with an error message: with 400 by the
    action-dispatched handler, with 500 by the embedded-store route,
    where the failure is an exception inside the transaction. *)
Lemma exercises_array_required (s : db) (req : Supabase.request) :
  Supabase.method req = Supabase.POST ->
  Supabase.action req = Some "workout" ->
  isArray (b_exercises (Supabase.req_body req)) = false ->
  (exists msg,
      Supabase.handler req s = (mkResponse 400 (RError msg), s) /\
      (msg = "Exercises array is required" \/
       msg = "Invalid action or missing parameters")) /\
  (exists msg,
      Sqlite.post_workouts (Supabase.req_body req) s = (mkResponse 500 (RError msg), s)).
Proof.
  intros Hm Ha Harr. split.
  - unfold Supabase.handler, Supabase.dispatch, Supabase.is_action.
    rewrite Hm, Ha. cbn [String.eqb Ascii.eqb Bool.eqb andb].
    destruct (Js.truthy_str (Supabase.q_date req)).
    + rewrite Harr. cbn [negb]. rewrite orb_true_r.
      eexists. split; [reflexivity | now left].
    + eexists. split; [reflexivity | now right].
  - unfold Sqlite.post_workouts, Sqlite.try_catch, bind, Sqlite.transaction,
      Sqlite.replace_workout, bind.
    destruct (b_exercises (Supabase.req_body req)) as [|v|E]; [| |discriminate].
    + eexists. reflexivity.
    + destruct v; eexists; reflexivity.
Qed.

Lemma exercises_array_required_witness :
  (exists msg,
      Supabase.handler
        (Supabase.mkRequest Supabase.POST (Some "workout") (Some "2024-01-01") None
                            (mkBody None (ExValue (NAStr "pushups")) None None)) sample
      = (mkResponse 400 (RError msg), sample) /\
      (msg = "Exercises array is required" \/
       msg = "Invalid action or missing parameters")) /\
  (exists msg,
      Sqlite.post_workouts (mkBody None (ExValue (NAStr "pushups")) None None) sample
      = (mkResponse 500 (RError msg), sample)).
Proof.
  apply (exercises_array_required sample
           (Supabase.mkRequest Supabase.POST (Some "workout") (Some "2024-01-01") None
                               (mkBody None (ExValue (NAStr "pushups")) None None)));
    reflexivity.
Defined.

(** ** The hosted store keeps its keys

    Every function of [db.js] takes a store with unique keys, keys
    behind the sequences and valid references to another such store,
    also when it throws; so does the handler. *)

Lemma other_dates_ok (s : db) (d : string) :
  db_ok s ->
  db_ok (mkDb (exercise s) (filter (fun w => negb (has_date d w)) (workout s))
              (exercise_seq s) (workout_seq s)).
Proof.
  intros ((Hex & Hwk) & (Hse & Hsw) & Hfk).
  repeat split; cbn [exercise workout exercise_seq workout_seq];
    auto using selected_keys_distinct, Forall_filter.
  apply Forall_filter. exact Hfk.
Qed.

Lemma strict_keys_distinct (ws : list workout_row) :
  StronglySorted (fun a b => w_id a < w_id b) ws -> NoDup (map w_id ws).
Proof.
  induction 1 as [|w ws Hs IH Hw]; simpl; constructor; [|assumption].
  intros Hin. apply in_map_iff in Hin as (w' & Hid & Hw').
  rewrite Forall_forall in Hw. specialize (Hw w' Hw'). lia.
Qed.

(** The two ways the insert can end.  Refused: no row is written and
    the sequence has not gone back.  Accepted: the rows [ws] are
    appended, they carry the payload as read, their keys are the next
    values of the sequence, and each references an exercise. *)
Lemma insert_workout_cases (rows : list Supabase.workout_data) (s : db) :
  (exists err last,
      Supabase.insert_workout rows s
      = (Ok (inl err), mkDb (exercise s) (workout s) (exercise_seq s) last) /\
      workout_seq s <= last) \/
  (exists ws,
      Supabase.insert_workout rows s
      = (Ok (inr tt),
         mkDb (exercise s) (workout s ++ ws) (exercise_seq s)
              (workout_seq s + Z.of_nat (List.length ws))) /\
      Supabase.read_rows rows = inr (map row_data ws) /\
      Forall (fun w => workout_seq s < w_id w
                       <= workout_seq s + Z.of_nat (List.length ws)) ws /\
      StronglySorted (fun a b => w_id a < w_id b) ws /\
      Forall (references_exercise s) ws).
Proof.
  unfold Supabase.insert_workout.
  destruct (Supabase.read_rows rows) as [err|rs] eqn:Hread.
  - left. exists err, (workout_seq s). destruct s; split; [reflexivity | cbn; lia].
  - destruct (Supabase.write_rows (workout s) (workout_seq s) rs)
      as [[err last]|ws] eqn:Hwrite.
    + left. exists err, last. split; [reflexivity|].
      now apply write_rows_refused in Hwrite.
    + destruct (write_rows_shape _ _ _ _ Hwrite) as (Hrows & Hkeys & Hs). cbv zeta.
      destruct (forallb (Supabase.exercise_exists s) ws) eqn:Hfk.
      * right. exists ws. rewrite Hrows.
        split; [reflexivity|]. split; [reflexivity|]. split; [exact Hkeys|].
        split; [exact Hs | now apply all_exercises_exist].
      * left. eexists. eexists. split; [reflexivity | lia].
Qed.

(** A sequence that moved on is still ahead of the keys. *)
Lemma sequence_moved_on (s : db) (last : Z) :
  workout_seq s <= last -> db_ok s ->
  db_ok (mkDb (exercise s) (workout s) (exercise_seq s) last).
Proof.
  intros Hlast ((Hex & Hwk) & (Hse & Hsw) & Hfk).
  repeat split; cbn [exercise workout exercise_seq workout_seq]; try assumption.
  eapply Forall_impl; [|exact Hsw]. intros w Hw. cbv beta in Hw. lia.
Qed.

Lemma insert_workout_ok (s : db) (rows : list Supabase.workout_data) :
  db_ok s -> db_ok (snd (Supabase.insert_workout rows s)).
Proof.
  intros Hok.
  destruct (insert_workout_cases rows s)
    as [(err & last & -> & Hlast) | (ws & -> & _ & Hids & Hs & Hnewfk)]; cbn [snd].
  - now apply sequence_moved_on.
  - destruct Hok as ((Hex & Hwk) & (Hse & Hsw) & Hfk).
    repeat split; cbn [exercise workout exercise_seq workout_seq].
    + exact Hex.
    + rewrite map_app. apply NoDup_app; [exact Hwk | now apply strict_keys_distinct |].
      intros i Hold Hnewi.
      apply in_map_iff in Hold as (w & <- & Hw), Hnewi as (w' & Hid & Hw').
      rewrite Forall_forall in Hsw, Hids.
      specialize (Hsw w Hw). specialize (Hids w' Hw'). cbv beta in Hids. lia.
    + exact Hse.
    + apply Forall_app. split.
      * eapply Forall_impl; [|exact Hsw]. intros w Hw. cbv beta in Hw. lia.
      * eapply Forall_impl; [|exact Hids]. intros w Hw. cbv beta in Hw. lia.
    + apply Forall_app. split; [exact Hfk | exact Hnewfk].
Qed.

Lemma saveWorkout_keeps_db_ok (s : db) (d : string) (E : list element) :
  db_ok s -> db_ok (snd (Supabase.saveWorkout d E s)).
Proof.
  intros Hok. apply (other_dates_ok s d) in Hok.
  unfold Supabase.saveWorkout, bind, Supabase.delete_workout_by_date, Supabase.lift.
  destruct (Supabase.map_result (Supabase.to_workout_data d) E) as [rows|m];
    [|exact Hok].
  match goal with
  | |- context [Supabase.insert_workout rows ?s0] =>
      pose proof (insert_workout_ok s0 rows Hok) as Hins;
      destruct (Supabase.insert_workout rows s0) as [[[err|[]]|m] s1]
  end; exact Hins.
Qed.

Lemma deleteWorkout_keeps_db_ok (s : db) (d : string) :
  db_ok s -> db_ok (snd (Supabase.deleteWorkout d s)).
Proof. intros Hok. now apply (other_dates_ok s d). Qed.

(** A key of the exercise sequence that was taken and not used. *)
Lemma exercise_key_taken (s : db) :
  db_ok s -> db_ok (mkDb (exercise s) (workout s) (exercise_seq s + 1) (workout_seq s)).
Proof.
  intros ((Hex & Hwk) & (Hse & Hsw) & Hfk).
  repeat split; cbn [exercise workout exercise_seq workout_seq]; try assumption.
  eapply Forall_impl; [|exact Hse]. intros e He. cbv beta in He. lia.
Qed.

Lemma addExercise_keeps_db_ok (s : db) (name gif : option string) :
  db_ok s -> db_ok (snd (Supabase.addExercise name gif s)).
Proof.
  intros Hok. unfold Supabase.addExercise, bind, Supabase.insert_exercise.
  destruct (Supabase.varchar255_value name) as [?|name']; [exact Hok|].
  destruct (Supabase.varchar255_value gif) as [?|gif']; [exact Hok|]. cbv zeta.
  destruct (negb (Supabase.int4 (exercise_seq s + 1))); [exact Hok|].
  destruct name' as [n|]; [|now apply exercise_key_taken].
  destruct (existsb (has_id (exercise_seq s + 1)) (exercise s));
    [now apply exercise_key_taken|].
  destruct Hok as ((Hex & Hwk) & (Hse & Hsw) & Hfk).
  unfold ret, foreign_keys in *. cbn [snd]. repeat split; cbn [exercise workout exercise_seq workout_seq].
  - rewrite map_app. apply NoDup_app; [exact Hex | repeat constructor; intros [] |].
    intros i Hold [<-|[]]. apply in_map_iff in Hold as (e & Hid & He).
    rewrite Forall_forall in Hse. specialize (Hse e He). simpl in Hid. lia.
  - exact Hwk.
  - apply Forall_app. split.
    + eapply Forall_impl; [|exact Hse]. intros; simpl in *; lia.
    + repeat constructor. simpl. lia.
  - exact Hsw.
  - eapply Forall_impl; [|exact Hfk]. intros w (e & He & Hid).
    exists e. split; [|exact Hid]. cbn [exercise]. apply in_or_app. now left.
Qed.

Lemma set_name_gif_id (i : Z) (n : string) (g : option string) (e : exercise_row) :
  ex_id (Supabase.set_name_gif i n g e) = ex_id e.
Proof. unfold Supabase.set_name_gif. now destruct (has_id i e). Qed.

Lemma updateExercise_keeps_db_ok (s : db) (id : option Z) (name gif : option string) :
  db_ok s -> db_ok (snd (Supabase.updateExercise id name gif s)).
Proof.
  intros Hok. unfold Supabase.updateExercise, bind, Supabase.update_exercise.
  destruct (Supabase.integer_filter id) as [?|i]; [exact Hok|].
  destruct (Supabase.varchar255_value name) as [?|name']; [exact Hok|].
  destruct (Supabase.varchar255_value gif) as [?|gif']; [exact Hok|].
  destruct (filter (has_id i) (exercise s)) as [|x xs]; [exact Hok|].
  destruct name' as [n|]; [|exact Hok].
  destruct Hok as ((Hex & Hwk) & (Hse & Hsw) & Hfk).
  assert (Hids : map ex_id (map (Supabase.set_name_gif i n gif') (exercise s))
                 = map ex_id (exercise s)).
  { rewrite map_map. apply map_ext. intros e. apply set_name_gif_id. }
  unfold ret, foreign_keys in *. cbv zeta. cbn [snd]. repeat split; cbn [exercise workout exercise_seq workout_seq].
  - now rewrite Hids.
  - exact Hwk.
  - rewrite Forall_map. eapply Forall_impl; [|exact Hse].
    intros e He. now rewrite set_name_gif_id.
  - exact Hsw.
  - eapply Forall_impl; [|exact Hfk]. intros w (e & He & Hid).
    exists (Supabase.set_name_gif i n gif' e). cbn [exercise].
    split; [now apply in_map | now rewrite set_name_gif_id].
Qed.

Lemma deleteExercise_keeps_db_ok (s : db) (id : option Z) :
  db_ok s -> db_ok (snd (Supabase.deleteExercise id s)).
Proof.
  intros Hok.
  unfold Supabase.deleteExercise, bind, Supabase.select_workout_ids_of_exercise,
    Supabase.delete_exercise_by_id.
  destruct (Supabase.integer_filter id) as [?|i]; [exact Hok|].
  destruct (filter (uses_exercise i) (workout s)) as [|w ws] eqn:F; [|exact Hok].
  cbn [map List.length Z.of_nat Z.ltb Z.compare].
  destruct (existsb (has_id i) (exercise s) && existsb (uses_exercise i) (workout s));
    [exact Hok|].
  destruct Hok as ((Hex & Hwk) & (Hse & Hsw) & Hfk).
  unfold ret, foreign_keys in *. cbn [snd].
  repeat split; cbn [exercise workout exercise_seq workout_seq].
  - clear - Hex. induction (exercise s) as [|e l IH]; simpl; [constructor|].
    simpl in Hex. apply NoDup_cons_iff in Hex as [He Hl].
    destruct (negb (has_id i e)); simpl; [|now apply IH].
    apply NoDup_cons; [|now apply IH].
    intros Hin. apply He. apply in_map_iff in Hin as (e' & Hid & He').
    apply in_map_iff. exists e'. split; [exact Hid|]. apply filter_In in He'. tauto.
  - exact Hwk.
  - now apply Forall_filter.
  - exact Hsw.
  - apply Forall_forall. intros w Hw. rewrite Forall_forall in Hfk.
    destruct (Hfk w Hw) as (e & He & Hid). exists e. split; [|exact Hid].
    cbn [exercise]. apply filter_In. split; [exact He|].
    apply negb_true_iff. unfold has_id. apply Z.eqb_neq. intros Hi.
    assert (Hin : In w (filter (uses_exercise i) (workout s))).
    { apply filter_In. split; [exact Hw|]. unfold uses_exercise.
      apply Z.eqb_eq. congruence. }
    rewrite F in Hin. contradiction.
Qed.

Lemma bind_keeps {A B : Type} (P : db -> Prop) (c : M A) (k : A -> M B) (s : db) :
  P (snd (c s)) ->
  (forall a s1, P s1 -> P (snd (k a s1))) ->
  P (snd (bind c k s)).
Proof.
  intros Hc Hk. unfold bind. destruct (c s) as [[a|m] s1]; simpl in *; auto.
Qed.

Lemma getAllExercises_reads (s : db) : snd (Supabase.getAllExercises s) = s.
Proof. reflexivity. Qed.

Lemma getExerciseById_reads (id : option Z) (s : db) :
  snd (Supabase.getExerciseById id s) = s.
Proof.
  unfold Supabase.getExerciseById, bind, Supabase.select_exercise_single.
  destruct (Supabase.integer_filter id) as [err|i].
  - now destruct (negb (Supabase.code err =? "PGRST116")%string).
  - destruct (filter (has_id i) (exercise s)) as [|e [|e' l]]; reflexivity.
Qed.

Lemma getWorkoutByDate_reads (d : string) (s : db) :
  snd (Supabase.getWorkoutByDate d s) = s.
Proof. reflexivity. Qed.

Lemma getAllWorkoutDates_reads (s : db) : snd (Supabase.getAllWorkoutDates s) = s.
Proof. reflexivity. Qed.

(** What every writing function of [db.js] keeps, the handler and the
    endpoint keep, request after request. *)
Section Preserved.

Variable P : db -> Prop.

Hypothesis saveWorkout_keeps :
  forall d E s, P s -> P (snd (Supabase.saveWorkout d E s)).
Hypothesis deleteWorkout_keeps :
  forall d s, P s -> P (snd (Supabase.deleteWorkout d s)).
Hypothesis addExercise_keeps :
  forall name gif s, P s -> P (snd (Supabase.addExercise name gif s)).
Hypothesis updateExercise_keeps :
  forall id name gif s, P s -> P (snd (Supabase.updateExercise id name gif s)).
Hypothesis deleteExercise_keeps :
  forall id s, P s -> P (snd (Supabase.deleteExercise id s)).

Lemma dispatch_keeps (req : Supabase.request) (s : db) :
  P s -> P (snd (Supabase.dispatch req s)).
Proof.
  intros Hok. unfold Supabase.dispatch.
  destruct (Supabase.method req);
    repeat match goal with
           | |- context [if ?c then _ else _] => destruct c
           end;
    try exact Hok;
    (apply bind_keeps;
     [ first [ rewrite getAllExercises_reads | rewrite getExerciseById_reads
             | rewrite getWorkoutByDate_reads | rewrite getAllWorkoutDates_reads
             | apply saveWorkout_keeps | apply addExercise_keeps
             | apply updateExercise_keeps | apply deleteWorkout_keeps
             | apply deleteExercise_keeps ]; exact Hok
     | intros a s1 H1;
       repeat match goal with
              | |- context [match ?x with _ => _ end] => destruct x
              end; exact H1 ]).
Qed.

Lemma handler_keeps (req : Supabase.request) (s : db) :
  P s -> P (snd (Supabase.handler req s)).
Proof.
  intros Hok. apply (dispatch_keeps req) in Hok.
  unfold Supabase.handler. now destruct (Supabase.dispatch req s) as [[res|m] s1].
Qed.

(** [cors()] answers without a store call. *)
Lemma endpoint_keeps (req : Supabase.request) (s : db) :
  P s -> P (snd (Supabase.endpoint req s)).
Proof.
  intros Hok. unfold Supabase.endpoint, Supabase.cors.
  destruct (Supabase.method req); first [now apply handler_keeps | exact Hok].
Qed.

Lemma serve_keeps (reqs : list Supabase.request) :
  forall s, P s -> P (snd (serve reqs s)).
Proof.
  induction reqs as [|req reqs IH]; intros s Hok; [exact Hok|].
  cbn [serve]. pose proof (endpoint_keeps req s Hok) as Hstep.
  destruct (Supabase.endpoint req s) as [res s1]. cbn [snd] in Hstep.
  specialize (IH s1 Hstep). now destruct (serve reqs s1) as [more s2].
Qed.

End Preserved.

(** Every request leaves the hosted store with its keys in order. *)
Lemma endpoint_keeps_db_ok (req : Supabase.request) (s : db) :
  db_ok s -> db_ok (snd (Supabase.endpoint req s)).
Proof.
  apply endpoint_keeps;
    auto using saveWorkout_keeps_db_ok, deleteWorkout_keeps_db_ok,
      addExercise_keeps_db_ok, updateExercise_keeps_db_ok, deleteExercise_keeps_db_ok.
Qed.

(** ** The embedded store keeps its keys *)

Lemma fold_max_bounds (i : Z) (l : list Z) :
  i <= fold_right Z.max i l /\ Forall (fun x => x <= fold_right Z.max i l) l.
Proof.
  induction l as [|x l [IH1 IH2]]; simpl.
  - split; [lia | constructor].
  - split; [lia|]. constructor; [lia|].
    eapply Forall_impl; [|exact IH2]. intros; simpl in *; lia.
Qed.

Lemma next_rowid_fresh (ids : list Z) : ~ In (Sqlite.next_rowid ids) ids.
Proof.
  destruct ids as [|i rest]; [intros []|].
  unfold Sqlite.next_rowid. destruct (fold_max_bounds i rest) as [Hi Hrest].
  rewrite Forall_forall in Hrest. intros [Heq|Hin]; [lia|].
  specialize (Hrest _ Hin). lia.
Qed.

Lemma other_dates_embedded_ok (s : db) (date : option string) :
  embedded_ok s ->
  embedded_ok (mkDb (exercise s)
                    (filter (fun w => negb (Sqlite.is_date date w)) (workout s))
                    (exercise_seq s) (workout_seq s)).
Proof.
  intros ((Hex & Hwk) & Hfk). unfold embedded_ok, primary_keys, foreign_keys in *.
  cbn [exercise workout]. repeat split;
    auto using selected_keys_distinct.
  apply Forall_filter. exact Hfk.
Qed.

(** What the loop has added when it ends without an exception: rows
    with keys above the mark, one above the other, each naming an
    exercise. *)
Lemma forEach_insert_keys (date : option string) (E : list element) :
  forall s0 s',
    Sqlite.forEach (Sqlite.insert_entry date) E s0 = (Ok tt, s') ->
    exercise s' = exercise s0 /\
    exists ws,
      workout s' = workout s0 ++ ws /\
      Forall (fun w => high_water (workout s0) (workout_seq s0) < w_id w) ws /\
      StronglySorted (fun a b => w_id a < w_id b) ws /\
      Forall (references_exercise s0) ws.
Proof.
  induction E as [|e E IH]; intros s0 s' Hrun.
  - inversion Hrun; subst. split; [reflexivity|].
    exists []. rewrite app_nil_r. repeat split; constructor.
  - cbn [Sqlite.forEach] in Hrun. unfold bind at 1 in Hrun.
    destruct (Sqlite.insert_entry date e s0) as [[[]|m] s1] eqn:Hins;
      [|discriminate].
    destruct e as [|id dur]; [discriminate|].
    unfold Sqlite.insert_entry, bind, Sqlite.run_insert_workout,
      Sqlite.next_autoincrement in Hins.
    destruct date as [d|]; [|discriminate].
    destruct id as [i|]; [|discriminate].
    destruct (existsb (has_id i) (exercise s0)) eqn:Hex; [|discriminate].
    cbn [negb] in Hins. fold (high_water (workout s0) (workout_seq s0)) in Hins.
    inversion Hins; subst; clear Hins.
    destruct (IH _ _ Hrun) as (Hexs & ws & Hwk & Hhigh & Hs & Hfk).
    cbn [exercise workout workout_seq] in Hexs, Hwk, Hhigh.
    rewrite (high_water_next _ _ (mkWorkout _ d i dur) eq_refl) in Hhigh.
    split; [exact Hexs|].
    eexists (_ :: ws). split; [|split; [|split]].
    + rewrite Hwk, <- app_assoc. reflexivity.
    + constructor; [simpl; lia|].
      eapply Forall_impl; [|exact Hhigh]. intros; simpl in *; lia.
    + constructor; [assumption|].
      eapply Forall_impl; [|exact Hhigh]. intros; simpl in *; lia.
    + constructor; [|exact Hfk].
      apply existsb_exists in Hex as (x & Hx & Hid).
      exists x. split; [assumption | now apply has_id_true].
Qed.

Lemma post_workouts_keeps_keys (b : body) (s : db) :
  embedded_ok s -> embedded_ok (snd (Sqlite.post_workouts b s)).
Proof.
  intros Hok.
  unfold Sqlite.post_workouts, Sqlite.try_catch, bind, Sqlite.transaction,
    Sqlite.replace_workout, bind.
  unfold Sqlite.run_delete_workout at 1.
  destruct (b_exercises b) as [|v|E]; [exact Hok | destruct v; exact Hok |].
  match goal with
  | |- context [Sqlite.forEach ?f E ?s0] =>
      destruct (Sqlite.forEach f E s0) as [[[]|m] s1] eqn:Hrun
  end; [|exact Hok].
  apply forEach_insert_keys in Hrun as (Hexs & ws & Hwk & Hhigh & Hs & Hnewfk).
  apply (other_dates_embedded_ok s (b_date b)) in Hok.
  destruct Hok as ((Hex & Hrows) & Hfk).
  cbn [exercise workout workout_seq] in *.
  unfold embedded_ok, primary_keys, foreign_keys, references_exercise in *.
  unfold Sqlite.json, ret. cbn [snd]. cbn [exercise] in *.
  rewrite Hexs, Hwk. repeat split.
  - exact Hex.
  - rewrite map_app. apply NoDup_app; [exact Hrows | now apply strict_keys_distinct |].
    intros i Hold Hnew.
    apply in_map_iff in Hold as (w & <- & Hw), Hnew as (w' & Hid & Hw').
    match type of Hhigh with
    | Forall (fun _ => high_water ?wk ?q < _) _ =>
        destruct (high_water_bounds wk q) as [_ Hall]
    end.
    rewrite Forall_forall in Hall, Hhigh.
    specialize (Hall w Hw). specialize (Hhigh w' Hw'). simpl in *. lia.
  - apply Forall_app. split; [exact Hfk | exact Hnewfk].
Qed.

Lemma delete_workouts_keeps_keys (d : string) (s : db) :
  embedded_ok s -> embedded_ok (snd (Sqlite.delete_workouts d s)).
Proof. intros Hok. now apply (other_dates_embedded_ok s (Some d)). Qed.

Lemma post_exercises_keeps_keys (b : body) (s : db) :
  embedded_ok s -> embedded_ok (snd (Sqlite.post_exercises b s)).
Proof.
  intros Hok.
  unfold Sqlite.post_exercises, Sqlite.try_catch, bind, Sqlite.run_insert_exercise,
    Sqlite.json, ret.
  destruct (b_name b) as [n|]; [|exact Hok]. cbv zeta.
  destruct Hok as ((Hex & Hwk) & Hfk).
  unfold embedded_ok, primary_keys, foreign_keys in *.
  cbn [snd exercise workout]. repeat split.
  - rewrite map_app. apply NoDup_app; [exact Hex | repeat constructor; intros [] |].
    intros i Hold [<-|[]]. now apply next_rowid_fresh in Hold.
  - exact Hwk.
  - eapply Forall_impl; [|exact Hfk]. intros w (e & He & Hid).
    exists e. split; [|exact Hid]. cbn [exercise]. apply in_or_app. now left.
Qed.

Lemma put_exercise_keeps_keys (id : option Z) (b : body) (s : db) :
  embedded_ok s -> embedded_ok (snd (Sqlite.put_exercise id b s)).
Proof.
  intros Hok.
  unfold Sqlite.put_exercise, Sqlite.try_catch, bind, Sqlite.run_update_exercise,
    Sqlite.json, Sqlite.status_json, ret.
  destruct (filter (Sqlite.matches_id id) (exercise s)) as [|x xs]; [exact Hok|].
  destruct (b_name b) as [n|]; [|exact Hok].
  match goal with
  | |- context [if ?c then _ else _] => destruct c
  end.
  all: destruct Hok as ((Hex & Hwk) & Hfk).
  all: unfold embedded_ok, primary_keys, foreign_keys in *.
  all: cbn [snd exercise workout].
  all: assert (Hids : forall l,
                 map ex_id (map (fun e => if Sqlite.matches_id id e
                                          then mkExercise (ex_id e) n (b_gif b)
                                          else e) l)
                 = map ex_id l)
    by (intros l; rewrite map_map; apply map_ext; intros e;
        now destruct (Sqlite.matches_id id e)).
  all: repeat split; [now rewrite Hids | exact Hwk |].
  all: eapply Forall_impl; [|exact Hfk]; intros w (e & He & Hid).
  all: exists (if Sqlite.matches_id id e then mkExercise (ex_id e) n (b_gif b) else e).
  all: cbn [exercise]; split;
    [ apply in_map_iff; now exists e
    | now destruct (Sqlite.matches_id id e) ].
Qed.

Lemma delete_exercise_keeps_keys (id : option Z) (s : db) :
  embedded_ok s -> embedded_ok (snd (Sqlite.delete_exercise id s)).
Proof.
  intros Hok.
  unfold Sqlite.delete_exercise, Sqlite.try_catch, bind, Sqlite.get_workout_count,
    Sqlite.json, Sqlite.status_json, ret.
  destruct (filter (Sqlite.references id) (workout s)) as [|w ws] eqn:F; [|exact Hok].
  cbn [List.length Z.of_nat Z.ltb Z.compare].
  unfold Sqlite.run_delete_exercise.
  destruct (existsb (Sqlite.matches_id id) (exercise s)
            && existsb (Sqlite.references id) (workout s)); [exact Hok|].
  match goal with
  | |- context [if ?c then _ else _] => destruct c
  end.
  all: destruct Hok as ((Hex & Hwk) & Hfk).
  all: unfold embedded_ok, primary_keys, foreign_keys in *.
  all: cbn [snd exercise workout]; repeat split; [ | exact Hwk | ].
  1, 3: clear - Hex; induction (exercise s) as [|e l IH]; simpl; [constructor|];
    simpl in Hex; apply NoDup_cons_iff in Hex as [He Hl];
    destruct (negb (Sqlite.matches_id id e)); simpl; [|now apply IH];
    apply NoDup_cons; [|now apply IH];
    intros Hin; apply He; apply in_map_iff in Hin as (e' & Hid & He');
    apply in_map_iff; exists e'; split; [exact Hid|];
    apply filter_In in He'; tauto.
  all: apply Forall_forall; intros w Hw; rewrite Forall_forall in Hfk.
  all: destruct (Hfk w Hw) as (e & He & Hid); exists e; split; [|exact Hid].
  all: cbn [exercise]; apply filter_In; split; [exact He|].
  all: apply negb_true_iff; destruct id as [i|]; [|reflexivity].
  all: unfold Sqlite.matches_id, has_id; apply Z.eqb_neq; intros Hi.
  all: assert (Hin : In w (filter (Sqlite.references (Some i)) (workout s)))
    by (apply filter_In; split; [exact Hw|]; unfold Sqlite.references, uses_exercise;
        apply Z.eqb_eq; congruence).
  all: rewrite F in Hin; contradiction.
Qed.

(** ** Reading the exercises *)

Lemma by_ex_id_total (a b : exercise_row) : by_ex_id a b = true \/ by_ex_id b a = true.
Proof. unfold by_ex_id. rewrite !Z.leb_le. lia. Qed.

Lemma by_ex_id_trans (a b c : exercise_row) :
  by_ex_id a b = true -> by_ex_id b c = true -> by_ex_id a c = true.
Proof. unfold by_ex_id. rewrite !Z.leb_le. lia. Qed.

Lemma sorted_weaken {A : Type} (R R' : A -> A -> Prop) (l : list A) :
  (forall a b, R a b -> R' a b) -> StronglySorted R l -> StronglySorted R' l.
Proof.
  intros HR. induction 1 as [|x l Hs IH Hx]; constructor; [assumption|].
  eapply Forall_impl; [|exact Hx]. intros b. apply HR.
Qed.

(** X1. Listing the exercises returns every row of the table once,
    by ascending id, and changes nothing: [getAllExercises], the [GET]
    of the action-dispatched handler with [action=exercises] (whatever
    the other parameters), and [GET /api/exercises] return the same
    list. *)
Theorem exercises_listed_by_id (s : db) (date id : option string) (b : body) :
  exists l,
    Supabase.getAllExercises s = (Ok l, s) /\
    Supabase.handler
      (Supabase.mkRequest Supabase.GET (Some "exercises") date id b) s
    = (mkResponse 200 (RExercises l), s) /\
    Sqlite.get_exercises s = (mkResponse 200 (RExercises l), s) /\
    Permutation l (exercise s) /\
    StronglySorted (fun x y => ex_id x <= ex_id y) l.
Proof.
  exists (order_by by_ex_id (exercise s)).
  split; [reflexivity|]. split; [reflexivity|]. split; [reflexivity|]. split.
  - apply order_by_perm.
  - apply (sorted_weaken (fun x y => by_ex_id x y = true)).
    + intros x y H. now apply Z.leb_le.
    + apply order_by_sorted; [apply by_ex_id_total | apply by_ex_id_trans].
Qed.

Lemma find_unique_id (l : list exercise_row) (e : exercise_row) :
  NoDup (map ex_id l) -> In e l -> find (has_id (ex_id e)) l = Some e.
Proof.
  intros Hnd Hin. pose proof (filter_unique_id l e Hnd Hin) as F.
  induction l as [|x l IH]; simpl in *; [contradiction|].
  destruct (has_id (ex_id e) x) eqn:E.
  - now inversion F.
  - inversion Hnd; subst. destruct Hin as [->|Hin].
    + unfold has_id in E. rewrite Z.eqb_refl in E. discriminate.
    + now apply IH.
Qed.

(** X2. With unique exercise ids, looking up the id of a row of the
    table returns that row and changes nothing: [GET /api/exercises/:id]
    and, the id being a 32-bit integer as the ids of the hosted store
    are, [getExerciseById] and the [GET] of the handler with
    [action=exercise] and the id as query text. *)
Theorem getExerciseById_finds (s : db) (e : exercise_row) (t : string)
        (date : option string) (b : body) :
  NoDup (map ex_id (exercise s)) ->
  In e (exercise s) ->
  Js.parseInt t = Some (ex_id e) ->
  (Supabase.int4 (ex_id e) = true ->
   Supabase.getExerciseById (Some (ex_id e)) s = (Ok (Some e), s) /\
   Supabase.handler
     (Supabase.mkRequest Supabase.GET (Some "exercise") date (Some t) b) s
   = (mkResponse 200 (RExercise e), s)) /\
  Sqlite.get_exercise (Some (ex_id e)) s = (mkResponse 200 (RExercise e), s).
Proof.
  intros Hnd Hin Ht. split.
  - intros Hi.
    assert (Hget : Supabase.getExerciseById (Some (ex_id e)) s = (Ok (Some e), s)).
    { unfold Supabase.getExerciseById, bind, Supabase.select_exercise_single.
      cbn [Supabase.integer_filter]. now rewrite Hi, (filter_unique_id _ _ Hnd Hin). }
    split; [exact Hget|].
    unfold Supabase.handler, Supabase.dispatch, Supabase.is_action, Supabase.parse_id.
    cbn [Supabase.method Supabase.action Supabase.q_id].
    rewrite (parseInt_nonempty t _ Ht), Ht.
    cbn -[Supabase.getExerciseById]. unfold bind. now rewrite Hget.
  - unfold Sqlite.get_exercise, Sqlite.try_catch, bind, Sqlite.get_exercise_where_id.
    now rewrite (find_unique_id _ _ Hnd Hin).
Qed.

Lemma getExerciseById_finds_witness :
  Supabase.handler
    (Supabase.mkRequest Supabase.GET (Some "exercise") None (Some "2")
                        (mkBody None ExUndefined None None)) sample
  = (mkResponse 200 (RExercise squats), sample) /\
  Sqlite.get_exercise (Some 2) sample = (mkResponse 200 (RExercise squats), sample).
Proof.
  destruct (getExerciseById_finds sample squats "2" None
              (mkBody None ExUndefined None None)) as [Hhosted Hembedded].
  - repeat constructor; simpl; intuition discriminate.
  - simpl. auto.
  - reflexivity.
  - split; [apply (Hhosted eq_refl) | exact Hembedded].
Defined.

(** An id outside the 32 bits of the [id] column is not looked up in
    the hosted store: the filter is refused, [getExerciseById] throws
    and the handler answers 500. *)
Lemma getExerciseById_out_of_range :
  (exists m, Supabase.getExerciseById (Some 2147483648) sample = (Throw m, sample)) /\
  exists m,
    Supabase.handler
      (Supabase.mkRequest Supabase.GET (Some "exercise") None (Some "2147483648")
                          (mkBody None ExUndefined None None)) sample
    = (mkResponse 500 (RError m), sample).
Proof. split; eexists; reflexivity. Qed.

(** X3. Looking up an id that no exercise row has is answered 404
    "Exercise not found" by [GET /api/exercises/:id]; when the id is a
    32-bit integer it is not an error of the adapter either
    ([getExerciseById] returns [null]) and the [GET] of the handler
    answers 404 "Exercise not found"; the store is unchanged. *)
Theorem getExerciseById_absent (s : db) (i : Z) (t : string)
        (date : option string) (b : body) :
  (forall e, In e (exercise s) -> ex_id e <> i) ->
  Js.parseInt t = Some i ->
  (Supabase.int4 i = true ->
   Supabase.getExerciseById (Some i) s = (Ok None, s) /\
   Supabase.handler
     (Supabase.mkRequest Supabase.GET (Some "exercise") date (Some t) b) s
   = (mkResponse 404 (RError "Exercise not found"), s)) /\
  Sqlite.get_exercise (Some i) s = (mkResponse 404 (RError "Exercise not found"), s).
Proof.
  intros Hno Ht. pose proof (no_row_with_id s i Hno) as Hf. split.
  - intros Hi.
    assert (Hget : Supabase.getExerciseById (Some i) s = (Ok None, s)).
    { unfold Supabase.getExerciseById, bind, Supabase.select_exercise_single.
      cbn [Supabase.integer_filter]. now rewrite Hi, Hf. }
    split; [exact Hget|].
    unfold Supabase.handler, Supabase.dispatch, Supabase.is_action, Supabase.parse_id.
    cbn [Supabase.method Supabase.action Supabase.q_id].
    rewrite (parseInt_nonempty t _ Ht), Ht.
    cbn -[Supabase.getExerciseById]. unfold bind. now rewrite Hget.
  - unfold Sqlite.get_exercise, Sqlite.try_catch, bind, Sqlite.get_exercise_where_id.
    destruct (find (has_id i) (exercise s)) as [e|] eqn:F; [|reflexivity].
    apply find_some in F as [Hin Hid]. apply has_id_true in Hid.
    now apply Hno in Hin.
Qed.

Lemma getExerciseById_absent_witness :
  Supabase.int4 7 = true /\
  Supabase.handler
    (Supabase.mkRequest Supabase.GET (Some "exercise") None (Some "7")
                        (mkBody None ExUndefined None None)) sample
  = (mkResponse 404 (RError "Exercise not found"), sample) /\
  Sqlite.get_exercise (Some 7) sample
  = (mkResponse 404 (RError "Exercise not found"), sample).
Proof.
  split; [reflexivity|].
  destruct (getExerciseById_absent sample 7 "7" None (mkBody None ExUndefined None None))
    as [Hhosted Hembedded].
  - simpl. intros e [<-|[<-|[]]]; discriminate.
  - reflexivity.
  - split; [apply (Hhosted eq_refl) | exact Hembedded].
Defined.

(** ** Creating and updating exercises *)

Lemma fresh_after_sequence (s : db) :
  Forall (fun e => ex_id e <= exercise_seq s) (exercise s) ->
  existsb (has_id (exercise_seq s + 1)) (exercise s) = false /\
  filter (has_id (exercise_seq s + 1)) (exercise s) = [].
Proof.
  intros Hse. rewrite Forall_forall in Hse.
  assert (Hno : forall e, In e (exercise s) -> has_id (exercise_seq s + 1) e = false).
  { intros e He. specialize (Hse e He). unfold has_id. apply Z.eqb_neq. lia. }
  split; [|now apply filter_none].
  apply not_true_is_false. intros H. apply existsb_exists in H as (e & He & E).
  rewrite (Hno e He) in E. discriminate.
Qed.

(** A name over 255 characters is not stored by the hosted store: the
    insert is refused, [addExercise] throws and the handler answers 500
    with the store as it was. *)
Lemma addExercise_name_too_long :
  let n := String.concat "" (repeat "Plank" 52) in
  String.length n = 260%nat /\
  exists s1,
    Supabase.handler
      (Supabase.mkRequest Supabase.POST (Some "exercise") None None
         (mkBody None ExUndefined (Some n) (Some "http://x/plank.gif"))) sample
    = (mkResponse 500 (RError "value too long for type character varying(255)"), s1) /\
    exercise s1 = exercise sample /\ workout s1 = workout sample.
Proof. split; [reflexivity|]. eexists. repeat split. Qed.

(** X4. In a store as the schema keeps it, whose exercise sequence has
    a key left, [addExercise] with a name of at most 255 characters
    (and a gif of at most 255 characters, or none) succeeds: the new
    row gets the next id of the sequence, which no row had, it is
    appended to the table, the workouts are untouched, and
    [getExerciseById] of the new id returns the row just added.  The
    [POST] of the handler with [action=exercise] and a name and a gif
    answers 200 with that row. *)
Theorem addExercise_then_getExerciseById (s : db) (n : string) (g : option string) :
  db_ok s ->
  fits 255 n -> fits_or_null 255 g ->
  Supabase.int4 (exercise_seq s + 1) = true ->
  exists e s',
    Supabase.addExercise (Some n) g s = (Ok e, s') /\
    e = mkExercise (exercise_seq s + 1) n g /\
    (forall x, In x (exercise s) -> ex_id x <> ex_id e) /\
    exercise s' = exercise s ++ [e] /\
    workout s' = workout s /\
    Supabase.getExerciseById (Some (ex_id e)) s' = (Ok (Some e), s') /\
    (forall c1 n1 c2 g1 date id bd ex,
        n = String c1 n1 -> g = Some (String c2 g1) ->
        Supabase.handler
          (Supabase.mkRequest Supabase.POST (Some "exercise") date id
                              (mkBody bd ex (Some n) g)) s
        = (mkResponse 200 (RExercise e), s')).
Proof.
  intros (_ & (Hse & _) & _) Hn Hg Hkey.
  destruct (fresh_after_sequence s Hse) as [Hfresh Hnone].
  assert (Hadd : Supabase.addExercise (Some n) g s
                 = (Ok (mkExercise (exercise_seq s + 1) n g),
                    mkDb (exercise s ++ [mkExercise (exercise_seq s + 1) n g])
                         (workout s) (exercise_seq s + 1) (workout_seq s))).
  { unfold Supabase.addExercise, bind, Supabase.insert_exercise.
    rewrite (varchar255_fits (Some n) Hn), (varchar255_fits g Hg). cbv zeta.
    now rewrite Hkey, Hfresh. }
  eexists. eexists. split; [exact Hadd|]. split; [reflexivity|].
  split; [|split; [reflexivity|split; [reflexivity|split]]].
  - intros x Hx. rewrite Forall_forall in Hse. specialize (Hse x Hx). simpl. lia.
  - unfold Supabase.getExerciseById, bind, Supabase.select_exercise_single.
    cbn [exercise ex_id Supabase.integer_filter]. rewrite Hkey.
    rewrite filter_app, Hnone. cbn [filter app].
    unfold has_id at 1. cbn [ex_id]. now rewrite Z.eqb_refl.
  - intros c1 n1 c2 g1 date id bd ex -> ->.
    unfold Supabase.handler, Supabase.dispatch, Supabase.is_action.
    cbn -[Supabase.addExercise]. unfold bind. now rewrite Hadd.
Qed.

Lemma addExercise_then_getExerciseById_witness :
  fits 255 "Plank" /\ fits_or_null 255 (Some "http://x/plank.gif") /\
  Supabase.int4 (exercise_seq sample + 1) = true /\
  exists e s',
    Supabase.addExercise (Some "Plank") (Some "http://x/plank.gif") sample = (Ok e, s') /\
    e = mkExercise 3 "Plank" (Some "http://x/plank.gif") /\
    Supabase.getExerciseById (Some 3) s' = (Ok (Some e), s').
Proof.
  assert (Hn : fits 255 "Plank") by (unfold fits; simpl; lia).
  assert (Hg : fits_or_null 255 (Some "http://x/plank.gif"))
    by (unfold fits_or_null, fits; simpl; lia).
  split; [exact Hn|]. split; [exact Hg|]. split; [reflexivity|].
  destruct (addExercise_then_getExerciseById sample "Plank"
              (Some "http://x/plank.gif") sample_ok Hn Hg eq_refl)
    as (e & s' & Hadd & He & _ & _ & _ & Hget & _).
  exists e, s'. subst e. auto.
Defined.

(** X5. With unique exercise ids, [POST /api/exercises] with a name
    creates the exercise under an id that no row had (one more than the
    largest in use, 1 in an empty table), answers
    [{ id, name, gif }] with the values of the body (a missing gif
    stays missing), leaves the workouts alone, and
    [GET /api/exercises/:id] of the new id returns the row. *)
Theorem post_exercises_then_get_exercise (s : db) (b : body) (n : string) :
  NoDup (map ex_id (exercise s)) ->
  b_name b = Some n ->
  exists i s',
    Sqlite.post_exercises b s = (mkResponse 200 (RCreated i (Some n) (b_gif b)), s') /\
    (forall x, In x (exercise s) -> ex_id x <> i) /\
    (exercise s = [] -> i = 1) /\
    exercise s' = exercise s ++ [mkExercise i n (b_gif b)] /\
    workout s' = workout s /\
    Sqlite.get_exercise (Some i) s'
    = (mkResponse 200 (RExercise (mkExercise i n (b_gif b))), s').
Proof.
  intros Hnd Hn.
  set (i := Sqlite.next_rowid (map ex_id (exercise s))).
  pose proof (next_rowid_fresh (map ex_id (exercise s))) as Hfresh. fold i in Hfresh.
  exists i.
  exists (mkDb (exercise s ++ [mkExercise i n (b_gif b)]) (workout s)
               (exercise_seq s) (workout_seq s)).
  split; [|split; [|split; [|split; [reflexivity|split; [reflexivity|]]]]].
  - unfold Sqlite.post_exercises, Sqlite.try_catch, bind, Sqlite.run_insert_exercise.
    rewrite Hn. reflexivity.
  - intros x Hx E. apply Hfresh. rewrite <- E. now apply in_map.
  - intros He. subst i. now rewrite He.
  - unfold Sqlite.get_exercise, Sqlite.try_catch, bind, Sqlite.get_exercise_where_id.
    cbn [exercise].
    assert (F : find (has_id i) (exercise s ++ [mkExercise i n (b_gif b)])
                = Some (mkExercise i n (b_gif b))).
    { apply (find_unique_id (exercise s ++ [mkExercise i n (b_gif b)])
                            (mkExercise i n (b_gif b))).
      - rewrite map_app. apply NoDup_app; [exact Hnd | repeat constructor; intros [] |].
        intros j Hold [<-|[]]. contradiction.
      - apply in_or_app. right. now left. }
    now rewrite F.
Qed.

Lemma post_exercises_then_get_exercise_witness :
  exists i s',
    Sqlite.post_exercises (mkBody None ExUndefined (Some "Plank") None) sample
    = (mkResponse 200 (RCreated i (Some "Plank") None), s') /\
    Sqlite.get_exercise (Some i) s'
    = (mkResponse 200 (RExercise (mkExercise i "Plank" None)), s').
Proof.
  destruct (post_exercises_then_get_exercise sample
              (mkBody None ExUndefined (Some "Plank") None) "Plank")
    as (i & s' & Hpost & _ & _ & _ & _ & Hget).
  - repeat constructor; simpl; intuition discriminate.
  - reflexivity.
  - exists i, s'. auto.
Defined.

Lemma set_name_gif_filter (i : Z) (n : string) (g : option string)
      (l : list exercise_row) :
  filter (has_id i) (map (Supabase.set_name_gif i n g) l)
  = map (Supabase.set_name_gif i n g) (filter (has_id i) l).
Proof.
  induction l as [|x l IH]; simpl; [reflexivity|].
  unfold has_id at 1. rewrite set_name_gif_id. fold (has_id i x).
  destruct (has_id i x); simpl; now rewrite IH.
Qed.

Lemma set_name_gif_hit (e : exercise_row) (n : string) (g : option string) :
  Supabase.set_name_gif (ex_id e) n g e = mkExercise (ex_id e) n g.
Proof. unfold Supabase.set_name_gif, has_id. now rewrite Z.eqb_refl. Qed.

Lemma set_name_gif_miss (i : Z) (n : string) (g : option string) (x : exercise_row) :
  ex_id x <> i -> Supabase.set_name_gif i n g x = x.
Proof.
  intros H. unfold Supabase.set_name_gif, has_id.
  apply Z.eqb_neq in H. now rewrite H.
Qed.

(** X6. With unique exercise ids, updating a row that exists replaces
    its name and gif and nothing else.  [PUT /api/exercises/:id]
    answers 200 and leaves the store in which the row has the new name
    and gif, every other exercise row is as before, no id has changed
    and the workouts are untouched.  When the id is a 32-bit integer
    and name and gif have at most 255 characters, [updateExercise]
    returns [{ success: true, updated: true }] and leaves that same
    store, the lookup of the id in it returns the row with the new name
    and gif, and the [PUT] of the handler (name and gif present)
    answers 200. *)
Theorem updateExercise_then_getExerciseById (s : db) (e : exercise_row) (n : string)
        (g : option string) (t : string) :
  NoDup (map ex_id (exercise s)) ->
  In e (exercise s) ->
  Js.parseInt t = Some (ex_id e) ->
  let s' := renamed (ex_id e) n g s in
  (Supabase.int4 (ex_id e) = true -> fits 255 n -> fits_or_null 255 g ->
   Supabase.updateExercise (Some (ex_id e)) (Some n) g s = (Ok (RUpdated true), s') /\
   Supabase.getExerciseById (Some (ex_id e)) s'
   = (Ok (Some (mkExercise (ex_id e) n g)), s') /\
   (forall c1 n1 c2 g1 date bd ex,
       n = String c1 n1 -> g = Some (String c2 g1) ->
       Supabase.handler
         (Supabase.mkRequest Supabase.PUT (Some "exercise") date (Some t)
                             (mkBody bd ex (Some n) g)) s
       = (mkResponse 200 (RUpdated true), s'))) /\
  (forall bd ex,
      Sqlite.put_exercise (Some (ex_id e)) (mkBody bd ex (Some n) g) s
      = (mkResponse 200 RSuccess, s')) /\
  In (mkExercise (ex_id e) n g) (exercise s') /\
  map ex_id (exercise s') = map ex_id (exercise s) /\
  (forall x, In x (exercise s) -> ex_id x <> ex_id e -> In x (exercise s')) /\
  workout s' = workout s.
Proof.
  intros Hnd Hin Ht s'.
  pose proof (filter_unique_id _ _ Hnd Hin) as F.
  assert (Hids : map ex_id (exercise s') = map ex_id (exercise s)).
  { unfold s', renamed. cbn [exercise]. rewrite map_map. apply map_ext.
    intros x. apply set_name_gif_id. }
  split; [|split; [|split; [|split; [exact Hids|split]]]].
  - intros Hi Hn Hg.
    assert (Hup : Supabase.updateExercise (Some (ex_id e)) (Some n) g s
                  = (Ok (RUpdated true), s')).
    { unfold Supabase.updateExercise, bind, Supabase.update_exercise.
      cbn [Supabase.integer_filter].
      rewrite Hi, (varchar255_fits (Some n) Hn), (varchar255_fits g Hg).
      rewrite F. cbv zeta. rewrite set_name_gif_filter, F. reflexivity. }
    split; [exact Hup|]. split.
    + unfold Supabase.getExerciseById, bind, Supabase.select_exercise_single.
      cbn [Supabase.integer_filter]. rewrite Hi.
      unfold s', renamed. cbn [exercise].
      rewrite set_name_gif_filter, F. cbn [map]. now rewrite set_name_gif_hit.
    + intros c1 n1 c2 g1 date bd ex -> ->.
      unfold Supabase.handler, Supabase.dispatch, Supabase.is_action, Supabase.parse_id.
      cbn [Supabase.method Supabase.action Supabase.q_id Supabase.req_body b_name b_gif].
      rewrite (parseInt_nonempty t _ Ht), Ht.
      cbn -[Supabase.updateExercise renamed]. unfold bind. rewrite Hup. reflexivity.
  - intros bd ex.
    unfold Sqlite.put_exercise, Sqlite.try_catch, bind, Sqlite.run_update_exercise.
    cbn [b_name b_gif].
    change (filter (Sqlite.matches_id (Some (ex_id e))) (exercise s))
      with (filter (has_id (ex_id e)) (exercise s)).
    rewrite F. reflexivity.
  - unfold s', renamed. cbn [exercise]. apply in_map_iff.
    exists e. split; [apply set_name_gif_hit | exact Hin].
  - intros x Hx Hne. unfold s', renamed. cbn [exercise].
    apply in_map_iff. exists x. split; [now apply set_name_gif_miss | exact Hx].
  - reflexivity.
Qed.

Lemma updateExercise_then_getExerciseById_witness :
  Supabase.int4 2 = true /\ fits 255 "Lunges" /\
  Supabase.updateExercise (Some 2) (Some "Lunges") None sample
  = (Ok (RUpdated true), renamed 2 "Lunges" None sample) /\
  Supabase.getExerciseById (Some 2) (renamed 2 "Lunges" None sample)
  = (Ok (Some (mkExercise 2 "Lunges" None)), renamed 2 "Lunges" None sample).
Proof.
  assert (Hnd : NoDup (map ex_id (exercise sample)))
    by (repeat constructor; simpl; intuition discriminate).
  assert (Hin : In squats (exercise sample)) by (simpl; auto).
  assert (Hn : fits 255 "Lunges") by (unfold fits; simpl; lia).
  split; [reflexivity|]. split; [exact Hn|].
  destruct (updateExercise_then_getExerciseById sample squats "Lunges" None "2"
              Hnd Hin eq_refl) as (Hhosted & _).
  destruct (Hhosted eq_refl Hn I) as (Hup & Hget & _).
  split; [exact Hup | exact Hget].
Defined.

(** ** What requests can and cannot do *)

Lemma dispatch_get_reads (req : Supabase.request) (s : db) :
  Supabase.method req = Supabase.GET -> snd (Supabase.dispatch req s) = s.
Proof.
  intros Hm. unfold Supabase.dispatch. rewrite Hm.
  repeat match goal with
         | |- context [if ?c then _ else _] => destruct c
         end;
    try reflexivity;
    (apply (bind_keeps (fun x => x = s));
     [ first [ apply getAllExercises_reads | apply getExerciseById_reads
             | apply getWorkoutByDate_reads | apply getAllWorkoutDates_reads ]
     | intros a s1 ->;
       repeat match goal with
              | |- context [match ?x with _ => _ end] => destruct x
              end; reflexivity ]).
Qed.

(** X7. Reading never writes: a [GET] on the action-dispatched
    endpoint, whatever its parameters and whatever it answers, and each
    of the four [GET] routes of the embedded-store program leave the
    store exactly as it was. *)
Theorem get_requests_change_nothing (req : Supabase.request) (r : route) (s : db) :
  Supabase.method req = Supabase.GET ->
  is_get r = true ->
  snd (Supabase.handler req s) = s /\ snd (app r s) = s.
Proof.
  intros Hm Hr. split.
  - pose proof (dispatch_get_reads req s Hm) as H. unfold Supabase.handler.
    now destruct (Supabase.dispatch req s) as [[res|m] s1].
  - destruct r; try discriminate; try reflexivity.
    unfold app, Sqlite.get_exercise, Sqlite.try_catch, bind,
      Sqlite.get_exercise_where_id.
    destruct id as [i|]; [|reflexivity].
    now destruct (find (has_id i) (exercise s)).
Qed.

Lemma get_requests_change_nothing_witness :
  snd (Supabase.handler
         (Supabase.mkRequest Supabase.GET (Some "workout") (Some "2024-01-01") None
                             (mkBody None ExUndefined None None)) sample) = sample /\
  snd (app (GetWorkouts "2024-01-01") sample) = sample.
Proof.
  apply (get_requests_change_nothing
           (Supabase.mkRequest Supabase.GET (Some "workout") (Some "2024-01-01") None
                               (mkBody None ExUndefined None None))
           (GetWorkouts "2024-01-01") sample); reflexivity.
Defined.

(** X8. A request to [/api/workout] whose [action] is none of the four
    the handler knows reaches no store call.  With the method
    [OPTIONS] it is answered by [cors()], 204 and no body, before the
    handler; with [GET], [POST], [PUT] or [DELETE] the handler answers
    400 "Invalid action or missing parameters"; with any other method
    the handler answers 405 "Method not allowed".  The store is
    unchanged. *)
Theorem unknown_action_rejected (req : Supabase.request) (s : db) :
  Supabase.is_action "exercises" req = false ->
  Supabase.is_action "exercise" req = false ->
  Supabase.is_action "workout" req = false ->
  Supabase.is_action "dates" req = false ->
  Supabase.endpoint req s =
  (match Supabase.method req with
   | Supabase.OPTIONS => mkResponse 204 REmpty
   | Supabase.OtherMethod => mkResponse 405 (RError "Method not allowed")
   | _ => mkResponse 400 (RError "Invalid action or missing parameters")
   end, s).
Proof.
  intros H1 H2 H3 H4.
  unfold Supabase.endpoint, Supabase.cors, Supabase.handler, Supabase.dispatch.
  rewrite H1, H2, H3, H4. now destruct (Supabase.method req).
Qed.

Lemma unknown_action_rejected_witness :
  Supabase.endpoint
    (Supabase.mkRequest Supabase.DELETE (Some "workouts") (Some "2024-01-01") None
                        (mkBody None ExUndefined None None)) sample
  = (mkResponse 400 (RError "Invalid action or missing parameters"), sample) /\
  Supabase.endpoint
    (Supabase.mkRequest Supabase.OPTIONS (Some "workouts") (Some "2024-01-01") None
                        (mkBody None ExUndefined None None)) sample
  = (mkResponse 204 REmpty, sample).
Proof.
  split.
  - apply (unknown_action_rejected
             (Supabase.mkRequest Supabase.DELETE (Some "workouts") (Some "2024-01-01")
                                 None (mkBody None ExUndefined None None)) sample);
      reflexivity.
  - apply (unknown_action_rejected
             (Supabase.mkRequest Supabase.OPTIONS (Some "workouts") (Some "2024-01-01")
                                 None (mkBody None ExUndefined None None)) sample);
      reflexivity.
Defined.

(** X9. A request to [/api/workout] that names a single exercise or a
    workout without saying which is turned away before any store call:
    with [action=exercise] and no (or an empty) [id], for every method
    but the [POST] that creates, and with [action=workout] and no (or
    an empty) [date].  The answer is 400 "Invalid action or missing
    parameters" for [GET], [POST], [PUT] and [DELETE], 204 with no body
    (from [cors()]) for [OPTIONS], 405 "Method not allowed" for any
    other method, and the store is unchanged. *)
Theorem missing_parameter_rejected (req : Supabase.request) (s : db) :
  (Supabase.action req = Some "exercise" /\
   Supabase.method req <> Supabase.POST /\
   Js.truthy_str (Supabase.q_id req) = false) \/
  (Supabase.action req = Some "workout" /\
   Js.truthy_str (Supabase.q_date req) = false) ->
  Supabase.endpoint req s =
  (match Supabase.method req with
   | Supabase.OPTIONS => mkResponse 204 REmpty
   | Supabase.OtherMethod => mkResponse 405 (RError "Method not allowed")
   | _ => mkResponse 400 (RError "Invalid action or missing parameters")
   end, s).
Proof.
  intros [(Ha & Hm & Hid) | (Ha & Hd)];
    unfold Supabase.endpoint, Supabase.cors, Supabase.handler, Supabase.dispatch,
      Supabase.is_action;
    rewrite Ha; [rewrite Hid | rewrite Hd];
    destruct (Supabase.method req); try reflexivity.
  contradiction.
Qed.

Lemma missing_parameter_rejected_witness :
  Supabase.endpoint
    (Supabase.mkRequest Supabase.DELETE (Some "workout") (Some "") (Some "1")
                        (mkBody None ExUndefined None None)) sample
  = (mkResponse 400 (RError "Invalid action or missing parameters"), sample).
Proof.
  apply (missing_parameter_rejected
           (Supabase.mkRequest Supabase.DELETE (Some "workout") (Some "") (Some "1")
                               (mkBody None ExUndefined None None)) sample).
  right. split; reflexivity.
Defined.

(** *** The shape of the answers *)

Lemma saveWorkout_result (d : string) (l : list element) (s s1 : db) (r : reply) :
  Supabase.saveWorkout d l s = (Ok r, s1) -> r = RSuccess.
Proof.
  unfold Supabase.saveWorkout, bind, Supabase.delete_workout_by_date, Supabase.lift.
  destruct (Supabase.map_result (Supabase.to_workout_data d) l) as [rows|m];
    [|discriminate].
  match goal with
  | |- context [Supabase.insert_workout rows ?s0] =>
      destruct (Supabase.insert_workout rows s0) as [[[err|[]]|m] s2]
  end; unfold throw, ret; intros H; now inversion H.
Qed.

Lemma deleteWorkout_result (d : string) (s s1 : db) (r : reply) :
  Supabase.deleteWorkout d s = (Ok r, s1) -> exists n, r = RDeletedRows n.
Proof. intros H. inversion H. eauto. Qed.

Lemma updateExercise_result (id : option Z) (name gif : option string) (s s1 : db)
      (r : reply) :
  Supabase.updateExercise id name gif s = (Ok r, s1) -> exists b, r = RUpdated b.
Proof.
  unfold Supabase.updateExercise, bind.
  destruct (Supabase.update_exercise id name gif s) as [[[err|data]|m] s2];
    unfold throw, ret; intros H; inversion H; eauto.
Qed.

Lemma deleteExercise_result (id : option Z) (s s1 : db) (r : reply) :
  Supabase.deleteExercise id s = (Ok r, s1) -> exists b, r = RDeleted b.
Proof.
  unfold Supabase.deleteExercise, bind.
  destruct (Supabase.select_workout_ids_of_exercise id s) as [[[err|ws]|m] s2];
    unfold throw; try discriminate.
  destruct (0 <? Z.of_nat (List.length ws)); [discriminate|].
  destruct (Supabase.delete_exercise_by_id id s2) as [[[err|n]|m] s3];
    unfold ret; intros H; inversion H; eauto.
Qed.

Lemma ok_response (codes : list Z) (r : reply) :
  r <> REmpty -> (forall msg, r <> RError msg) ->
  well_formed_response codes (mkResponse 200 r).
Proof. intros He H. left. split; [reflexivity | split; [exact He | exact H]]. Qed.

Lemma error_response (codes : list Z) (c : Z) (msg : string) :
  In c codes -> well_formed_response codes (mkResponse c (RError msg)).
Proof. intros H. right. split; [exact H | now exists msg]. Qed.

Lemma dispatch_answers (req : Supabase.request) (s s1 : db) (res : response) :
  Supabase.dispatch req s = (Ok res, s1) ->
  well_formed_response [400; 404; 405; 500] res.
Proof.
  unfold Supabase.dispatch, Supabase.invalid_action, Supabase.status_json,
    Supabase.json.
  destruct (Supabase.method req);
    repeat match goal with
           | |- context [if ?c then _ else _] => destruct c
           end;
    unfold bind, ret;
    try (intros H; inversion H; subst; apply error_response; simpl; tauto).
  - destruct (Supabase.getAllExercises s) as [[l|m] s2]; intros H; inversion H.
    apply ok_response; discriminate.
  - destruct (Supabase.getExerciseById (Supabase.parse_id req) s) as [[[e|]|m] s2];
      intros H; inversion H.
    + apply ok_response; discriminate.
    + apply error_response. simpl. tauto.
  - match goal with
    | |- context [Supabase.getWorkoutByDate ?d s] =>
        destruct (Supabase.getWorkoutByDate d s) as [[l|m] s2]
    end; intros H; inversion H.
    apply ok_response; discriminate.
  - destruct (Supabase.getAllWorkoutDates s) as [[l|m] s2]; intros H; inversion H.
    apply ok_response; discriminate.
  - match goal with
    | |- context [Supabase.saveWorkout ?d ?l s] =>
        destruct (Supabase.saveWorkout d l s) as [[r|m] s2] eqn:E
    end; intros H; inversion H.
    apply saveWorkout_result in E. subst r. apply ok_response; discriminate.
  - match goal with
    | |- context [Supabase.addExercise ?n ?g s] =>
        destruct (Supabase.addExercise n g s) as [[e|m] s2]
    end; intros H; inversion H.
    apply ok_response; discriminate.
  - match goal with
    | |- context [Supabase.updateExercise ?i ?n ?g s] =>
        destruct (Supabase.updateExercise i n g s) as [[r|m] s2] eqn:E
    end; [|discriminate].
    apply updateExercise_result in E as [b ->]. cbn [Supabase.was_updated].
    destruct b; cbn [negb]; intros H; inversion H.
    + apply ok_response; discriminate.
    + apply error_response. simpl. tauto.
  - match goal with
    | |- context [Supabase.deleteWorkout ?d s] =>
        destruct (Supabase.deleteWorkout d s) as [[r|m] s2] eqn:E
    end; intros H; inversion H.
    apply deleteWorkout_result in E as [n ->]. apply ok_response; discriminate.
  - destruct (Supabase.deleteExercise (Supabase.parse_id req) s) as [[r|m] s2] eqn:E;
      [|discriminate].
    apply deleteExercise_result in E as [b ->]. cbn [Supabase.was_deleted].
    destruct b; cbn [negb]; intros H; inversion H.
    + apply ok_response; discriminate.
    + apply error_response. simpl. tauto.
Qed.

(** X10. The answers of the two programs' routes, for a request whose
    body was parsed.  A request to [/api/workout] with the method
    [OPTIONS] gets 204 and no body from [cors()]; to every other
    request the handler sends, and the callback of each of the nine
    routes of the embedded-store program sends, an answer of one of two
    shapes: status 200 with a result that is neither empty nor an error
    body, or an error status with an [{ error }] body.  The error
    statuses of the handler are 400, 404, 405 and 500; those of the
    embedded-store routes are 400, 404 and 500. *)
Theorem answers_are_well_formed (req : Supabase.request) (r : route) (s : db) :
  match Supabase.method req with
  | Supabase.OPTIONS => fst (Supabase.endpoint req s) = mkResponse 204 REmpty
  | _ => well_formed_response [400; 404; 405; 500] (fst (Supabase.endpoint req s))
  end /\
  well_formed_response [400; 404; 500] (fst (app r s)).
Proof.
  split.
  - assert (H : well_formed_response [400; 404; 405; 500]
                  (fst (Supabase.handler req s))).
    { unfold Supabase.handler.
      destruct (Supabase.dispatch req s) as [[res|m] s1] eqn:E; cbn [fst].
      + now apply dispatch_answers in E.
      + apply error_response. simpl. tauto. }
    unfold Supabase.endpoint, Supabase.cors.
    destruct (Supabase.method req); first [exact H | reflexivity].
  - destruct r; unfold app.
    + apply ok_response; discriminate.
    + unfold Sqlite.get_exercise, Sqlite.try_catch, bind, Sqlite.get_exercise_where_id.
      destruct id as [i|]; [destruct (find (has_id i) (exercise s))|]; cbn [fst].
      * apply ok_response; discriminate.
      * apply error_response. simpl. tauto.
      * apply error_response. simpl. tauto.
    + unfold Sqlite.post_exercises, Sqlite.try_catch, bind, Sqlite.run_insert_exercise.
      destruct (b_name b); cbn [fst].
      * apply ok_response; discriminate.
      * apply error_response. simpl. tauto.
    + unfold Sqlite.put_exercise, Sqlite.try_catch, bind, Sqlite.run_update_exercise.
      destruct (filter (Sqlite.matches_id id) (exercise s)) as [|x xs];
        [|destruct (b_name b)]; cbv beta iota;
        try match goal with
            | |- context [if ?c then _ else _] => destruct c
            end; cbn [fst];
        first [ apply ok_response; discriminate
              | apply error_response; simpl; tauto ].
    + unfold Sqlite.delete_exercise, Sqlite.try_catch, bind, Sqlite.get_workout_count.
      destruct (0 <? _); [apply error_response; simpl; tauto|].
      unfold Sqlite.run_delete_exercise.
      destruct (existsb _ _ && existsb _ _); cbv beta iota;
        try match goal with
            | |- context [if ?c then _ else _] => destruct c
            end; cbn [fst];
        first [ apply ok_response; discriminate
              | apply error_response; simpl; tauto ].
    + apply ok_response; discriminate.
    + unfold Sqlite.post_workouts, Sqlite.try_catch, bind.
      destruct (Sqlite.transaction _ s) as [[[]|m] s1]; cbn [fst].
      * apply ok_response; discriminate.
      * apply error_response. simpl. tauto.
    + apply ok_response; discriminate.
    + apply ok_response; discriminate.
Qed.

(** ** One date at a time *)

Lemma other_date_rows (d d' : string) (l : list workout_row) :
  d <> d' ->
  filter (has_date d') (filter (fun w => negb (has_date d w)) l)
  = filter (has_date d') l.
Proof.
  intros Hne. induction l as [|w l IH]; simpl; [reflexivity|].
  destruct (has_date d w) eqn:E; simpl.
  - apply has_date_true in E.
    assert (F : has_date d' w = false) by (apply has_date_false; congruence).
    now rewrite F.
  - destruct (has_date d' w); now rewrite IH.
Qed.

Lemma no_rows_of_other_date (d d' : string) (ws : list workout_row) :
  d <> d' -> Forall (fun w => w_date w = d) ws -> filter (has_date d') ws = [].
Proof.
  intros Hne Hd. apply filter_none. intros w Hw.
  rewrite Forall_forall in Hd. apply has_date_false. rewrite (Hd w Hw). exact Hne.
Qed.

(** The two readers look at the exercises and at the rows of their
    date, and at nothing else. *)
Lemma getWorkoutByDate_local (d : string) (s s1 : db) :
  exercise s1 = exercise s ->
  filter (has_date d) (workout s1) = filter (has_date d) (workout s) ->
  fst (Supabase.getWorkoutByDate d s1) = fst (Supabase.getWorkoutByDate d s).
Proof.
  intros Hex Hwk.
  unfold Supabase.getWorkoutByDate, bind, Supabase.select_workout_with_exercise,
    Supabase.lift. cbn [fst]. rewrite Hwk. f_equal. apply map_ext.
  intros w. unfold Supabase.embed_exercise. now rewrite Hex.
Qed.

Lemma get_workouts_local (d : string) (s s1 : db) :
  exercise s1 = exercise s ->
  filter (has_date d) (workout s1) = filter (has_date d) (workout s) ->
  fst (Sqlite.get_workouts d s1) = fst (Sqlite.get_workouts d s).
Proof.
  intros Hex Hwk.
  unfold Sqlite.get_workouts, Sqlite.try_catch, bind, Sqlite.all_workouts_joined.
  cbn [fst]. now rewrite Hwk, Hex.
Qed.

Lemma to_workout_data_dates (d : string) (E : list element)
      (rows : list Supabase.workout_data) :
  Supabase.map_result (Supabase.to_workout_data d) E = Ok rows ->
  Forall (fun r => Supabase.date r = d) rows.
Proof.
  revert rows. induction E as [|e E IH]; simpl; intros rows H.
  - inversion H. constructor.
  - destruct e as [|id dur]; [discriminate|]. simpl in H.
    destruct (Supabase.map_result (Supabase.to_workout_data d) E) as [rs|m];
      [|discriminate].
    inversion H; subst. constructor; [reflexivity | now apply IH].
Qed.

Lemma to_workout_data_rows (d : string) (E : list element)
      (rows : list Supabase.workout_data) :
  Supabase.map_result (Supabase.to_workout_data d) E = Ok rows ->
  rows = map (data_of d) E.
Proof.
  revert rows. induction E as [|e E IH]; simpl; intros rows H.
  - now inversion H.
  - destruct e as [|id dur]; [discriminate|]. simpl in H.
    destruct (Supabase.map_result (Supabase.to_workout_data d) E) as [rs|m];
      [|discriminate].
    inversion H; subst. now rewrite (IH rs eq_refl).
Qed.

(** What the statement reads are the ids and durations as sent. *)
Lemma read_rows_shape (rows : list Supabase.workout_data) :
  forall rs, Supabase.read_rows rows = inr rs -> Forall2 read_as rows rs.
Proof.
  induction rows as [|r rows IH]; intros rs; cbn [Supabase.read_rows].
  - intros [= <-]. constructor.
  - destruct (Supabase.varchar 10 (Supabase.date r)) as [d|] eqn:Hd; [|discriminate].
    destruct (Supabase.integer_value (Supabase.exercise_id r)) as [?|e] eqn:He;
      [discriminate|].
    destruct (Supabase.integer_value (Supabase.duration r)) as [?|n] eqn:Hn;
      [discriminate|].
    destruct (Supabase.read_rows rows) as [?|rs']; [discriminate|].
    intros [= <-]. constructor; [|now apply IH].
    unfold read_as. cbn [Supabase.date Supabase.exercise_id Supabase.duration].
    split; [exact Hd|].
    destruct (Supabase.exercise_id r) as [z|], (Supabase.duration r) as [z'|];
      cbn [Supabase.integer_value] in He, Hn;
      repeat match goal with
             | H : (if ?c then _ else _) = inr _ |- _ => destruct c; [|discriminate H]
             end;
      inversion He; inversion Hn; split; reflexivity.
Qed.

(** The entries of an accepted save name exercises of the store. *)
Lemma accepted_entries (s : db) (d : string) (E : list element) :
  forall ws,
    Forall2 read_as (map (data_of d) E) (map row_data ws) ->
    Forall (references_exercise s) ws ->
    Forall (names_exercise s) E /\ map entry_of_row ws = E.
Proof.
  induction E as [|e E IH]; intros [|w ws]; cbn [map]; intros H2 Hfk;
    inversion H2; subst.
  - split; [constructor | reflexivity].
  - inversion Hfk as [|? ? Hw Hws]; subst.
    match goal with H : read_as _ _ |- _ => destruct H as (_ & Hid & Hdur) end.
    match goal with H : Forall2 _ _ _ |- _ => destruct (IH ws H Hws) as [Hall Hmap] end.
    unfold row_data in Hid, Hdur. cbn [Supabase.exercise_id Supabase.duration] in Hid, Hdur.
    destruct e as [|id dur]; cbn [data_of Supabase.exercise_id Supabase.duration] in Hid, Hdur;
      [discriminate|]. subst id dur.
    split.
    + constructor; [exact Hw | exact Hall].
    + unfold entry_of_row at 1. now rewrite Hmap.
Qed.

(** The two ways [saveWorkout] can end.  It throws: the rows of the
    date are gone, nothing else changed in the two tables, and the
    sequence has not gone back.  It succeeds: the rows of the date are
    replaced by the rows [ws], written from the payload as the store
    read it, one per entry. *)
Lemma saveWorkout_cases (s : db) (d : string) (E : list element) :
  (exists m last,
      Supabase.saveWorkout d E s
      = (Throw m, mkDb (exercise s) (workout (without_date d s)) (exercise_seq s) last) /\
      workout_seq s <= last) \/
  (exists ws,
      Supabase.saveWorkout d E s
      = (Ok RSuccess,
         mkDb (exercise s) (workout (without_date d s) ++ ws) (exercise_seq s)
              (workout_seq s + Z.of_nat (List.length ws))) /\
      Supabase.read_rows (map (data_of d) E) = inr (map row_data ws) /\
      Forall (names_exercise s) E /\
      map entry_of_row ws = E /\
      StronglySorted (fun a b => w_id a < w_id b) ws).
Proof.
  unfold Supabase.saveWorkout, bind, Supabase.delete_workout_by_date, Supabase.lift.
  fold (without_date d s).
  destruct (Supabase.map_result (Supabase.to_workout_data d) E) as [rows|m] eqn:Hrows.
  - apply to_workout_data_rows in Hrows. subst rows.
    destruct (insert_workout_cases (map (data_of d) E) (without_date d s))
      as [(err & last & -> & Hlast) | (ws & -> & Hread & _ & Hs & Hfk)].
    + left. exists (Supabase.message err), last. split; [reflexivity | exact Hlast].
    + right. exists ws. split; [reflexivity|]. split; [exact Hread|].
      destruct (accepted_entries s d E ws (read_rows_shape _ _ Hread) Hfk)
        as [Hall Hmap].
      split; [exact Hall|]. split; [exact Hmap | exact Hs].
  - left. exists m, (workout_seq s). split; [reflexivity | lia].
Qed.

(** Under a date that fits its column, the rows of an accepted save
    carry that date. *)
Lemma saved_rows_dated (d : string) (E : list element) (ws : list workout_row) :
  fits 10 d ->
  Supabase.read_rows (map (data_of d) E) = inr (map row_data ws) ->
  Forall (fun w => w_date w = d) ws.
Proof.
  intros Hd Hread.
  assert (Hsent : Forall (fun r => Supabase.date r = d) (map (data_of d) E)).
  { rewrite Forall_map. apply Forall_forall. intros e _. now destruct e. }
  pose proof (read_rows_dates d _ Hd Hsent _ Hread) as H.
  rewrite Forall_map in H. exact H.
Qed.

(** Whatever [saveWorkout] does under a date that fits, it does to the
    rows of that date. *)
Lemma saveWorkout_frame (s : db) (d d' : string) (E : list element) :
  d <> d' -> fits 10 d ->
  exercise (snd (Supabase.saveWorkout d E s)) = exercise s /\
  filter (has_date d') (workout (snd (Supabase.saveWorkout d E s)))
  = filter (has_date d') (workout s).
Proof.
  intros Hne Hd.
  destruct (saveWorkout_cases s d E)
    as [(m & last & -> & _) | (ws & -> & Hread & _)];
    cbn [snd exercise workout without_date].
  - split; [reflexivity | now apply other_date_rows].
  - split; [reflexivity|].
    rewrite filter_app, other_date_rows by exact Hne.
    rewrite (no_rows_of_other_date d d' ws Hne); [apply app_nil_r|].
    now apply (saved_rows_dated d E).
Qed.

(** The store after [POST /api/workouts]: as before, or with the rows
    of the date replaced. *)
Lemma post_workouts_state (b : body) (s s' : db) (res : response) :
  Sqlite.post_workouts b s = (res, s') ->
  s' = s \/
  (exercise s' = exercise s /\
   exists ws,
     workout s' = filter (fun w => negb (Sqlite.is_date (b_date b) w)) (workout s) ++ ws /\
     Forall (fun w => Sqlite.is_date (b_date b) w = true) ws).
Proof.
  unfold Sqlite.post_workouts, Sqlite.try_catch, bind, Sqlite.transaction,
    Sqlite.replace_workout, bind, Sqlite.run_delete_workout.
  destruct (b_exercises b) as [|v|E].
  - intros H. inversion H. now left.
  - destruct v; intros H; inversion H; now left.
  - match goal with
    | |- context [Sqlite.forEach ?f E ?s0] =>
        destruct (Sqlite.forEach f E s0) as [[[]|m] s1] eqn:Hrun
    end; intros H; inversion H; subst; [|now left].
    right. apply forEach_insert_shape in Hrun as (Hex & ws & Hwk & _ & Hd).
    split; [exact Hex|]. exists ws. split; [exact Hwk | exact Hd].
Qed.

Lemma post_workouts_frame (s : db) (b : body) (d' : string) :
  b_date b <> Some d' ->
  exercise (snd (Sqlite.post_workouts b s)) = exercise s /\
  filter (has_date d') (workout (snd (Sqlite.post_workouts b s)))
  = filter (has_date d') (workout s).
Proof.
  intros Hne. destruct (Sqlite.post_workouts b s) as [res s'] eqn:Hrun.
  cbn [snd].
  apply post_workouts_state in Hrun as [-> | (Hex & ws & Hwk & Hd)]; [now split|].
  split; [exact Hex|]. rewrite Hwk, filter_app.
  destruct (b_date b) as [d|].
  - assert (Hdd : d <> d') by congruence.
    change (fun w => negb (Sqlite.is_date (Some d) w))
      with (fun w => negb (has_date d w)).
    rewrite other_date_rows by exact Hdd.
    rewrite (no_rows_of_other_date d d' ws Hdd); [apply app_nil_r|].
    eapply Forall_impl; [|exact Hd]. intros w Hw. now apply has_date_true.
  - destruct ws as [|w ws];
      [|inversion Hd as [|? ? Hw _]; cbn [Sqlite.is_date] in Hw; discriminate Hw].
    rewrite app_nil_r. f_equal. apply filter_all.
    apply Forall_forall. intros x _. reflexivity.
Qed.

(** A date of eleven characters, the last a space, in the hosted
    store: the column keeps the first ten, so the save deletes no row
    and its row is read under the shorter date. *)
Lemma saveWorkout_date_cut :
  exists s1,
    Supabase.saveWorkout "2024-01-02 " [ElObj (Some 2) (Some 5)] sample = (Ok RSuccess, s1) /\
    workout s1 = workout sample ++ [mkWorkout 4 "2024-01-02" 2 (Some 5)] /\
    fst (Supabase.getWorkoutByDate "2024-01-02" s1)
    <> fst (Supabase.getWorkoutByDate "2024-01-02" sample).
Proof.
  eexists. split; [reflexivity|]. split; [reflexivity | discriminate].
Qed.

(** X11. Saving or deleting the workout of one date never shows in
    the workout of another: for two different dates, what
    [getWorkoutByDate] (and [GET /api/workouts/:date]) returns for the
    second is the same after [deleteWorkout], [POST /api/workouts] or
    [DELETE /api/workouts/:date] on the first as before, and the same
    after [saveWorkout] on the first when that date has at most 10
    characters, whatever the entries and also when the save fails. *)
Theorem other_dates_untouched (s : db) (d d' : string) (E : list element) (b : body) :
  d <> d' ->
  b_date b = Some d ->
  (fits 10 d ->
   fst (Supabase.getWorkoutByDate d' (snd (Supabase.saveWorkout d E s)))
   = fst (Supabase.getWorkoutByDate d' s)) /\
  fst (Supabase.getWorkoutByDate d' (snd (Supabase.deleteWorkout d s)))
  = fst (Supabase.getWorkoutByDate d' s) /\
  fst (Sqlite.get_workouts d' (snd (Sqlite.post_workouts b s)))
  = fst (Sqlite.get_workouts d' s) /\
  fst (Sqlite.get_workouts d' (snd (Sqlite.delete_workouts d s)))
  = fst (Sqlite.get_workouts d' s).
Proof.
  intros Hne Hb. repeat split.
  - intros Hd. destruct (saveWorkout_frame s d d' E Hne Hd).
    now apply getWorkoutByDate_local.
  - apply getWorkoutByDate_local; [reflexivity|].
    cbn [snd Supabase.deleteWorkout]. now apply other_date_rows.
  - destruct (post_workouts_frame s b d'); [congruence|].
    now apply get_workouts_local.
  - apply get_workouts_local; [reflexivity|].
    cbn [snd]. now apply (other_date_rows d d').
Qed.

Lemma other_dates_untouched_witness :
  fits 10 "2024-01-01" /\
  fst (Supabase.getWorkoutByDate "2024-01-02"
         (snd (Supabase.saveWorkout "2024-01-01"
                 [ElObj (Some 2) (Some 10); ElObj (Some 9) None] sample)))
  = fst (Supabase.getWorkoutByDate "2024-01-02" sample).
Proof.
  assert (Hd : fits 10 "2024-01-01") by (unfold fits; simpl; lia).
  split; [exact Hd|].
  destruct (other_dates_untouched sample "2024-01-01" "2024-01-02"
              [ElObj (Some 2) (Some 10); ElObj (Some 9) None]
              (mkBody (Some "2024-01-01") ExUndefined None None)) as [Hsave _].
  - discriminate.
  - reflexivity.
  - exact (Hsave Hd).
Defined.

(** ** Where the hosted store's save can fail *)

(** X12. [saveWorkout] has no way back: when some entry of the array
    names no existing exercise ([null], no id, or an id no exercise
    has), the call throws, and in the store it leaves the exercises
    are as before and the workout table is the table without the rows
    of the date; the old rows are gone and no new row is written.  The
    handler answers 500. *)
Theorem saveWorkout_failure_loses_the_date (s : db) (d : string) (E : list element) :
  Exists (fun e => ~ names_exercise s e) E ->
  exists m s1,
    Supabase.saveWorkout d E s = (Throw m, s1) /\
    exercise s1 = exercise s /\
    workout s1 = workout (without_date d s) /\
    filter (has_date d) (workout s1) = [] /\
    (forall c r id bd name gif,
        d = String c r ->
        exists m',
          Supabase.handler
            (Supabase.mkRequest Supabase.POST (Some "workout") (Some d) id
                                (mkBody bd (ExArray E) name gif)) s
          = (mkResponse 500 (RError m'), s1)).
Proof.
  intros Hbad.
  destruct (saveWorkout_cases s d E)
    as [(m & last & Hsave & _) | (ws & _ & _ & Hall & _)].
  - exists m. eexists. split; [exact Hsave|]. cbn [exercise workout].
    split; [reflexivity|]. split; [reflexivity|]. split.
    + apply no_date_left.
    + intros c r id bd name gif ->.
      unfold Supabase.handler, Supabase.dispatch, Supabase.is_action.
      cbn -[Supabase.saveWorkout without_date]. unfold bind. rewrite Hsave.
      eexists. reflexivity.
  - exfalso. apply Exists_exists in Hbad as (e & He & Hne). apply Hne.
    rewrite Forall_forall in Hall. exact (Hall e He).
Qed.

Lemma saveWorkout_failure_loses_the_date_witness :
  exists m s1,
    Supabase.saveWorkout "2024-01-01"
      [ElObj (Some 2) (Some 10); ElObj (Some 9) None] sample
    = (Throw m, s1) /\
    workout s1 = [mkWorkout 2 "2024-01-02" 1 (Some 45)].
Proof.
  destruct (saveWorkout_failure_loses_the_date sample "2024-01-01"
              [ElObj (Some 2) (Some 10); ElObj (Some 9) None])
    as (m & s1 & H & _ & Hwk & _).
  - apply Exists_cons_tl, Exists_cons_hd. simpl.
    intros (x & [<-|[<-|[]]] & Hid); discriminate.
  - exists m, s1. split; [exact H | exact Hwk].
Defined.

(** ** Keys a refused save takes *)

Lemma to_workout_data_given (d : string) (E : list element) :
  Forall gives_id E ->
  Supabase.map_result (Supabase.to_workout_data d) E = Ok (map (data_of d) E) /\
  Forall (fun r => Supabase.exercise_id r <> None) (map (data_of d) E).
Proof.
  induction 1 as [|e E He _ [IH1 IH2]]; [split; [reflexivity | constructor]|].
  destruct e as [|[i|] n]; try contradiction. cbn [map Supabase.map_result].
  rewrite IH1. split; [reflexivity|]. constructor; [discriminate | exact IH2].
Qed.

(** X23. The hosted store's insert checks the foreign key when all
    its rows are written, and a refused insert does not give its keys
    back: when every entry carries an id, the values fit their columns
    and the sequence has a key left for every entry, but some entry
    names no existing exercise, [saveWorkout] throws, the rows of the
    date are gone, no row is written, and the workout sequence has
    moved on by one key per entry. *)
Theorem refused_save_takes_keys (s : db) (d : string) (E : list element) :
  sequences_ahead s ->
  fits 10 d -> Forall gives_id E -> Forall typed_entry E ->
  keys_left s (List.length E) ->
  Exists (fun e => ~ names_exercise s e) E ->
  exists m,
    Supabase.saveWorkout d E s
    = (Throw m,
       mkDb (exercise s) (workout (without_date d s)) (exercise_seq s)
            (workout_seq s + Z.of_nat (List.length E))).
Proof.
  intros [_ Hseq] Hd Hid Htyped [Hlow Hhigh] Hbad.
  destruct (to_workout_data_given d E Hid) as [Hdata Hids].
  destruct (write_rows_ok (workout (without_date d s)) (map (data_of d) E)
                          (workout_seq s) Hids) as (ws & Hwrite).
  { cbn [without_date workout]. now apply Forall_filter. }
  { exact Hlow. }
  { now rewrite length_map. }
  destruct (write_rows_shape _ _ _ _ Hwrite) as (Hrows & _).
  assert (Hlen : List.length ws = List.length E).
  { rewrite <- (length_map row_data ws), Hrows. apply length_map. }
  assert (Hfk : forallb (Supabase.exercise_exists (without_date d s)) ws = false).
  { apply not_true_is_false. intros Hall. apply all_exercises_exist in Hall.
    pose proof (read_rows_shape _ _ (read_rows_typed d E Hd Htyped)) as Hread.
    rewrite <- Hrows in Hread at 2.
    destruct (accepted_entries (without_date d s) d E ws Hread Hall) as [Hnames _].
    apply Exists_exists in Hbad as (e & He & Hne). apply Hne.
    rewrite Forall_forall in Hnames. exact (Hnames e He). }
  unfold Supabase.saveWorkout, bind, Supabase.delete_workout_by_date, Supabase.lift.
  fold (without_date d s). rewrite Hdata.
  unfold Supabase.insert_workout. rewrite (read_rows_typed d E Hd Htyped).
  cbn [workout_seq without_date] in Hwrite |- *.
  change (filter (fun w => negb (has_date d w)) (workout s))
    with (workout (without_date d s)).
  rewrite Hwrite. cbv zeta. rewrite Hfk, Hlen.
  eexists. reflexivity.
Qed.

Lemma refused_save_takes_keys_witness :
  exists m,
    Supabase.saveWorkout "2024-01-01" [ElObj (Some 2) (Some 10); ElObj (Some 9) None]
                         sample
    = (Throw m, mkDb [pushups; squats] [mkWorkout 2 "2024-01-02" 1 (Some 45)] 2 5).
Proof.
  apply (refused_save_takes_keys sample "2024-01-01"
           [ElObj (Some 2) (Some 10); ElObj (Some 9) None]).
  - exact (proj1 (proj2 sample_ok)).
  - unfold fits. simpl. lia.
  - repeat constructor.
  - repeat constructor.
  - unfold keys_left. simpl. lia.
  - apply Exists_cons_tl, Exists_cons_hd. simpl.
    intros (x & [<-|[<-|[]]] & Hx); discriminate.
Defined.

(** The key after a refused save: the two keys the refused insert took
    are not handed out again. *)
Lemma key_after_refused_save :
  exists m s1 s2,
    Supabase.saveWorkout "2024-01-01" [ElObj (Some 2) (Some 10); ElObj (Some 9) None]
                         sample = (Throw m, s1) /\
    Supabase.saveWorkout "2024-01-01" [ElObj (Some 2) (Some 10)] s1 = (Ok RSuccess, s2) /\
    workout s2 = [mkWorkout 2 "2024-01-02" 1 (Some 45);
                  mkWorkout 6 "2024-01-01" 2 (Some 10)].
Proof. eexists. eexists. eexists. repeat split. Qed.

(** ** The stores the programs can reach *)

Lemma empty_db_ok : db_ok empty_db.
Proof. repeat split; constructor. Qed.

Lemma app_keeps_keys (r : route) (s : db) :
  embedded_ok s -> embedded_ok (snd (app r s)).
Proof.
  intros Hok. destruct r; unfold app.
  - exact Hok.
  - unfold Sqlite.get_exercise, Sqlite.try_catch, bind, Sqlite.get_exercise_where_id.
    destruct id as [i|]; [destruct (find (has_id i) (exercise s))|]; exact Hok.
  - now apply post_exercises_keeps_keys.
  - now apply put_exercise_keeps_keys.
  - now apply delete_exercise_keeps_keys.
  - exact Hok.
  - now apply post_workouts_keeps_keys.
  - exact Hok.
  - now apply delete_workouts_keeps_keys.
Qed.

(** X13. The keys hold along every run of the action-dispatched
    endpoint: from a store with unique ids, ids behind the sequences
    and every workout row referencing an exercise, any sequence of
    requests (failing ones included) ends in such a store; the empty
    store is one, so every store the endpoint reaches from it is. *)
Theorem serve_keeps_db_ok (reqs : list Supabase.request) (s : db) :
  db_ok s ->
  db_ok (snd (serve reqs s)) /\ db_ok (snd (serve reqs empty_db)).
Proof.
  assert (H : forall s0, db_ok s0 -> db_ok (snd (serve reqs s0))).
  { induction reqs as [|req reqs IH]; intros s0 Hok; [exact Hok|].
    cbn [serve]. pose proof (endpoint_keeps_db_ok req s0 Hok) as Hstep.
    destruct (Supabase.endpoint req s0) as [res s1]. cbn [snd] in Hstep.
    specialize (IH s1 Hstep). destruct (serve reqs s1) as [more s2]. exact IH. }
  intros Hok. split; [now apply H | apply H, empty_db_ok].
Qed.

Lemma serve_keeps_db_ok_witness :
  db_ok (snd (serve
                [Supabase.mkRequest Supabase.DELETE (Some "workout") (Some "2024-01-02")
                                    None (mkBody None ExUndefined None None);
                 Supabase.mkRequest Supabase.DELETE (Some "exercise") None (Some "2")
                                    (mkBody None ExUndefined None None)]
                sample)).
Proof.
  apply (serve_keeps_db_ok
           [Supabase.mkRequest Supabase.DELETE (Some "workout") (Some "2024-01-02")
                               None (mkBody None ExUndefined None None);
            Supabase.mkRequest Supabase.DELETE (Some "exercise") None (Some "2")
                               (mkBody None ExUndefined None None)]
           sample sample_ok).
Defined.

(** X14. The same for the embedded-store program: from a store with
    unique ids in which every workout row references an exercise, any
    sequence of requests to its routes ends in such a store, and so
    does every run from the empty store.  In particular no request can
    leave a workout row whose exercise is gone. *)
Theorem serve_routes_keeps_keys (rs : list route) (s : db) :
  embedded_ok s ->
  embedded_ok (snd (serve_routes rs s)) /\ embedded_ok (snd (serve_routes rs empty_db)).
Proof.
  assert (H : forall s0, embedded_ok s0 -> embedded_ok (snd (serve_routes rs s0))).
  { induction rs as [|r rs IH]; intros s0 Hok; [exact Hok|].
    cbn [serve_routes]. pose proof (app_keeps_keys r s0 Hok) as Hstep.
    destruct (app r s0) as [res s1]. cbn [snd] in Hstep.
    specialize (IH s1 Hstep). destruct (serve_routes rs s1) as [more s2]. exact IH. }
  intros Hok. split; [now apply H|].
  apply H. repeat split; constructor.
Qed.

Lemma serve_routes_keeps_keys_witness :
  embedded_ok
    (snd (serve_routes
            [PostExercises (mkBody None ExUndefined (Some "Plank") None);
             DeleteExercise (Some 1)] sample)).
Proof.
  apply (serve_routes_keeps_keys
           [PostExercises (mkBody None ExUndefined (Some "Plank") None);
            DeleteExercise (Some 1)] sample).
  destruct sample_ok as (Hpk & _ & Hfk). split; assumption.
Defined.

(** ** The hosted store keeps its column types *)

Lemma substring_prefix_length (n : nat) :
  forall t, (String.length (substring 0 n t) <= n)%nat.
Proof.
  induction n as [|n IH]; intros [|c t]; cbn [substring String.length]; try lia.
  specialize (IH t). lia.
Qed.

(** What a column stores is within its width. *)
Lemma varchar_stored (n : nat) (t t' : string) :
  Supabase.varchar n t = Some t' -> fits n t'.
Proof.
  unfold Supabase.varchar, fits.
  destruct (String.length t <=? n)%nat eqn:Hlen.
  - intros [= <-]. now apply Nat.leb_le.
  - destruct (Supabase.spaces_only _); [|discriminate].
    intros [= <-]. apply substring_prefix_length.
Qed.

Lemma varchar255_stored (v v' : option string) :
  Supabase.varchar255_value v = inr v' -> fits_or_null 255 v'.
Proof.
  destruct v as [t|]; cbn [Supabase.varchar255_value].
  - destruct (Supabase.varchar 255 t) as [t'|] eqn:Ht; [|discriminate].
    intros [= <-]. now apply (varchar_stored 255 t).
  - intros [= <-]. exact I.
Qed.

Lemma integer_stored (v v' : option Z) :
  Supabase.integer_value v = inr v' -> int4_or_null v'.
Proof.
  destruct v as [z|]; cbn [Supabase.integer_value].
  - destruct (Supabase.int4 z) eqn:Hz; [|discriminate]. now intros [= <-].
  - intros [= <-]. exact I.
Qed.

Lemma integer_filter_typed (id : option Z) (i : Z) :
  Supabase.integer_filter id = inr i -> Supabase.int4 i = true.
Proof.
  destruct id as [z|]; cbn [Supabase.integer_filter]; [|discriminate].
  destruct (Supabase.int4 z) eqn:Hz; [|discriminate]. now intros [= <-].
Qed.

(** The payload as read has the types of its columns. *)
Lemma read_rows_stored (rows : list Supabase.workout_data) :
  forall rs,
    Supabase.read_rows rows = inr rs ->
    Forall (fun r => fits 10 (Supabase.date r) /\
                     int4_or_null (Supabase.exercise_id r) /\
                     int4_or_null (Supabase.duration r)) rs.
Proof.
  induction rows as [|r rows IH]; intros rs; cbn [Supabase.read_rows].
  - intros [= <-]. constructor.
  - destruct (Supabase.varchar 10 (Supabase.date r)) as [d|] eqn:Hd; [|discriminate].
    destruct (Supabase.integer_value (Supabase.exercise_id r)) as [?|e] eqn:He;
      [discriminate|].
    destruct (Supabase.integer_value (Supabase.duration r)) as [?|n] eqn:Hn;
      [discriminate|].
    destruct (Supabase.read_rows rows) as [?|rs']; [discriminate|].
    intros [= <-]. constructor; [|now apply IH].
    cbn [Supabase.date Supabase.exercise_id Supabase.duration].
    split; [now apply (varchar_stored 10 (Supabase.date r))|].
    split; [now apply (integer_stored (Supabase.exercise_id r))
           | now apply (integer_stored (Supabase.duration r))].
Qed.

(** The keys handed out are within the type of the [id] column. *)
Lemma write_rows_keys (table : list workout_row) (rows : list Supabase.workout_data) :
  forall last ws,
    Supabase.write_rows table last rows = inr ws ->
    Forall (fun w => Supabase.int4 (w_id w) = true) ws.
Proof.
  induction rows as [|r rows IH]; intros last ws; cbn [Supabase.write_rows]; cbv zeta.
  - intros [= <-]. constructor.
  - destruct (Supabase.int4 (last + 1)) eqn:Hkey; cbn [negb]; [|discriminate].
    destruct (Supabase.exercise_id r) as [e|]; [|discriminate].
    destruct (existsb _ table); [discriminate|].
    destruct (Supabase.write_rows table (last + 1) rows) as [?|ws'] eqn:Hrest;
      [discriminate|].
    intros [= <-]. constructor; [exact Hkey | now apply (IH (last + 1))].
Qed.

Lemma insert_workout_typed (rows : list Supabase.workout_data) (s : db) :
  typed_store s -> typed_store (snd (Supabase.insert_workout rows s)).
Proof.
  intros [Hex Hwk]. unfold Supabase.insert_workout.
  destruct (Supabase.read_rows rows) as [err|rs] eqn:Hread; [now split|].
  destruct (Supabase.write_rows (workout s) (workout_seq s) rs)
    as [[err last]|ws] eqn:Hwrite; [now split|]. cbv zeta.
  destruct (forallb (Supabase.exercise_exists s) ws); [|now split].
  split; cbn [snd exercise workout]; [exact Hex|].
  apply Forall_app. split; [exact Hwk|].
  pose proof (write_rows_keys _ _ _ _ Hwrite) as Hkeys.
  destruct (write_rows_shape _ _ _ _ Hwrite) as (Hrows & _).
  pose proof (read_rows_stored _ _ Hread) as Hstored.
  rewrite <- Hrows, Forall_map in Hstored.
  rewrite Forall_forall in Hkeys, Hstored. apply Forall_forall. intros w Hw.
  destruct (Hstored w Hw) as (Hd & He & Hn).
  unfold typed_workout. split; [now apply Hkeys|]. split; [exact Hd|].
  split; [exact He | exact Hn].
Qed.

Lemma other_dates_typed (s : db) (d : string) :
  typed_store s -> typed_store (without_date d s).
Proof.
  intros [Hex Hwk]. split; cbn [without_date exercise workout]; [exact Hex|].
  now apply Forall_filter.
Qed.

Lemma saveWorkout_typed (d : string) (E : list element) (s : db) :
  typed_store s -> typed_store (snd (Supabase.saveWorkout d E s)).
Proof.
  intros Hok. apply (other_dates_typed s d) in Hok.
  unfold Supabase.saveWorkout, bind, Supabase.delete_workout_by_date, Supabase.lift.
  fold (without_date d s).
  destruct (Supabase.map_result (Supabase.to_workout_data d) E) as [rows|m];
    [|exact Hok].
  pose proof (insert_workout_typed rows _ Hok) as Hins.
  destruct (Supabase.insert_workout rows (without_date d s)) as [[[err|[]]|m] s1];
    exact Hins.
Qed.

Lemma deleteWorkout_typed (d : string) (s : db) :
  typed_store s -> typed_store (snd (Supabase.deleteWorkout d s)).
Proof. intros Hok. now apply (other_dates_typed s d). Qed.

Lemma addExercise_typed (name gif : option string) (s : db) :
  typed_store s -> typed_store (snd (Supabase.addExercise name gif s)).
Proof.
  intros Hok. unfold Supabase.addExercise, bind, Supabase.insert_exercise.
  destruct (Supabase.varchar255_value name) as [?|name'] eqn:Hn; [exact Hok|].
  destruct (Supabase.varchar255_value gif) as [?|gif'] eqn:Hg; [exact Hok|]. cbv zeta.
  destruct (Supabase.int4 (exercise_seq s + 1)) eqn:Hkey; cbn [negb]; [|exact Hok].
  destruct Hok as [Hex Hwk].
  destruct name' as [n|]; [|now split].
  destruct (existsb (has_id (exercise_seq s + 1)) (exercise s)); [now split|].
  split; cbn [snd exercise workout]; [|exact Hwk].
  apply Forall_app. split; [exact Hex|]. constructor; [|constructor].
  unfold typed_exercise. cbn [ex_id ex_name ex_gif]. split; [exact Hkey|].
  split; [exact (varchar255_stored name (Some n) Hn)
         | exact (varchar255_stored gif gif' Hg)].
Qed.

Lemma updateExercise_typed (id : option Z) (name gif : option string) (s : db) :
  typed_store s -> typed_store (snd (Supabase.updateExercise id name gif s)).
Proof.
  intros Hok. unfold Supabase.updateExercise, bind, Supabase.update_exercise.
  destruct (Supabase.integer_filter id) as [?|i]; [exact Hok|].
  destruct (Supabase.varchar255_value name) as [?|name'] eqn:Hn; [exact Hok|].
  destruct (Supabase.varchar255_value gif) as [?|gif'] eqn:Hg; [exact Hok|].
  destruct (filter (has_id i) (exercise s)) as [|x xs]; [exact Hok|].
  destruct name' as [n|]; [|exact Hok].
  destruct Hok as [Hex Hwk]. unfold ret. cbv zeta.
  split; cbn [snd exercise workout]; [|exact Hwk].
  rewrite Forall_map. eapply Forall_impl; [|exact Hex].
  intros e (Hi & Hname & Hgif). unfold Supabase.set_name_gif.
  destruct (has_id i e); [|now repeat split].
  unfold typed_exercise. cbn [ex_id ex_name ex_gif]. split; [exact Hi|].
  split; [exact (varchar255_stored name (Some n) Hn)
         | exact (varchar255_stored gif gif' Hg)].
Qed.

Lemma deleteExercise_typed (id : option Z) (s : db) :
  typed_store s -> typed_store (snd (Supabase.deleteExercise id s)).
Proof.
  intros Hok.
  unfold Supabase.deleteExercise, bind, Supabase.select_workout_ids_of_exercise,
    Supabase.delete_exercise_by_id.
  destruct (Supabase.integer_filter id) as [?|i]; [exact Hok|].
  destruct (0 <? _); [exact Hok|].
  destruct (existsb (has_id i) (exercise s) && existsb (uses_exercise i) (workout s));
    [exact Hok|].
  destruct Hok as [Hex Hwk]. split; cbn [snd exercise workout]; [|exact Hwk].
  now apply Forall_filter.
Qed.

(** X22. The rows of the hosted store stay within their column
    types along every run of the action-dispatched endpoint: from a
    store in which every id, [exercise_id] and duration is a 32-bit
    integer (a duration may be [null]), every date has at most 10
    characters and every name and gif at most 255, any sequence of
    requests (failing ones included) ends in such a store; the empty
    store is one, so every store the endpoint reaches from it is. *)
Theorem serve_keeps_typed_store (reqs : list Supabase.request) (s : db) :
  typed_store s ->
  typed_store (snd (serve reqs s)) /\ typed_store (snd (serve reqs empty_db)).
Proof.
  assert (H : forall s0, typed_store s0 -> typed_store (snd (serve reqs s0))).
  { apply serve_keeps.
    - intros d E s0. apply saveWorkout_typed.
    - intros d s0. apply deleteWorkout_typed.
    - intros name gif s0. apply addExercise_typed.
    - intros id name gif s0. apply updateExercise_typed.
    - intros id s0. apply deleteExercise_typed. }
  intros Hok. split; [now apply H|]. apply H. split; constructor.
Qed.

Lemma sample_typed : typed_store sample.
Proof.
  split; repeat constructor; unfold fits, fits_or_null, fits; simpl; lia.
Qed.

Lemma serve_keeps_typed_store_witness :
  typed_store sample /\
  typed_store
    (snd (serve
            [Supabase.mkRequest Supabase.POST (Some "workout") (Some "2024-01-03 ") None
               (mkBody None (ExArray [ElObj (Some 2) (Some 20)]) None None);
             Supabase.mkRequest Supabase.POST (Some "exercise") None None
               (mkBody None ExUndefined (Some "Plank") (Some "http://x/plank.gif"))]
            sample)).
Proof.
  split; [exact sample_typed|].
  apply (serve_keeps_typed_store
           [Supabase.mkRequest Supabase.POST (Some "workout") (Some "2024-01-03 ") None
              (mkBody None (ExArray [ElObj (Some 2) (Some 20)]) None None);
            Supabase.mkRequest Supabase.POST (Some "exercise") None None
              (mkBody None ExUndefined (Some "Plank") (Some "http://x/plank.gif"))]
           sample sample_typed).
Defined.

(** ** Deleting exercises *)

(** X15. An exercise that some workout row references is never
    deleted: the [DELETE] of the handler with [action=exercise] does
    not answer 200 and leaves the store exactly as it was, and when the
    id is a 32-bit integer, as the ids of the hosted store are, its
    answer carries the error "Cannot delete exercise that is used in
    workouts"; [DELETE /api/exercises/:id] answers 400 with the same
    message and leaves the store as it was. *)
Theorem used_exercise_is_kept (s : db) (i : Z) (t : string) (date : option string)
        (b : body) :
  (exists w, In w (workout s) /\ w_exercise_id w = i) ->
  Js.parseInt t = Some i ->
  let res := Supabase.handler
               (Supabase.mkRequest Supabase.DELETE (Some "exercise") date (Some t) b) s in
  snd res = s /\
  status (fst res) <> 200 /\
  (Supabase.int4 i = true ->
   sent (fst res) = RError "Cannot delete exercise that is used in workouts") /\
  Sqlite.delete_exercise (Some i) s
  = (mkResponse 400 (RError "Cannot delete exercise that is used in workouts"), s).
Proof.
  intros Hused Ht res.
  destruct (deleteExercise_guard s i t Hused Ht) as (Hhosted & Hs).
  destruct (Supabase.int4 i) eqn:Hi.
  - destruct (Hhosted eq_refl) as (_ & Hh).
    unfold res. rewrite Hh. cbn [fst snd status sent].
    repeat split; [discriminate | exact Hs].
  - unfold res.
    rewrite (delete_exercise_request s s i t date b _ Ht
               (deleteExercise_out_of_range s i Hi)).
    cbn [fst snd status sent]. repeat split; [discriminate.. | exact Hs].
Qed.

Lemma used_exercise_is_kept_witness :
  snd (Supabase.handler
         (Supabase.mkRequest Supabase.DELETE (Some "exercise") None (Some "2")
                             (mkBody None ExUndefined None None)) sample) = sample /\
  sent (fst (Supabase.handler
               (Supabase.mkRequest Supabase.DELETE (Some "exercise") None (Some "2")
                                   (mkBody None ExUndefined None None)) sample))
  = RError "Cannot delete exercise that is used in workouts".
Proof.
  destruct (used_exercise_is_kept sample 2 "2" None (mkBody None ExUndefined None None))
    as (Hsame & _ & Hsent & _).
  - exists (mkWorkout 3 "2024-01-01" 2 (Some 30)). simpl. auto.
  - reflexivity.
  - split; [exact Hsame | exact (Hsent eq_refl)].
Defined.

(** X16. An exercise that exists and that no workout row references
    is deleted, and only it: [DELETE /api/exercises/:id] answers 200,
    the workouts are untouched and the exercise rows left are exactly
    the rows with another id; when the id is a 32-bit integer, as the
    ids of the hosted store are, the [DELETE] of the handler answers
    200 and leaves that same store, and a lookup of the id afterwards
    finds nothing. *)
Theorem unused_exercise_is_deleted (s : db) (i : Z) (t : string) (date : option string)
        (b : body) :
  (forall w, In w (workout s) -> w_exercise_id w <> i) ->
  (exists e, In e (exercise s) /\ ex_id e = i) ->
  Js.parseInt t = Some i ->
  exists s',
    (Supabase.int4 i = true ->
     Supabase.handler
       (Supabase.mkRequest Supabase.DELETE (Some "exercise") date (Some t) b) s
     = (mkResponse 200 (RDeleted true), s') /\
     Supabase.getExerciseById (Some i) s' = (Ok None, s')) /\
    Sqlite.delete_exercise (Some i) s = (mkResponse 200 RSuccess, s') /\
    workout s' = workout s /\
    (forall e, In e (exercise s') <-> In e (exercise s) /\ ex_id e <> i).
Proof.
  intros Hfree Hex Ht.
  destruct (deleteExercise_unreferenced s i Hfree Hex) as (s' & Hdel & Hs & Hwk & Hrows).
  exists s'. split; [|split; [exact Hs|split; [exact Hwk|exact Hrows]]].
  intros Hi. split.
  - now rewrite (delete_exercise_request s s' i t date b _ Ht (Hdel Hi)).
  - unfold Supabase.getExerciseById, bind, Supabase.select_exercise_single.
    cbn [Supabase.integer_filter]. rewrite Hi.
    rewrite no_row_with_id; [reflexivity|].
    intros e He. now apply Hrows in He.
Qed.

Lemma unused_exercise_is_deleted_witness :
  exists s',
    Sqlite.delete_exercise (Some 2) (without_date "2024-01-01" sample)
    = (mkResponse 200 RSuccess, s') /\
    Supabase.getExerciseById (Some 2) s' = (Ok None, s').
Proof.
  destruct (unused_exercise_is_deleted (without_date "2024-01-01" sample) 2 "2" None
              (mkBody None ExUndefined None None))
    as (s' & Hhosted & Hs & _).
  - simpl. intros w [<-|[]]. discriminate.
  - exists squats. simpl. auto.
  - reflexivity.
  - exists s'. split; [exact Hs | exact (proj2 (Hhosted eq_refl))].
Defined.

Lemma keep_all_rows {A : Type} (p : A -> bool) (l : list A) :
  (forall x, In x l -> p x = false) -> filter (fun x => negb (p x)) l = l.
Proof.
  intros H. apply filter_all. apply Forall_forall. intros x Hx.
  now rewrite (H x Hx).
Qed.

(** X17. Deleting an exercise that is not there deletes nothing: when
    no exercise row has the id (and, as the foreign key has it, no
    workout row references it), [DELETE /api/exercises/:id] answers 404
    "Exercise not found" and, the id being a 32-bit integer,
    [deleteExercise] returns [{ success: true, deleted: false }] and
    the [DELETE] of the handler answers 404 "Exercise not found"; the
    store is unchanged. *)
Theorem deleteExercise_unknown_id (s : db) (i : Z) (t : string) (date : option string)
        (b : body) :
  foreign_keys s ->
  (forall e, In e (exercise s) -> ex_id e <> i) ->
  Js.parseInt t = Some i ->
  (Supabase.int4 i = true ->
   Supabase.deleteExercise (Some i) s = (Ok (RDeleted false), s) /\
   Supabase.handler
     (Supabase.mkRequest Supabase.DELETE (Some "exercise") date (Some t) b) s
   = (mkResponse 404 (RError "Exercise not found"), s)) /\
  Sqlite.delete_exercise (Some i) s
  = (mkResponse 404 (RError "Exercise not found"), s).
Proof.
  intros Hfk Hno Ht.
  assert (Hfree : forall w, In w (workout s) -> uses_exercise i w = false).
  { intros w Hw. unfold foreign_keys in Hfk. rewrite Forall_forall in Hfk.
    destruct (Hfk w Hw) as (e & He & Hid). unfold uses_exercise.
    apply Z.eqb_neq. intros E. apply (Hno e He). congruence. }
  assert (Hrow : forall e, In e (exercise s) -> has_id i e = false).
  { intros e He. unfold has_id. apply Z.eqb_neq. now apply Hno. }
  pose proof (filter_none _ _ Hfree) as F.
  pose proof (filter_none _ _ Hrow) as G.
  pose proof (keep_all_rows _ _ Hrow) as K.
  assert (X : existsb (has_id i) (exercise s) = false).
  { apply not_true_is_false. intros H. apply existsb_exists in H as (e & He & E).
    rewrite (Hrow e He) in E. discriminate. }
  split.
  - intros Hi.
    assert (Hdel : Supabase.deleteExercise (Some i) s = (Ok (RDeleted false), s)).
    { unfold Supabase.deleteExercise, bind, Supabase.select_workout_ids_of_exercise,
        Supabase.delete_exercise_by_id.
      cbn [Supabase.integer_filter]. rewrite Hi, F.
      cbn [map List.length Z.of_nat Z.ltb Z.compare].
      rewrite X, G, K. cbn [andb]. now destruct s. }
    split; [exact Hdel|].
    now rewrite (delete_exercise_request s s i t date b _ Ht Hdel).
  - pose proof (F : filter (Sqlite.references (Some i)) (workout s) = []) as F'.
    pose proof (G : filter (Sqlite.matches_id (Some i)) (exercise s) = []) as G'.
    pose proof (X : existsb (Sqlite.matches_id (Some i)) (exercise s) = false) as X'.
    pose proof (K : filter (fun e => negb (Sqlite.matches_id (Some i) e)) (exercise s)
                    = exercise s) as K'.
    unfold Sqlite.delete_exercise, Sqlite.try_catch, bind, Sqlite.get_workout_count,
      Sqlite.run_delete_exercise.
    rewrite F'. cbn [List.length Z.of_nat Z.ltb Z.compare].
    rewrite X', G', K'. cbn [andb]. now destruct s.
Qed.

Lemma deleteExercise_unknown_id_witness :
  Supabase.int4 7 = true /\
  Supabase.handler
    (Supabase.mkRequest Supabase.DELETE (Some "exercise") None (Some "7")
                        (mkBody None ExUndefined None None)) sample
  = (mkResponse 404 (RError "Exercise not found"), sample) /\
  Sqlite.delete_exercise (Some 7) sample
  = (mkResponse 404 (RError "Exercise not found"), sample).
Proof.
  split; [reflexivity|].
  destruct (deleteExercise_unknown_id sample 7 "7" None
              (mkBody None ExUndefined None None)) as [Hhosted Hembedded].
  - exact (proj2 (proj2 sample_ok)).
  - simpl. intros e [<-|[<-|[]]]; discriminate.
  - reflexivity.
  - split; [exact (proj2 (Hhosted eq_refl)) | exact Hembedded].
Defined.

(** An id outside the 32 bits of the column, in the hosted store: the
    check query is refused, [deleteExercise] throws and the handler
    answers 500, whatever the tables hold. *)
Lemma deleteExercise_id_out_of_range :
  exists m,
    Supabase.handler
      (Supabase.mkRequest Supabase.DELETE (Some "exercise") None (Some "2147483648")
                          (mkBody None ExUndefined None None)) sample
    = (mkResponse 500 (RError m), sample).
Proof. eexists. reflexivity. Qed.

(** X18. Deleting the workouts that use an exercise frees it: when
    every workout row that references an existing exercise is of one
    date, the delete of the exercise right after
    [DELETE /api/workouts/:date] of that date succeeds with a 200 and
    removes exactly that exercise, and so does, the id being a 32-bit
    integer as the ids of the hosted store are, [deleteExercise] right
    after [deleteWorkout]. *)
Theorem deleteWorkout_frees_exercise (s : db) (d : string) (i : Z) :
  (forall w, In w (workout s) -> w_exercise_id w = i -> w_date w = d) ->
  (exists e, In e (exercise s) /\ ex_id e = i) ->
  exists s2,
    (Supabase.int4 i = true ->
     Supabase.deleteExercise (Some i) (snd (Supabase.deleteWorkout d s))
     = (Ok (RDeleted true), s2)) /\
    Sqlite.delete_exercise (Some i) (snd (Sqlite.delete_workouts d s))
    = (mkResponse 200 RSuccess, s2) /\
    (forall e, In e (exercise s2) <-> In e (exercise s) /\ ex_id e <> i).
Proof.
  intros Hdate Hex.
  destruct (deleteExercise_unreferenced (without_date d s) i) as (s2 & H1 & H2 & _ & H3).
  - intros w Hw E. cbn [without_date workout] in Hw.
    apply other_dates_In in Hw as [Hw Hne]. apply Hne. now apply Hdate.
  - exact Hex.
  - exists s2. split; [exact H1|]. split; [exact H2 | exact H3].
Qed.

Lemma deleteWorkout_frees_exercise_witness :
  exists s2,
    Supabase.deleteExercise (Some 2) (snd (Supabase.deleteWorkout "2024-01-01" sample))
    = (Ok (RDeleted true), s2).
Proof.
  destruct (deleteWorkout_frees_exercise sample "2024-01-01" 2) as (s2 & H & _).
  - simpl. intros w [<-|[<-|[<-|[]]]]; simpl; intros; congruence.
  - exists squats. simpl. auto.
  - exists s2. exact (H eq_refl).
Defined.

(** ** Dates after a save or a delete *)

(** X19. After [deleteWorkout] the date is no longer among the
    workout dates, and every other date is listed exactly as before;
    the same holds for [DELETE /api/workouts/:date] and
    [GET /api/workout-dates]. *)
Theorem deleted_date_not_listed (s : db) (d : string) :
  (exists dates,
      Supabase.getAllWorkoutDates (snd (Supabase.deleteWorkout d s))
      = (Ok dates, snd (Supabase.deleteWorkout d s)) /\
      ~ In d dates /\
      forall d', d' <> d ->
                 (In d' dates <-> exists w, In w (workout s) /\ w_date w = d')) /\
  (exists dates,
      Sqlite.get_workout_dates (snd (Sqlite.delete_workouts d s))
      = (mkResponse 200 (RDates dates), snd (Sqlite.delete_workouts d s)) /\
      ~ In d dates /\
      forall d', d' <> d ->
                 (In d' dates <-> exists w, In w (workout s) /\ w_date w = d')).
Proof.
  assert (Hrows : forall d', (exists w, In w (workout (without_date d s)) /\ w_date w = d')
                             <-> (d' <> d /\ exists w, In w (workout s) /\ w_date w = d')).
  { intros d'. cbn [without_date workout]. split.
    - intros (w & Hw & <-). apply other_dates_In in Hw as [Hw Hne]. eauto.
    - intros (Hne & w & Hw & <-). exists w. split; [|reflexivity].
      now apply other_dates_In. }
  split.
  - destruct (getAllWorkoutDates_listing (without_date d s)) as (dates & Hget & Hin & _).
    exists dates. split; [exact Hget|]. split.
    + intros H. apply Hin, Hrows in H. tauto.
    + intros d' Hne. rewrite Hin, Hrows. tauto.
  - destruct (get_workout_dates_listing (without_date d s)) as (dates & Hget & Hin & _).
    exists dates. split; [exact Hget|]. split.
    + intros H. apply Hin, Hrows in H. tauto.
    + intros d' Hne. rewrite Hin, Hrows. tauto.
Qed.

(** X20. A date is among the workout dates exactly when the workout
    last saved for it is not empty: for a date of at most 10
    characters, after a successful [saveWorkout] of entries [E] for the
    date, [getAllWorkoutDates] lists the date if and only if [E] has an
    entry, and lists every other date as before.  The save does succeed
    in a store as the schema keeps it when the entries name existing
    exercises, ids and durations are 32-bit integers (a duration may be
    [null]) and the workout sequence has a key left for every entry. *)
Theorem saved_date_listed_iff_nonempty (s : db) (d : string) (E : list element) :
  fits 10 d ->
  (forall s1,
      Supabase.saveWorkout d E s = (Ok RSuccess, s1) ->
      exists dates,
        Supabase.getAllWorkoutDates s1 = (Ok dates, s1) /\
        (In d dates <-> E <> []) /\
        forall d', d' <> d ->
                   (In d' dates <-> exists w, In w (workout s) /\ w_date w = d')) /\
  (db_ok s -> Forall (names_exercise s) E -> Forall typed_entry E ->
   keys_left s (List.length E) ->
   exists s1, Supabase.saveWorkout d E s = (Ok RSuccess, s1)).
Proof.
  intros Hfit. split.
  - intros s1 Hsave.
    destruct (saveWorkout_cases s d E)
      as [(m & last & Hthrow & _) | (ws & Hok & Hread & _ & Hmap & _)];
      [rewrite Hthrow in Hsave; discriminate|].
    rewrite Hok in Hsave. inversion Hsave; subst s1; clear Hsave.
    pose proof (saved_rows_dated d E ws Hfit Hread) as Hd.
    match goal with
    | |- context [Supabase.getAllWorkoutDates ?s1] =>
        destruct (getAllWorkoutDates_listing s1) as (dates & Hget & Hin & _)
    end.
    exists dates. split; [exact Hget|].
    cbn [workout without_date] in Hin. rewrite Forall_forall in Hd. split.
    + rewrite Hin. split.
      * intros (w & Hw & Hdw) HE. apply in_app_or in Hw as [Hw|Hw].
        -- apply other_dates_In in Hw. tauto.
        -- subst E. destruct ws; [contradiction | discriminate].
      * intros Hne. destruct ws as [|w ws]; [now subst E|].
        exists w. split; [apply in_or_app; right; now left | apply Hd; now left].
    + intros d' Hne. rewrite Hin. split.
      * intros (w & Hw & <-). apply in_app_or in Hw as [Hw|Hw].
        -- apply other_dates_In in Hw. exists w. tauto.
        -- exfalso. apply Hne. now apply Hd.
      * intros (w & Hw & <-). exists w. split; [|reflexivity].
        apply in_or_app. left. now apply other_dates_In.
  - intros (_ & Hseq & _) HE Htyped Hkeys.
    destruct (saveWorkout_then_read s d E Hseq HE Hfit Htyped Hkeys)
      as (s1 & _ & Hsave & _).
    now exists s1.
Qed.

Lemma saved_date_listed_iff_nonempty_witness :
  fits 10 "2024-01-03" /\
  exists s1 dates,
    Supabase.saveWorkout "2024-01-03" [ElObj (Some 2) (Some 10); ElObj (Some 1) None]
                         sample = (Ok RSuccess, s1) /\
    Supabase.getAllWorkoutDates s1 = (Ok dates, s1) /\
    In "2024-01-03" dates.
Proof.
  assert (Hd : fits 10 "2024-01-03") by (unfold fits; simpl; lia).
  assert (Hk : keys_left sample 2) by (unfold keys_left; simpl; lia).
  split; [exact Hd|].
  destruct (saved_date_listed_iff_nonempty sample "2024-01-03"
              [ElObj (Some 2) (Some 10); ElObj (Some 1) None] Hd) as [Hlisted Hsaved].
  destruct (Hsaved sample_ok sample_entries sample_entries_typed Hk) as (s1 & Hsave).
  destruct (Hlisted s1 Hsave) as (dates & Hget & Hin & _).
  exists s1, dates. split; [exact Hsave|]. split; [exact Hget|].
  apply Hin. discriminate.
Defined.

Lemma no_rows_no_date (d : string) (l : list workout_row) :
  filter (has_date d) l = [] -> forall w, In w l -> has_date d w = false.
Proof.
  intros H w Hw. destruct (has_date d w) eqn:E; [|reflexivity].
  assert (Hin : In w (filter (has_date d) l)) by (apply filter_In; now split).
  rewrite H in Hin. contradiction.
Qed.

(** Deleting the workout of a date that has none. *)
Lemma delete_nothing (s0 : db) (d : string) :
  filter (has_date d) (workout s0) = [] ->
  Supabase.deleteWorkout d s0 = (Ok (RDeletedRows 0), s0) /\
  Sqlite.delete_workouts d s0 = (mkResponse 200 (RDeletedRows 0), s0).
Proof.
  intros Hnone.
  pose proof (keep_all_rows _ _ (no_rows_no_date d _ Hnone)) as Hkeep.
  split.
  - unfold Supabase.deleteWorkout, bind, Supabase.delete_workout_by_date.
    rewrite Hnone, Hkeep. now destruct s0.
  - pose proof (Hnone : filter (Sqlite.is_date (Some d)) (workout s0) = []) as N.
    pose proof (Hkeep : filter (fun w => negb (Sqlite.is_date (Some d) w)) (workout s0)
                        = workout s0) as K.
    unfold Sqlite.delete_workouts, Sqlite.try_catch, bind, Sqlite.run_delete_workout.
    rewrite N, K. now destruct s0.
Qed.

(** X21. Deleting a workout twice is deleting it once: the second
    [deleteWorkout] (or [DELETE /api/workouts/:date]) of the same date
    reports 0 deleted rows and leaves the store as the first left it. *)
Theorem deleteWorkout_twice (s : db) (d : string) :
  Supabase.deleteWorkout d (snd (Supabase.deleteWorkout d s))
  = (Ok (RDeletedRows 0), snd (Supabase.deleteWorkout d s)) /\
  Sqlite.delete_workouts d (snd (Sqlite.delete_workouts d s))
  = (mkResponse 200 (RDeletedRows 0), snd (Sqlite.delete_workouts d s)).
Proof.
  change (snd (Supabase.deleteWorkout d s)) with (without_date d s).
  change (snd (Sqlite.delete_workouts d s)) with (without_date d s).
  apply delete_nothing. apply no_date_left.
Qed.
